(** * VoID-alpha: the training loop of [train.py]

    A shallow embedding of [train], [train_epoch] and [validate_epoch]
    from [src/train.py], and the properties of the loop that the
    repository's specification states.

    The three functions are written in a state-and-exception monad over
    a [World] that holds what the Python code mutates: the model
    (parameters, buffers, train/eval flag), the autograd mode, the
    gradients, the optimizer state, the four metric lists of [train],
    the [wandb] log and the console.  PyTorch itself (the model, the
    loss function, the optimizer, tensor placement, [argmax]) is not
    code of this repository: it enters as the interface [Torch], whose
    operations may raise. *)

From Stdlib Require Import ZArith List String Bool Lia QArith.
From Stdlib Require Import Floats.
Import ListNotations.

Local Open Scope Z_scope.

(** ** Python values *)

(** Exceptions.  Those that the operators used in [train.py] raise
    themselves (division, tensor comparison, list indexing) are named;
    every other exception is one a collaborator raised, kept by class
    name and message. *)
Inductive exn : Type :=
| ZeroDivisionError (msg : string)
| RuntimeError (msg : string)
| IndexError (msg : string)
| PyError (cls msg : string).

(** The outcome of evaluating an expression: a value, or a raised
    exception. *)
Inductive Res (A : Type) : Type :=
| Ok (a : A)
| Raise (e : exn).
Arguments Ok {A} a.
Arguments Raise {A} e.

(** [float(z)] for a Python int: the nearest binary64 value. *)
Definition Z2float (z : Z) : float :=
  SF2Prim (binary_normalize prec emax z 0 false).

(** [x / n] for a float [x] and an int [n] (lines 37, 38, 48, 49). *)
Definition float_div_int (x : float) (n : Z) : Res float :=
  if n =? 0 then Raise (ZeroDivisionError "float division by zero")
  else Ok (PrimFloat.div x (Z2float n)).

(** [c / n] for two ints (lines 82, 103): true division.  Python rounds
    the exact quotient once; for operands below 2^53, which every
    tensor length is, that is the binary64 quotient of the two
    conversions. *)
Definition int_truediv (c n : Z) : Res float :=
  if n =? 0 then Raise (ZeroDivisionError "division by zero")
  else Ok (PrimFloat.div (Z2float c) (Z2float n)).

(** [len(xs)]. *)
Definition len {A : Type} (xs : list A) : Z := Z.of_nat (List.length xs).

(** [range(n)]: empty when [n <= 0]. *)
Definition range (n : Z) : list Z := map Z.of_nat (seq 0 (Z.to_nat n)).

(** [xs[i]]: a negative index counts from the end. *)
Definition getitem {A : Type} (xs : list A) (i : Z) : Res A :=
  let j := if i <? 0 then i + len xs else i in
  if j <? 0 then Raise (IndexError "list index out of range")
  else match nth_error xs (Z.to_nat j) with
       | Some x => Ok x
       | None => Raise (IndexError "list index out of range")
       end.

(** ** Tensors of class indices *)

(** [(prediction == target).sum().item()] for two 1-D integer tensors:
    the number of positions that agree. *)
Fixpoint count_eq (p t : list Z) : Z :=
  match p, t with
  | x :: p', y :: t' => (if x =? y then 1 else 0) + count_eq p' t'
  | _, _ => 0
  end.

(** The comparison broadcasts: equal lengths compare position by
    position, a one-element tensor is compared with every element of
    the other, and any other pair of lengths is a shape error. *)
Definition tensor_eq_sum (p t : list Z) : Res Z :=
  if len p =? len t then Ok (count_eq p t)
  else if len t =? 1 then Ok (count_eq p (repeat (hd 0 t) (List.length p)))
  else if len p =? 1 then Ok (count_eq (repeat (hd 0 p) (List.length t)) t)
  else Raise (RuntimeError "The size of tensor a must match the size of tensor b").

(** The per-batch accuracy of lines 82 and 103:
    [(prediction == target).sum().item() / len(prediction)]. *)
Definition batch_accuracy (prediction target : list Z) : Res float :=
  match tensor_eq_sum prediction target with
  | Raise e => Raise e
  | Ok correct => int_truediv correct (len prediction)
  end.

(** ** The collaborators

    What [train.py] calls but does not define.  [Wav] is a batch of
    inputs, [Out] the model's output tensor, [Loss] the scalar loss
    tensor (with its autograd graph).  A target tensor is its list of
    class indices.  Every call that can fail in PyTorch returns a
    [Res]. *)
Class Torch : Type := {
  Device : Type;
  Wav : Type;
  Out : Type;
  Loss : Type;
  Params : Type;     (* the trainable parameters *)
  Buffers : Type;    (* module state that is not a parameter *)
  Grads : Type;      (* the [.grad] of the parameters *)
  OptState : Type;   (* e.g. momentum *)
  (** [wav.to(device)] *)
  wav_to : Wav -> Device -> Res Wav;
  (** [target.to(device)]: the same indices, unless placement fails *)
  target_to_raises : list Z -> Device -> option exn;
  (** [model(wav)] given parameters, buffers, [model.training] and the
      autograd mode; a forward pass may update the buffers *)
  forward : Params -> Buffers -> bool -> bool -> Wav -> Res Out * Buffers;
  (** [loss_fn(output, target)] *)
  loss_fn : Out -> list Z -> Res Loss;
  (** [loss.item()] *)
  item : Loss -> float;
  (** [torch.argmax(output, 1)] *)
  argmax1 : Out -> Res (list Z);
  (** [optimizer.zero_grad()] *)
  zero_grad : Grads -> Res Grads;
  (** [loss.backward()]: accumulates into the gradients *)
  backward : Loss -> Grads -> Res Grads;
  (** [optimizer.step()] *)
  step : OptState -> Params -> Grads -> Res (Params * OptState)
}.

(** One line of console output, before formatting. *)
Inductive line : Type :=
| EpochLine (n epochs : Z)          (* "Epoch n/epochs" *)
| TrainingLine (loss acc : float)   (* "Training Loss: ..., Training Accuracy  ..." *)
| TestingLine (loss acc : float)    (* "Testing Loss: ..., Testing Accuracy  ..." *)
| RuleLine                          (* the dashed rule *)
| FinishedLine.                     (* "---- Finished Training ----" *)

(** A dataloader is the list of the batches that a pass over it
    yields, in the order it yields them; [len] of it is the number of
    batches.  The order is the provider's own (a shuffling dataloader
    is taken at the order of the pass looked at).  A run of several
    epochs is taken with every pass yielding this same list, and with
    a pass having no effect of its own on the world: a dataloader that
    reshuffles between passes, or that shares a random number
    generator with the model, is outside what a statement about
    several passes says, unless it holds whatever each pass yields.
    [tqdm] only decorates the iteration. *)
Definition Batch `{Torch} : Type := (Wav * list Z)%type.
Definition DataLoader `{Torch} : Type := list Batch.

Section Embedding.
Context `{T : Torch}.

(** ** The state the code mutates *)
Record World : Type := mkWorld {
  params : Params;
  buffers : Buffers;
  training : bool;                       (* [model.training] *)
  grad_enabled : bool;                   (* [torch.is_grad_enabled()] *)
  grads : Grads;
  opt_state : OptState;
  training_acc : list float;             (* the four lists of [train] *)
  training_loss : list float;
  testing_acc : list float;
  testing_loss : list float;
  wandb_log : list (list (string * float));   (* calls of [wandb.log], oldest first *)
  console : list line                    (* printed lines, oldest first *)
}.

Definition set_buffers (b : Buffers) (w : World) : World :=
  mkWorld (params w) b (training w) (grad_enabled w) (grads w) (opt_state w)
          (training_acc w) (training_loss w) (testing_acc w) (testing_loss w)
          (wandb_log w) (console w).

Definition set_training (b : bool) (w : World) : World :=
  mkWorld (params w) (buffers w) b (grad_enabled w) (grads w) (opt_state w)
          (training_acc w) (training_loss w) (testing_acc w) (testing_loss w)
          (wandb_log w) (console w).

Definition set_grad_enabled (b : bool) (w : World) : World :=
  mkWorld (params w) (buffers w) (training w) b (grads w) (opt_state w)
          (training_acc w) (training_loss w) (testing_acc w) (testing_loss w)
          (wandb_log w) (console w).

Definition set_grads (g : Grads) (w : World) : World :=
  mkWorld (params w) (buffers w) (training w) (grad_enabled w) g (opt_state w)
          (training_acc w) (training_loss w) (testing_acc w) (testing_loss w)
          (wandb_log w) (console w).

Definition set_params_opt (p : Params) (o : OptState) (w : World) : World :=
  mkWorld p (buffers w) (training w) (grad_enabled w) (grads w) o
          (training_acc w) (training_loss w) (testing_acc w) (testing_loss w)
          (wandb_log w) (console w).

Definition set_history (ta tl va vl : list float) (w : World) : World :=
  mkWorld (params w) (buffers w) (training w) (grad_enabled w) (grads w) (opt_state w)
          ta tl va vl (wandb_log w) (console w).

Definition add_log (entry : list (string * float)) (w : World) : World :=
  mkWorld (params w) (buffers w) (training w) (grad_enabled w) (grads w) (opt_state w)
          (training_acc w) (training_loss w) (testing_acc w) (testing_loss w)
          (wandb_log w ++ [entry]) (console w).

Definition add_line (l : line) (w : World) : World :=
  mkWorld (params w) (buffers w) (training w) (grad_enabled w) (grads w) (opt_state w)
          (training_acc w) (training_loss w) (testing_acc w) (testing_loss w)
          (wandb_log w) (console w ++ [l]).

(** ** The monad: state that survives an exception *)
Definition M (A : Type) : Type := World -> Res A * World.

Definition ret {A : Type} (a : A) : M A := fun w => (Ok a, w).

Definition bind {A B : Type} (m : M A) (k : A -> M B) : M B :=
  fun w => match m w with
           | (Ok a, w') => k a w'
           | (Raise e, w') => (Raise e, w')
           end.

(** An expression that may raise but touches no state. *)
Definition lift {A : Type} (r : Res A) : M A := fun w => (r, w).

Definition get : M World := fun w => (Ok w, w).

Definition modify (f : World -> World) : M unit := fun w => (Ok tt, f w).

End Embedding.

Declare Scope py_scope.
Delimit Scope py_scope with py.
Notation "x <- m ;; k" := (bind m (fun x => k))
  (at level 61, m at next level, right associativity) : py_scope.
Notation "' p <- m ;; k" := (bind m (fun x => match x with p => k end))
  (at level 61, p pattern, m at next level, right associativity) : py_scope.
Notation "m ;; k" := (bind m (fun _ => k))
  (at level 61, right associativity) : py_scope.

Section Program.
Context `{T : Torch}.
Local Open Scope py_scope.

(** [for x in xs: acc = body(acc, x)]: the loop stops at the first
    exception. *)
Fixpoint for_each {A B : Type} (body : A -> B -> M A) (xs : list B) (acc : A) : M A :=
  match xs with
  | [] => ret acc
  | x :: xs' => acc' <- body acc x ;; for_each body xs' acc'
  end.

(** *** The calls into PyTorch, as actions on the world *)

(** [model.train()] and [model.eval()] *)
Definition model_train : M unit := modify (set_training true).
Definition model_eval : M unit := modify (set_training false).

(** [target.to(device)] *)
Definition target_to (target : list Z) (device : Device) : M (list Z) :=
  match target_to_raises target device with
  | Some e => lift (Raise e)
  | None => ret target
  end.

(** [model(wav)] *)
Definition model_call (wav : Wav) : M Out :=
  fun w =>
    let '(r, b) := forward (params w) (buffers w) (training w) (grad_enabled w) wav in
    (r, set_buffers b w).

(** [optimizer.zero_grad()] *)
Definition optimizer_zero_grad : M unit :=
  fun w => match zero_grad (grads w) with
           | Ok g => (Ok tt, set_grads g w)
           | Raise e => (Raise e, w)
           end.

(** [loss.backward()] *)
Definition loss_backward (loss : Loss) : M unit :=
  fun w => match backward loss (grads w) with
           | Ok g => (Ok tt, set_grads g w)
           | Raise e => (Raise e, w)
           end.

(** [optimizer.step()] *)
Definition optimizer_step : M unit :=
  fun w => match step (opt_state w) (params w) (grads w) with
           | Ok (p, o) => (Ok tt, set_params_opt p o w)
           | Raise e => (Raise e, w)
           end.

(** [with torch.no_grad(): body]: the previous mode comes back on
    every exit, normal or not. *)
Definition with_no_grad {A : Type} (body : M A) : M A :=
  fun w =>
    let prev := grad_enabled w in
    let '(r, w') := body (set_grad_enabled false w) in
    (r, set_grad_enabled prev w').

(** [print(...)] and [wandb.log({...})]; neither is taken to fail. *)
Definition print (l : line) : M unit := modify (add_line l).
Definition wandb_log_call (entry : list (string * float)) : M unit :=
  modify (add_log entry).

(** *** train_epoch (lines 60-85) *)

(** One batch: lines 68-77 and the right-hand sides of lines 80 and
    82.  It yields [loss.item()] and the batch's accuracy fraction;
    the three [+=] on the local floats are left to [accumulate], once
    the batch has gone through: locals are lost when a batch raises,
    so nothing can tell when they were updated. *)
Definition train_batch (device : Device) (b : Batch) : M (float * float) :=
  wav <- lift (wav_to (fst b) device) ;;
  target <- target_to (snd b) device ;;
  output <- model_call wav ;;
  loss <- lift (loss_fn output target) ;;
  optimizer_zero_grad ;;
  loss_backward loss ;;
  optimizer_step ;;
  prediction <- lift (argmax1 output) ;;
  acc <- lift (batch_accuracy prediction target) ;;
  ret (item loss, acc).

(** The [+=] of lines 80, 82 and 83 (101, 103 and 104) on the three
    local floats. *)
Definition accumulate (sums : float * float * float) (m : float * float)
  : float * float * float :=
  let '(sum_loss, sum_acc, total) := sums in
  (PrimFloat.add sum_loss (fst m), PrimFloat.add sum_acc (snd m),
   PrimFloat.add total 1%float).

(** The loop of lines 67-83, from [train_loss = train_acc = total = 0.0]. *)
Definition train_loop (train_dataloader : DataLoader) (device : Device)
  : M (float * float * float) :=
  for_each (fun sums b => m <- train_batch device b ;; ret (accumulate sums m))
           train_dataloader (0%float, 0%float, 0%float).

Definition train_epoch (train_dataloader : DataLoader) (device : Device)
  : M (float * float) :=
  model_train ;;
  ' (train_loss, train_acc, _) <- train_loop train_dataloader device ;;
  ret (train_loss, train_acc).

(** *** validate_epoch (lines 87-106) *)

Definition validate_batch (device : Device) (b : Batch) : M (float * float) :=
  wav <- lift (wav_to (fst b) device) ;;
  target <- target_to (snd b) device ;;
  output <- model_call wav ;;
  loss <- lift (loss_fn output target) ;;
  prediction <- lift (argmax1 output) ;;
  acc <- lift (batch_accuracy prediction target) ;;
  ret (item loss, acc).

(** The loop of lines 95-104. *)
Definition validate_loop (test_dataloader : DataLoader) (device : Device)
  : M (float * float * float) :=
  for_each (fun sums b => m <- validate_batch device b ;; ret (accumulate sums m))
           test_dataloader (0%float, 0%float, 0%float).

Definition validate_epoch (test_dataloader : DataLoader) (device : Device)
  : M (float * float) :=
  model_eval ;;
  ' (test_loss, test_acc, _) <- with_no_grad (validate_loop test_dataloader device) ;;
  ret (test_loss, test_acc).

(** *** train (lines 24-57) *)

(** [xs.append(x)] on each of the four lists. *)
Definition append_training_loss (x : float) : M unit :=
  modify (fun w => set_history (training_acc w) (training_loss w ++ [x])
                               (testing_acc w) (testing_loss w) w).
Definition append_training_acc (x : float) : M unit :=
  modify (fun w => set_history (training_acc w ++ [x]) (training_loss w)
                               (testing_acc w) (testing_loss w) w).
Definition append_testing_loss (x : float) : M unit :=
  modify (fun w => set_history (training_acc w) (training_loss w)
                               (testing_acc w) (testing_loss w ++ [x]) w).
Definition append_testing_acc (x : float) : M unit :=
  modify (fun w => set_history (training_acc w) (training_loss w)
                               (testing_acc w ++ [x]) (testing_loss w) w).

(** Reading [xs[i]] from one of the lists. *)
Definition read (field : World -> list float) (i : Z) : M float :=
  w <- get ;; lift (getitem (field w) i).

(** Lines 37-41, under the comment [# training metrics]. *)
Definition training_metrics (train_dataloader : DataLoader) (i : Z)
    (train_epoch_loss train_epoch_acc : float) : M unit :=
  x <- lift (float_div_int train_epoch_loss (len train_dataloader)) ;;
  append_training_loss x ;;
  y <- lift (float_div_int train_epoch_acc (len train_dataloader)) ;;
  append_training_acc y ;;
  l <- read training_loss i ;;
  a <- read training_acc i ;;
  print (TrainingLine l a) ;;
  l <- read training_loss i ;;
  a <- read training_acc i ;;
  wandb_log_call [("training_loss"%string, l); ("training_acc"%string, a)].

(** Lines 48-52, under the comment [# testing metrics]. *)
Definition testing_metrics (test_dataloader : DataLoader) (i : Z)
    (test_epoch_loss test_epoch_acc : float) : M unit :=
  x <- lift (float_div_int test_epoch_loss (len test_dataloader)) ;;
  append_testing_loss x ;;
  y <- lift (float_div_int test_epoch_acc (len test_dataloader)) ;;
  append_testing_acc y ;;
  l <- read testing_loss i ;;
  a <- read testing_acc i ;;
  print (TestingLine l a) ;;
  l <- read testing_loss i ;;
  a <- read testing_acc i ;;
  wandb_log_call [("testing_loss"%string, l); ("testing_acc"%string, a)].

(** [bool(test_dataloader)]: [None] is false, and a dataloader is
    true exactly when its length is not zero. *)
Definition truthy (test_dataloader : option DataLoader) : bool :=
  match test_dataloader with
  | None => false
  | Some dl => negb (len dl =? 0)
  end.

(** Lines 43-52: [if test_dataloader: ...]. *)
Definition test_model (test_dataloader : option DataLoader) (device : Device) (i : Z)
  : M unit :=
  match test_dataloader with
  | Some test_dl =>
      if truthy test_dataloader then
        ' (test_epoch_loss, test_epoch_acc) <- validate_epoch test_dl device ;;
        testing_metrics test_dl i test_epoch_loss test_epoch_acc
      else ret tt
  | None => ret tt
  end.

(** Lines 31-54: the body of the loop over the epochs. *)
Definition train_iteration (train_dataloader : DataLoader) (device : Device)
    (epochs : Z) (test_dataloader : option DataLoader) (i : Z) : M unit :=
  print (EpochLine (i + 1) epochs) ;;
  ' (train_epoch_loss, train_epoch_acc) <- train_epoch train_dataloader device ;;
  training_metrics train_dataloader i train_epoch_loss train_epoch_acc ;;
  test_model test_dataloader device i ;;
  print RuleLine.

(** The value [train] returns: the four lists, in the order of line 57. *)
Definition History : Type :=
  (list float * list float * list float * list float)%type.

(** The loop of line 30 over the epochs [indices]. *)
Definition epochs_loop (train_dataloader : DataLoader) (device : Device) (epochs : Z)
    (test_dataloader : option DataLoader) (indices : list Z) : M unit :=
  for_each (fun _ i => train_iteration train_dataloader device epochs test_dataloader i)
           indices tt.

Definition train (train_dataloader : DataLoader) (device : Device) (epochs : Z)
    (test_dataloader : option DataLoader) : M History :=
  modify (set_history [] [] [] []) ;;
  epochs_loop train_dataloader device epochs test_dataloader (range epochs) ;;
  print FinishedLine ;;
  w <- get ;;
  ret (training_acc w, training_loss w, testing_acc w, testing_loss w).

End Program.

(** ** The entry point: the name of the saved model (lines 144-146)

    Of the script under [if __name__ == "__main__"], what is computed
    by this file itself: the name under which the trained model is
    saved.  [now = datetime.now()] is read from the clock; line 145
    turns it into a string and line 146 builds the path from it. *)

(** What [datetime.now()] returns: the reading of the local clock. *)
Record datetime : Type := mkDatetime {
  year : Z;
  month : Z;
  day : Z;
  hour : Z;
  minute : Z;
  second : Z;
  microsecond : Z
}.

(** The character of a decimal digit. *)
Definition digit_char (d : Z) : Ascii.ascii := Ascii.ascii_of_nat (48 + Z.to_nat d).

(** The directives [%m], [%d], [%H], [%M] and [%S]: two digits, padded
    with a zero. *)
Definition two_digits (n : Z) : string :=
  String (digit_char (n / 10)) (String (digit_char (n mod 10)) EmptyString).

(** The directive [%Y]: the year with its century, which is four
    digits from the year 1000 on. *)
Definition four_digits (n : Z) : string :=
  String (digit_char (n / 1000))
    (String (digit_char (n / 100 mod 10)) (two_digits (n mod 100))).

(** [now.strftime("%Y%m%d_%H%M%S")] (line 145). *)
Definition strftime_Ymd_HMS (now : datetime) : string :=
  (four_digits (year now) ++ two_digits (month now) ++ two_digits (day now)
   ++ "_" ++ two_digits (hour now) ++ two_digits (minute now)
   ++ two_digits (second now))%string.

(** [f"models/aisf/void_{now}.pth"] (line 146), [now] being by then the
    string of line 145. *)
Definition model_filename (now : string) : string :=
  ("models/aisf/void_" ++ now ++ ".pth")%string.

(** ** A concrete instance of the collaborators

    A stand-in for PyTorch on which the functions can be run.  A batch
    of inputs carries the loss and the predictions the model will give
    for it; [None] is a malformed batch on which the model raises.  The
    parameters count what the optimizer added to them, and the buffers
    count the forward passes made in training mode. *)
Definition bad_input : exn := PyError "RuntimeError" "malformed batch".

Definition scenario : Torch := {|
  Device := string;
  Wav := option (float * list Z);
  Out := (float * list Z)%type;
  Loss := float;
  Params := nat;
  Buffers := nat;
  Grads := nat;
  OptState := unit;
  wav_to := fun wav _ => Ok wav;
  target_to_raises := fun _ _ => None;
  forward := fun _ b tr _ wav =>
    match wav with
    | Some x => (Ok x, if tr then S b else b)
    | None => (Raise bad_input, b)
    end;
  loss_fn := fun out _ => Ok (fst out);
  item := fun l => l;
  argmax1 := fun out => Ok (snd out);
  zero_grad := fun _ => Ok 0%nat;
  backward := fun _ g => Ok (S g);
  step := fun o p g => Ok ((p + g)%nat, o)
|}.

(** Four batches of two examples: losses 1, 2, 3, 4 and 2, 1, 1, 0
    correct predictions. *)
Definition batch1 : @Batch scenario := (Some (1%float, [0; 1]), [0; 1]).
Definition batch2 : @Batch scenario := (Some (2%float, [0; 1]), [0; 0]).
Definition batch3 : @Batch scenario := (Some (3%float, [1; 1]), [0; 1]).
Definition batch4 : @Batch scenario := (Some (4%float, [1; 0]), [0; 1]).

Definition four_batches : @DataLoader scenario := [batch1; batch2; batch3; batch4].

(** A malformed batch, and a dataloader that yields it second. *)
Definition bad_batch : @Batch scenario := (None, [0; 1]).

Definition broken_batches : @DataLoader scenario := [batch1; bad_batch].

Definition cpu : @Device scenario := "cpu"%string.

(** A fresh process: model in evaluation mode, autograd on, nothing
    logged or printed. *)
Definition world0 : @World scenario :=
  @mkWorld scenario 0%nat 0%nat false true 0%nat tt [] [] [] [] [] [].

(** The world when [train_epoch] is called in the first epoch of a
    one-epoch run from [world0], and the world after each of the first
    [k] batches of [four_batches]. *)
Definition epoch1_start : @World scenario :=
  add_line (EpochLine 1 1) (set_history [] [] [] [] world0).

Definition after_batches (k : nat) : @World scenario :=
  snd (train_loop (firstn k four_batches) cpu (set_training true epoch1_start)).


Definition ragged_batch : @Batch scenario := (Some (1%float, [0; 1]), [0; 1; 2]).

(** A batch whose loss is 2^53, where binary64 stops holding every
    integer. *)
Definition big_batch : @Batch scenario :=
  (Some (9007199254740992%float, [0; 1]), [0; 1]).

(** Two readings of the clock, one second apart. *)
Definition half_past_nine : datetime := mkDatetime 2023 5 17 9 30 59 123456.

Definition a_second_later : datetime := mkDatetime 2023 5 17 9 31 0 0.

(** ** Reading the log *)

(** The value a [wandb.log] call carries under [key], if any. *)
Fixpoint lookup (key : string) (entry : list (string * float)) : option float :=
  match entry with
  | [] => None
  | (k, v) :: rest => if String.eqb k key then Some v else lookup key rest
  end.

(** The series of values emitted under [key], oldest first. *)
Definition logged (key : string) (log : list (list (string * float))) : list float :=
  flat_map (fun entry => match lookup key entry with
                         | Some v => [v]
                         | None => []
                         end) log.

(** * The vocabulary of the statements *)

Section Vocabulary.
Context `{T : Torch}.

(** ** Properties of an action *)

(** [keeps f m]: whatever [m] does, and however it ends, the
    observation [f] of the world is the same afterwards. *)
Definition keeps {X A : Type} (f : World -> X) (m : M A) : Prop :=
  forall w, f (snd (m w)) = f w.

(** [maintains P m]: if [P] holds of the world before [m], it holds
    after, however [m] ends. *)
Definition maintains {A : Type} (P : World -> Prop) (m : M A) : Prop :=
  forall w, P w -> P (snd (m w)).

(** [raises_only P m]: every exception that leaves [m] satisfies [P]. *)
Definition raises_only {A : Type} (P : exn -> Prop) (m : M A) : Prop :=
  forall w e w', m w = (Raise e, w') -> P e.

(** What a forward pass reads from the world. *)
Definition agree (w w' : World) : Prop :=
  params w = params w' /\ buffers w = buffers w' /\
  training w = training w' /\ grad_enabled w = grad_enabled w'.

(** [same_on_agree m]: run from two worlds that agree on the model, [m]
    ends the same way in both and leaves them in agreement. *)
Definition same_on_agree {A : Type} (m : M A) : Prop :=
  forall w w', agree w w' ->
    fst (m w) = fst (m w') /\ agree (snd (m w)) (snd (m w')).

(** ** Worlds of a run of [train] *)

(** The world after lines 37-41 have run for an epoch whose
    normalized metrics are [x] (loss) and [y] (accuracy). *)
Definition after_training_metrics (x y : float) (w : World) : World :=
  add_log [("training_loss"%string, x); ("training_acc"%string, y)]
    (add_line (TrainingLine x y)
       (set_history (training_acc w ++ [y]) (training_loss w ++ [x])
                    (testing_acc w) (testing_loss w) w)).

(** The world after lines 48-52. *)
Definition after_testing_metrics (x y : float) (w : World) : World :=
  add_log [("testing_loss"%string, x); ("testing_acc"%string, y)]
    (add_line (TestingLine x y)
       (set_history (training_acc w) (training_loss w)
                    (testing_acc w ++ [y]) (testing_loss w ++ [x]) w)).

(** [same_records w w']: the four lists of [train], the log and the
    console are the same in both worlds. *)
Definition same_records (w w' : World) : Prop :=
  training_acc w = training_acc w' /\ training_loss w = training_loss w' /\
  testing_acc w = testing_acc w' /\ testing_loss w = testing_loss w' /\
  wandb_log w = wandb_log w' /\ console w = console w'.

(** What the loop has recorded after [i] epochs, [log0] being the log
    before the run: each list holds, in order, the values emitted under
    its own key, one per epoch. *)
Definition recorded (log0 : list (list (string * float)))
    (test_dataloader : option DataLoader) (i : Z) (w : World) : Prop :=
  exists new : list (list (string * float)),
    wandb_log w = log0 ++ new /\
    training_loss w = logged "training_loss" new /\
    training_acc w = logged "training_acc" new /\
    testing_loss w = logged "testing_loss" new /\
    testing_acc w = logged "testing_acc" new /\
    len (training_loss w) = i /\
    len (training_acc w) = i /\
    len (testing_loss w) = (if truthy test_dataloader then i else 0) /\
    len (testing_acc w) = (if truthy test_dataloader then i else 0) /\
    len new = (if truthy test_dataloader then i + i else i).

(** No testing metric has been appended or emitted since the log was
    [log0]. *)
Definition no_testing (log0 : list (list (string * float))) (w : World) : Prop :=
  testing_loss w = [] /\ testing_acc w = [] /\
  exists new : list (list (string * float)),
    wandb_log w = log0 ++ new /\
    logged "testing_loss" new = [] /\ logged "testing_acc" new = [].

(** ** Where exceptions come from *)

(** [e] is an exception that some call into PyTorch raises. *)
Definition from_collaborator (e : exn) : Prop :=
  (exists wav d, wav_to wav d = Raise e) \/
  (exists t d, target_to_raises t d = Some e) \/
  (exists p bf tr ge wav, fst (forward p bf tr ge wav) = Raise e) \/
  (exists out t, loss_fn out t = Raise e) \/
  (exists out, argmax1 out = Raise e) \/
  (exists g, zero_grad g = Raise e) \/
  (exists l g, backward l g = Raise e) \/
  (exists o p g, step o p g = Raise e).

(** [e] is an exception that the Python operators of [train.py] raise
    themselves: a division by a zero length, or a comparison of
    tensors whose shapes do not broadcast. *)
Definition from_operator (e : exn) : Prop :=
  e = ZeroDivisionError "float division by zero" \/
  e = ZeroDivisionError "division by zero" \/
  e = RuntimeError "The size of tensor a must match the size of tensor b".

(** The two together: the only exceptions a run can end with. *)
Definition origin (e : exn) : Prop := from_collaborator e \/ from_operator e.

(** ** Worlds that differ in part *)

(** [same_but_grads w w']: the two worlds differ at most in the
    gradients. *)
Definition same_but_grads (w w' : World) : Prop := set_grads (grads w) w' = w.

(** [same_model w w']: the model, the autograd mode, the gradients and
    the optimizer are in the same state in both worlds. *)
Definition same_model (w w' : World) : Prop :=
  params w = params w' /\ buffers w = buffers w' /\ training w = training w' /\
  grad_enabled w = grad_enabled w' /\ grads w = grads w' /\
  opt_state w = opt_state w'.

(** The same, but for the train/eval flag of the model. *)
Definition same_weights (w w' : World) : Prop :=
  params w = params w' /\ buffers w = buffers w' /\
  grad_enabled w = grad_enabled w' /\ grads w = grads w' /\
  opt_state w = opt_state w'.

(** ** Worlds of a run of [train] that fails *)

(** What a run holds when it fails in epoch [i], [log0] being the log
    before the run: the four lists hold what was emitted, the testing
    lists one entry for each of the [i] epochs before (when validation
    runs), and the training lists either as many, or one more: the
    entry of epoch [i] itself, when it is the validation of epoch [i]
    that failed. *)
Definition interrupted (log0 : list (list (string * float)))
    (test_dataloader : option DataLoader) (i : Z) (w : World) : Prop :=
  exists new : list (list (string * float)),
    wandb_log w = log0 ++ new /\
    training_loss w = logged "training_loss" new /\
    training_acc w = logged "training_acc" new /\
    testing_loss w = logged "testing_loss" new /\
    testing_acc w = logged "testing_acc" new /\
    len (testing_loss w) = (if truthy test_dataloader then i else 0) /\
    len (testing_acc w) = (if truthy test_dataloader then i else 0) /\
    ((len (training_loss w) = i /\ len (training_acc w) = i) \/
     (truthy test_dataloader = true /\
      len (training_loss w) = i + 1 /\ len (training_acc w) = i + 1)).

(** The four lists of [train], in the order of line 57. *)
Definition history_of (w : World) : History :=
  (training_acc w, training_loss w, testing_acc w, testing_loss w).

End Vocabulary.

(** ** The specification's reading of the history *)

(** The reading of the returned tuple that the specification gives:
    (training_loss, training_accuracy, testing_loss,
    testing_accuracy), each series being what was emitted under the
    key of that name. *)
Definition history_in_spec_order (h : History)
    (new : list (list (string * float))) : Prop :=
  h = (logged "training_loss" new, logged "training_acc" new,
       logged "testing_loss" new, logged "testing_acc" new).

(** The lengths the specification gives for a run of [epochs] epochs:
    the testing series are full exactly when a validation dataloader
    was passed. *)
Definition lengths_in_spec `{T : Torch} (epochs : Z)
    (test_dataloader : option DataLoader) (h : History) : Prop :=
  let '(s1, s2, s3, s4) := h in
  len s1 = epochs /\ len s2 = epochs /\
  ((len s3 = epochs /\ len s4 = epochs) <-> test_dataloader <> None).

(** ** Accuracy fractions *)

(** What the accuracy of one batch is, when prediction and target have
    the same shape. *)
Definition is_fraction (prediction target : list Z) (a : float) : Prop :=
  0 < len prediction /\
  0 <= count_eq prediction target <= len prediction /\
  a = PrimFloat.div (Z2float (count_eq prediction target)) (Z2float (len prediction)) /\
  (0 <= inject_Z (count_eq prediction target) / inject_Z (len prediction) <= 1)%Q /\
  (len prediction < 2 ^ 53 ->
   PrimFloat.leb 0%float a = true /\ PrimFloat.leb a 1%float = true).

(** What batch [b] contributes when the model is as in world [w1]: the
    accuracy [a], against the batch's target, of the classes that
    [torch.argmax] picks from the output that the model gives for the
    batch's input.  With the shapes matching it is the fraction of the
    examples that are classified as the target says. *)
Definition batch_fraction `{T : Torch} (device : Device) (b : Batch) (w1 : World)
    (a : float) : Prop :=
  exists wav out prediction,
    wav_to (fst b) device = Ok wav /\
    fst (forward (params w1) (buffers w1) (training w1) (grad_enabled w1) wav) = Ok out /\
    argmax1 out = Ok prediction /\
    batch_accuracy prediction (snd b) = Ok a /\
    (len prediction = len (snd b) -> is_fraction prediction (snd b) a).

(** ** What a run prints and emits, read off the history it returns *)

(** The entry of epoch [i] in one of the series. *)
Definition at_epoch (xs : list float) (i : Z) : float := nth (Z.to_nat i) xs 0%float.

(** The calls of [wandb.log] that epoch [i] makes (lines 41 and 52). *)
Definition epoch_emissions (validated : bool) (h : History) (i : Z)
  : list (list (string * float)) :=
  let '(ta, tl, va, vl) := h in
  [("training_loss"%string, at_epoch tl i); ("training_acc"%string, at_epoch ta i)]
  :: (if validated
      then [[("testing_loss"%string, at_epoch vl i); ("testing_acc"%string, at_epoch va i)]]
      else []).

(** The lines that epoch [i] prints (lines 31, 40, 51 and 54). *)
Definition epoch_lines (epochs : Z) (validated : bool) (h : History) (i : Z)
  : list line :=
  let '(ta, tl, va, vl) := h in
  [EpochLine (i + 1) epochs; TrainingLine (at_epoch tl i) (at_epoch ta i)]
  ++ (if validated then [TestingLine (at_epoch vl i) (at_epoch va i)] else [])
  ++ [RuleLine].

(** ** Readings of the clock *)

(** The values a [datetime] of the years 1000 to 9999 holds. *)
Definition valid_datetime (t : datetime) : Prop :=
  1000 <= year t <= 9999 /\ 1 <= month t <= 12 /\ 1 <= day t <= 31 /\
  0 <= hour t <= 23 /\ 0 <= minute t <= 59 /\ 0 <= second t <= 59 /\
  0 <= microsecond t <= 999999.

(** The clock reading to the second, as the number YYYYMMDDHHMMSS: a
    later reading is a larger number. *)
Definition clock_number (t : datetime) : Z :=
  ((((year t * 100 + month t) * 100 + day t) * 100 + hour t) * 100
   + minute t) * 100 + second t.

(** ** Accuracies within the unit interval *)

(** The value [m * 2^e] of a finite binary64 number, counted in units
    of 2^-2200: an integer, since no exponent that occurs here is
    below -2200. *)
Definition scaled (m e : Z) : Z := m * 2 ^ (e + 2200).

(** [upto v x]: the float [x] is a zero, or a positive finite number
    whose value is at most [v] units of 2^-2200. *)
Definition upto (v : Z) (x : float) : Prop :=
  match Prim2SF x with
  | S754_zero _ => True
  | S754_finite false m e => scaled (Z.pos m) e <= v
  | _ => False
  end.

(** [0.0 <= a <= 1.0], as Python compares floats. *)
Definition in_unit (a : float) : Prop :=
  PrimFloat.leb 0%float a = true /\ PrimFloat.leb a 1%float = true.

(** A batch of fewer than 2^53 examples for which the model, whatever
    its state, predicts one class for each entry of the target. *)
Definition well_shaped `{T : Torch} (device : Device) (b : Batch) : Prop :=
  len (snd b) < 2 ^ 53 /\
  forall wav p bf tr ge out prediction,
    wav_to (fst b) device = Ok wav ->
    fst (forward p bf tr ge wav) = Ok out ->
    argmax1 out = Ok prediction ->
    len prediction = len (snd b).

(** * Properties *)

(** ** Lists, ranges and indexing *)

Lemma len_nonneg {A : Type} (xs : list A) : 0 <= len xs.
Proof. unfold len. lia. Qed.

Lemma len_app {A : Type} (xs ys : list A) : len (xs ++ ys) = len xs + len ys.
Proof. unfold len. rewrite length_app. lia. Qed.

Lemma range_succ (n : Z) : 0 <= n -> range (n + 1) = range n ++ [n].
Proof.
  intros Hn. unfold range.
  replace (Z.to_nat (n + 1)) with (S (Z.to_nat n)) by lia.
  rewrite seq_S, map_app. simpl.
  rewrite Z2Nat.id by assumption. reflexivity.
Qed.

(** Reading back the element just appended at position [len xs]. *)
Lemma getitem_last {A : Type} (xs : list A) (x : A) (i : Z) :
  len xs = i -> getitem (xs ++ [x]) i = Ok x.
Proof.
  intros <-. unfold getitem, len.
  destruct (Z.ltb_spec (Z.of_nat (List.length xs)) 0) as [Hneg | _]; [lia |].
  cbv zeta.
  destruct (Z.ltb_spec (Z.of_nat (List.length xs)) 0) as [Hneg | _]; [lia |].
  rewrite Nat2Z.id, nth_error_app2 by lia.
  rewrite Nat.sub_diag. reflexivity.
Qed.

Lemma logged_app (key : string) (l1 l2 : list (list (string * float))) :
  logged key (l1 ++ l2) = logged key l1 ++ logged key l2.
Proof. unfold logged. apply flat_map_app. Qed.

(** ** Counting agreements *)

Lemma count_eq_bounds (p t : list Z) :
  0 <= count_eq p t <= Z.min (len p) (len t).
Proof.
  revert t. induction p as [| x p IH]; intros [| y t]; simpl;
    try (unfold len; simpl; lia).
  specialize (IH t). unfold len in *. simpl.
  destruct (x =? y); lia.
Qed.

(** With matching shapes the comparison succeeds and counts at most
    one agreement per example. *)
Lemma tensor_eq_sum_same_length (p t : list Z) :
  len p = len t ->
  tensor_eq_sum p t = Ok (count_eq p t) /\ 0 <= count_eq p t <= len p.
Proof.
  intros Hlen. unfold tensor_eq_sum.
  rewrite (proj2 (Z.eqb_eq _ _) Hlen).
  split; [reflexivity |].
  pose proof (count_eq_bounds p t). lia.
Qed.

(** ** Running the monad *)

Section Running.
Context `{T : Torch}.
Local Open Scope py_scope.

Lemma bind_ok {A B : Type} (m : M A) (k : A -> M B) (w w' : World) (a : A) :
  m w = (Ok a, w') -> bind m k w = k a w'.
Proof. intros H. unfold bind. rewrite H. reflexivity. Qed.

Lemma bind_raise {A B : Type} (m : M A) (k : A -> M B) (w w' : World) (e : exn) :
  m w = (Raise e, w') -> bind m k w = (Raise e, w').
Proof. intros H. unfold bind. rewrite H. reflexivity. Qed.

(** A sequence that ends normally ran its first part normally. *)
Lemma bind_inv_ok {A B : Type} (m : M A) (k : A -> M B) (w w2 : World) (b : B) :
  bind m k w = (Ok b, w2) ->
  exists a w1, m w = (Ok a, w1) /\ k a w1 = (Ok b, w2).
Proof.
  unfold bind. destruct (m w) as [[a | e] w1]; intros H.
  - exists a, w1. split; [reflexivity | exact H].
  - discriminate H.
Qed.

(** An exception leaves a sequence either from its first part or, the
    first part having ended normally, from the rest. *)
Lemma bind_inv_raise {A B : Type} (m : M A) (k : A -> M B) (w w2 : World) (e : exn) :
  bind m k w = (Raise e, w2) ->
  m w = (Raise e, w2) \/ exists a w1, m w = (Ok a, w1) /\ k a w1 = (Raise e, w2).
Proof.
  unfold bind. destruct (m w) as [[a | e'] w1]; intros H.
  - right. exists a, w1. split; [reflexivity | exact H].
  - left. inversion H. reflexivity.
Qed.

Lemma for_each_app {A B : Type} (body : A -> B -> M A) (xs ys : list B) (acc : A) (w : World) :
  for_each body (xs ++ ys) acc w =
  match for_each body xs acc w with
  | (Ok acc', w') => for_each body ys acc' w'
  | (Raise e, w') => (Raise e, w')
  end.
Proof.
  revert acc w. induction xs as [| x xs IH]; intros acc w; simpl.
  - reflexivity.
  - unfold bind. destruct (body acc x w) as [[acc' | e] w']; [apply IH | reflexivity].
Qed.

(** *** Frames: what an action leaves untouched *)

Lemma keeps_ret {X A : Type} (f : World -> X) (a : A) : keeps f (ret a).
Proof. intros w. reflexivity. Qed.

Lemma keeps_lift {X A : Type} (f : World -> X) (r : Res A) : keeps f (lift r).
Proof. intros w. reflexivity. Qed.

Lemma keeps_get {X : Type} (f : World -> X) : keeps f get.
Proof. intros w. reflexivity. Qed.

Lemma keeps_modify {X : Type} (f : World -> X) (g : World -> World) :
  (forall w, f (g w) = f w) -> keeps f (modify g).
Proof. intros H w. apply H. Qed.

Lemma keeps_bind {X A B : Type} (f : World -> X) (m : M A) (k : A -> M B) :
  keeps f m -> (forall a, keeps f (k a)) -> keeps f (bind m k).
Proof.
  intros Hm Hk w. unfold bind. specialize (Hm w).
  destruct (m w) as [[a | e] w1]; simpl in *.
  - rewrite Hk. exact Hm.
  - exact Hm.
Qed.

Lemma keeps_for_each {X A B : Type} (f : World -> X) (body : A -> B -> M A)
    (xs : list B) (acc : A) :
  (forall a x, keeps f (body a x)) -> keeps f (for_each body xs acc).
Proof.
  intros Hbody. revert acc. induction xs as [| x xs IH]; intros acc; simpl.
  - apply keeps_ret.
  - apply keeps_bind; [apply Hbody | intros a; apply IH].
Qed.

Lemma keeps_read {X : Type} (f : World -> X) (field : World -> list float) (i : Z) :
  keeps f (read field i).
Proof. intros w. reflexivity. Qed.

Lemma keeps_target_to {X : Type} (f : World -> X) (t : list Z) (d : Device) :
  keeps f (target_to t d).
Proof. intros w. unfold target_to. destruct (target_to_raises t d); reflexivity. Qed.

Lemma keeps_model_call {X : Type} (f : World -> X) (wav : Wav) :
  (forall b w, f (set_buffers b w) = f w) -> keeps f (model_call wav).
Proof.
  intros H w. unfold model_call.
  destruct (forward _ _ _ _ _) as [r b]. simpl. apply H.
Qed.

Lemma keeps_zero_grad {X : Type} (f : World -> X) :
  (forall g w, f (set_grads g w) = f w) -> keeps f optimizer_zero_grad.
Proof.
  intros H w. unfold optimizer_zero_grad.
  destruct (zero_grad _); simpl; [apply H | reflexivity].
Qed.

Lemma keeps_backward {X : Type} (f : World -> X) (loss : Loss) :
  (forall g w, f (set_grads g w) = f w) -> keeps f (loss_backward loss).
Proof.
  intros H w. unfold loss_backward.
  destruct (backward _ _); simpl; [apply H | reflexivity].
Qed.

Lemma keeps_step {X : Type} (f : World -> X) :
  (forall p o w, f (set_params_opt p o w) = f w) -> keeps f optimizer_step.
Proof.
  intros H w. unfold optimizer_step.
  destruct (step _ _ _) as [[p o] | e]; simpl; [apply H | reflexivity].
Qed.

Lemma keeps_with_no_grad {X A : Type} (f : World -> X) (body : M A) :
  (forall b w, f (set_grad_enabled b w) = f w) ->
  keeps f body -> keeps f (with_no_grad body).
Proof.
  intros H Hbody w. unfold with_no_grad.
  specialize (Hbody (set_grad_enabled false w)).
  destruct (body _) as [r w']. simpl in *.
  rewrite H, Hbody. apply H.
Qed.

(** [with torch.no_grad()] gives the autograd mode back. *)
Lemma with_no_grad_restores {A : Type} (body : M A) (w : World) :
  grad_enabled (snd (with_no_grad body w)) = grad_enabled w.
Proof.
  unfold with_no_grad. destruct (body _) as [r w']. reflexivity.
Qed.

End Running.

(** Splits a frame goal along the structure of the action. *)
Ltac frame_step :=
  first
    [ apply keeps_ret | apply keeps_lift | apply keeps_get | apply keeps_read
    | apply keeps_target_to
    | apply keeps_bind
    | apply keeps_for_each
    | apply keeps_model_call | apply keeps_zero_grad | apply keeps_backward
    | apply keeps_step | apply keeps_with_no_grad | apply keeps_modify ].

Ltac frame :=
  repeat match goal with
    | |- keeps _ (match ?x with _ => _ end) => destruct x
    | |- keeps _ _ => frame_step
    | |- forall _ : _ * _, _ => intros [? ?]
    | |- forall _, _ => intro
    | |- _ = _ => solve [auto | reflexivity]
    end.

(** ** Frames of the three functions *)

Section Frames.
Context `{T : Torch}.
Context {X : Type} (f : World -> X).

Lemma keeps_validate_batch (device : Device) (b : Batch) :
  (forall bf w, f (set_buffers bf w) = f w) ->
  keeps f (validate_batch device b).
Proof. intros Hb. unfold validate_batch. frame. Qed.

Lemma keeps_validate_epoch (dl : DataLoader) (device : Device) :
  (forall bf w, f (set_buffers bf w) = f w) ->
  (forall m w, f (set_training m w) = f w) ->
  (forall g w, f (set_grad_enabled g w) = f w) ->
  keeps f (validate_epoch dl device).
Proof.
  intros Hb Hm Hg. unfold validate_epoch, model_eval.
  frame.
Qed.

Lemma keeps_train_batch (device : Device) (b : Batch) :
  (forall bf w, f (set_buffers bf w) = f w) ->
  (forall g w, f (set_grads g w) = f w) ->
  (forall p o w, f (set_params_opt p o w) = f w) ->
  keeps f (train_batch device b).
Proof. intros Hb Hg Hp. unfold train_batch. frame. Qed.

Lemma keeps_train_epoch (dl : DataLoader) (device : Device) :
  (forall bf w, f (set_buffers bf w) = f w) ->
  (forall m w, f (set_training m w) = f w) ->
  (forall g w, f (set_grads g w) = f w) ->
  (forall p o w, f (set_params_opt p o w) = f w) ->
  keeps f (train_epoch dl device).
Proof.
  intros Hb Hm Hg Hp. unfold train_epoch, model_train.
  frame.
Qed.

End Frames.

(** ** The metric blocks of [train] *)

Section Metrics.
Context `{T : Torch}.

Lemma training_metrics_zero (dl : DataLoader) (i : Z) (tl ta : float) (w : World) :
  len dl = 0 ->
  training_metrics dl i tl ta w =
  (Raise (ZeroDivisionError "float division by zero"), w).
Proof.
  intros H. unfold training_metrics, float_div_int. rewrite H. reflexivity.
Qed.

Lemma training_metrics_ok (dl : DataLoader) (i : Z) (tl ta : float) (w : World) :
  len dl <> 0 ->
  len (training_loss w) = i ->
  len (training_acc w) = i ->
  training_metrics dl i tl ta w =
  (Ok tt, after_training_metrics (PrimFloat.div tl (Z2float (len dl)))
                                 (PrimFloat.div ta (Z2float (len dl))) w).
Proof.
  intros Hdl Hl Ha. unfold training_metrics, float_div_int.
  rewrite (proj2 (Z.eqb_neq _ _) Hdl).
  unfold bind, lift, append_training_loss, append_training_acc, modify,
    read, get, print, wandb_log_call.
  simpl.
  rewrite (getitem_last _ _ _ Hl), (getitem_last _ _ _ Ha).
  reflexivity.
Qed.

Lemma testing_metrics_ok (dl : DataLoader) (i : Z) (vl va : float) (w : World) :
  len dl <> 0 ->
  len (testing_loss w) = i ->
  len (testing_acc w) = i ->
  testing_metrics dl i vl va w =
  (Ok tt, after_testing_metrics (PrimFloat.div vl (Z2float (len dl)))
                                (PrimFloat.div va (Z2float (len dl))) w).
Proof.
  intros Hdl Hl Ha. unfold testing_metrics, float_div_int.
  rewrite (proj2 (Z.eqb_neq _ _) Hdl).
  unfold bind, lift, append_testing_loss, append_testing_acc, modify,
    read, get, print, wandb_log_call.
  simpl.
  rewrite (getitem_last _ _ _ Hl), (getitem_last _ _ _ Ha).
  reflexivity.
Qed.

End Metrics.

(** ** validate_epoch and the model *)

Section Validation.
Context `{T : Torch}.

(** C5. [validate_epoch] never mutates the parameters: however the
    call ends, normally or by an exception, the parameters of the
    model are what they were before it; so are the gradients and the
    optimizer state, since no backward pass and no optimizer call is
    made. *)
Theorem validate_epoch_keeps_params (dl : DataLoader) (device : Device) (w : World) :
  params (snd (validate_epoch dl device w)) = params w /\
  grads (snd (validate_epoch dl device w)) = grads w /\
  opt_state (snd (validate_epoch dl device w)) = opt_state w.
Proof.
  repeat split; apply keeps_validate_epoch; reflexivity.
Qed.

Lemma same_ret {A : Type} (a : A) : same_on_agree (ret a).
Proof. intros w w' H. split; [reflexivity | exact H]. Qed.

Lemma same_lift {A : Type} (r : Res A) : same_on_agree (lift r).
Proof. intros w w' H. split; [reflexivity | exact H]. Qed.

Lemma same_bind {A B : Type} (m : M A) (k : A -> M B) :
  same_on_agree m -> (forall a, same_on_agree (k a)) -> same_on_agree (bind m k).
Proof.
  intros Hm Hk w w' H. unfold bind.
  destruct (Hm w w' H) as [Hr Hw].
  destruct (m w) as [[a | e] w1], (m w') as [[a' | e'] w1']; simpl in *;
    try discriminate Hr.
  - injection Hr as <-. apply Hk. exact Hw.
  - injection Hr as <-. split; [reflexivity | exact Hw].
Qed.

Lemma same_for_each {A B : Type} (body : A -> B -> M A) (xs : list B) (acc : A) :
  (forall a x, same_on_agree (body a x)) -> same_on_agree (for_each body xs acc).
Proof.
  intros Hbody. revert acc. induction xs as [| x xs IH]; intros acc; simpl.
  - apply same_ret.
  - apply same_bind; [apply Hbody | intros a; apply IH].
Qed.

Lemma same_target_to (t : list Z) (d : Device) : same_on_agree (target_to t d).
Proof.
  unfold target_to. destruct (target_to_raises t d); [apply same_lift | apply same_ret].
Qed.

Lemma same_model_call (wav : Wav) : same_on_agree (model_call wav).
Proof.
  intros w w' (Hp & Hb & Ht & Hg). unfold model_call.
  rewrite Hp, Hb, Ht, Hg.
  destruct (forward _ _ _ _ _) as [r b]. simpl.
  repeat split; assumption.
Qed.

Lemma same_validate_batch (device : Device) (b : Batch) :
  same_on_agree (validate_batch device b).
Proof.
  unfold validate_batch.
  repeat first [ apply same_bind | apply same_lift | apply same_ret
               | apply same_target_to | apply same_model_call | intro ].
Qed.

Lemma same_with_no_grad {A : Type} (body : M A) :
  same_on_agree body -> same_on_agree (with_no_grad body).
Proof.
  intros Hbody w w' (Hp & Hb & Ht & Hg). unfold with_no_grad.
  assert (Hin : agree (set_grad_enabled false w) (set_grad_enabled false w'))
    by (repeat split; assumption).
  destruct (Hbody _ _ Hin) as [Hr (Hp' & Hb' & Ht' & _)].
  destruct (body (set_grad_enabled false w)) as [r w1],
           (body (set_grad_enabled false w')) as [r' w1']; simpl in *.
  repeat split; assumption.
Qed.

(** The loop of [validate_epoch], under [torch.no_grad()]. *)
Lemma same_validate_epoch (dl : DataLoader) (device : Device) :
  same_on_agree (validate_epoch dl device).
Proof.
  unfold validate_epoch. apply same_bind.
  - intros w w' (Hp & Hb & _ & Hg). split; [reflexivity |].
    repeat split; assumption.
  - intros _. apply same_bind; [| intros [[l a] t]; apply same_ret].
    apply same_with_no_grad, same_for_each. intros a x.
    apply same_bind; [apply same_validate_batch | intros m; apply same_ret].
Qed.

(** [validate_epoch] puts the model in evaluation mode before anything
    else, so the mode it is called in does not matter. *)
Lemma validate_epoch_mode_irrelevant (dl : DataLoader) (device : Device) (w : World) :
  validate_epoch dl device (set_training false w) = validate_epoch dl device w.
Proof. reflexivity. Qed.

(** The autograd mode after [validate_epoch] is the one before it. *)
Lemma validate_epoch_restores_grad_mode (dl : DataLoader) (device : Device) (w : World) :
  grad_enabled (snd (validate_epoch dl device w)) = grad_enabled w.
Proof.
  unfold validate_epoch, model_eval, modify. unfold bind at 1.
  unfold bind at 1.
  pose proof (with_no_grad_restores (validate_loop dl device)
                (set_training false w)) as H.
  destruct (with_no_grad _ _) as [[[[l a] t] | e] w1]; simpl in *; exact H.
Qed.

Section EvalForward.
(** A forward pass in evaluation mode with autograd off leaves the
    buffers alone. *)
Hypothesis eval_forward_pure :
  forall p bf wav, snd (forward p bf false false wav) = bf.

Lemma validate_batch_keeps_buffers (device : Device) (b : Batch) (w : World) :
  training w = false -> grad_enabled w = false ->
  buffers (snd (validate_batch device b w)) = buffers w.
Proof.
  intros Ht Hg. unfold validate_batch, bind, lift, ret, target_to, model_call.
  destruct (wav_to (fst b) device) as [wav | e]; [| reflexivity].
  destruct (target_to_raises (snd b) device) as [e |]; [reflexivity |].
  unfold ret. cbv beta iota. rewrite Ht, Hg.
  pose proof (eval_forward_pure (params w) (buffers w) wav) as Hpure.
  destruct (forward _ _ _ _ _) as [[out | e] bf]; simpl in *; subst bf;
    [| reflexivity].
  destruct (loss_fn out (snd b)) as [loss | e]; [| reflexivity].
  destruct (argmax1 out) as [prediction | e]; [| reflexivity].
  destruct (batch_accuracy prediction (snd b)) as [acc | e]; reflexivity.
Qed.

Lemma validate_loop_keeps_buffers (device : Device) (dl : DataLoader)
    (sums : float * float * float) (w : World) :
  training w = false -> grad_enabled w = false ->
  buffers (snd (for_each (fun sums b => bind (validate_batch device b)
                                          (fun m => ret (accumulate sums m)))
                         dl sums w)) = buffers w.
Proof.
  revert sums w. induction dl as [| b dl IH]; intros sums w Ht Hg; simpl.
  - reflexivity.
  - unfold bind at 1. unfold bind at 1.
    pose proof (validate_batch_keeps_buffers device b w Ht Hg) as Hb.
    pose proof (keeps_validate_batch training device b
                  (fun _ _ => eq_refl) w) as Ht'.
    pose proof (keeps_validate_batch grad_enabled device b
                  (fun _ _ => eq_refl) w) as Hg'.
    destruct (validate_batch device b w) as [[m | e] w1]; simpl in *.
    + rewrite IH by congruence. exact Hb.
    + exact Hb.
Qed.

Lemma validate_epoch_keeps_buffers (dl : DataLoader) (device : Device) (w : World) :
  buffers (snd (validate_epoch dl device w)) = buffers w.
Proof.
  unfold validate_epoch, validate_loop, model_eval, modify. unfold bind at 1.
  unfold bind at 1. unfold with_no_grad.
  pose proof (validate_loop_keeps_buffers device dl (0%float, 0%float, 0%float)
                (set_grad_enabled false (set_training false w)) eq_refl eq_refl) as H.
  destruct (for_each _ dl _ _) as [[[[l a] t] | e] w1]; simpl in *; exact H.
Qed.

(** C6. [validate_epoch] is idempotent: called a second time on the
    same model and the same validation set, in the same batch order
    and with no training step in between, it gives the same
    [(total_loss, total_accuracy)], or raises the same exception.  The
    forward pass is taken to be deterministic in the sense of
    [eval_forward_pure]. *)
Theorem validate_epoch_idempotent (dl : DataLoader) (device : Device) (w : World) :
  fst (validate_epoch dl device (snd (validate_epoch dl device w))) =
  fst (validate_epoch dl device w).
Proof.
  rewrite <- (validate_epoch_mode_irrelevant dl device w) at 2.
  rewrite <- (validate_epoch_mode_irrelevant dl device (snd _)).
  apply same_validate_epoch.
  pose proof (keeps_validate_epoch params dl device
                (fun _ _ => eq_refl) (fun _ _ => eq_refl) (fun _ _ => eq_refl) w) as Hp.
  pose proof (validate_epoch_keeps_buffers dl device w) as Hb.
  pose proof (validate_epoch_restores_grad_mode dl device w) as Hg.
  repeat split; assumption.
Qed.

End EvalForward.
End Validation.

(** ** The loop of [train] *)

Section Driver.
Context `{T : Torch}.

Lemma after_modify {A X : Type} (f : World -> X) (g : World -> World)
    (k : unit -> M A) (w : World) :
  keeps f (k tt) -> f (snd (bind (modify g) k w)) = f (g w).
Proof. intros H. unfold bind, modify. apply H. Qed.

(** [train_epoch] leaves the model in training mode and
    [validate_epoch] in evaluation mode, however they end. *)
Lemma train_epoch_leaves_training (dl : DataLoader) (device : Device) (w : World) :
  training (snd (train_epoch dl device w)) = true.
Proof.
  unfold train_epoch, model_train.
  apply (after_modify training (set_training true)). frame.
Qed.

Lemma validate_epoch_leaves_eval (dl : DataLoader) (device : Device) (w : World) :
  training (snd (validate_epoch dl device w)) = false.
Proof.
  unfold validate_epoch, model_eval.
  apply (after_modify training (set_training false)). frame.
Qed.

Lemma recorded_start (tdl : option DataLoader) (w : World) :
  recorded (wandb_log w) tdl 0 (set_history [] [] [] [] w).
Proof.
  exists []. simpl. rewrite app_nil_r.
  repeat split; try reflexivity; destruct (truthy tdl); reflexivity.
Qed.

Lemma train_epoch_same_records (dl : DataLoader) (device : Device) (w : World) :
  same_records (snd (train_epoch dl device w)) w.
Proof. repeat split; apply keeps_train_epoch; reflexivity. Qed.

Lemma validate_epoch_same_records (dl : DataLoader) (device : Device) (w : World) :
  same_records (snd (validate_epoch dl device w)) w.
Proof. repeat split; apply keeps_validate_epoch; reflexivity. Qed.

(** The [if test_dataloader:] block, when it ends normally. *)
Lemma test_model_ok (tdl : option DataLoader) (device : Device) (i : Z) (w w' : World) :
  (truthy tdl = true -> len (testing_loss w) = i /\ len (testing_acc w) = i) ->
  test_model tdl device i w = (Ok tt, w') ->
  (truthy tdl = false /\ w' = w) \/
  (truthy tdl = true /\
   exists d vl va w1,
     tdl = Some d /\ len d <> 0 /\
     validate_epoch d device w = (Ok (vl, va), w1) /\
     w' = after_testing_metrics (PrimFloat.div vl (Z2float (len d)))
                                (PrimFloat.div va (Z2float (len d))) w1).
Proof.
  intros Hlen H. unfold test_model in H.
  destruct tdl as [d |]; [| left; split; [reflexivity | inversion H; reflexivity]].
  destruct (truthy (Some d)) eqn:Htruthy;
    [| left; split; [reflexivity | inversion H; reflexivity]].
  right. split; [reflexivity |].
  destruct (Hlen eq_refl) as [Hl Ha].
  apply bind_inv_ok in H. destruct H as ([vl va] & w1 & Hval & Hmet).
  assert (Hd : len d <> 0).
  { simpl in Htruthy. destruct (Z.eqb_spec (len d) 0); [discriminate | assumption]. }
  pose proof (validate_epoch_same_records d device w) as Hsame.
  rewrite Hval in Hsame. destruct Hsame as (_ & _ & Sva & Svl & _). simpl in Sva, Svl.
  rewrite testing_metrics_ok in Hmet by congruence.
  exists d, vl, va, w1. inversion Hmet. repeat split; auto.
Qed.

(** One epoch of [train] that ends normally: the training set is not
    empty, one entry has been recorded on each series that is kept,
    and the model is left in the mode of the last epoch function
    called. *)
Lemma train_iteration_ok (dl : DataLoader) (device : Device) (epochs : Z)
    (tdl : option DataLoader) (log0 : list (list (string * float)))
    (i : Z) (w w' : World) :
  recorded log0 tdl i w ->
  train_iteration dl device epochs tdl i w = (Ok tt, w') ->
  recorded log0 tdl (i + 1) w' /\
  training w' = negb (truthy tdl) /\
  len dl <> 0.
Proof.
  intros (new & Hlog & Htl & Hta & Hvl & Hva & Ltl & Lta & Lvl & Lva & Lnew) H.
  unfold train_iteration in H.
  apply bind_inv_ok in H. destruct H as ([] & w1 & Hprint & H).
  inversion Hprint; subst w1; clear Hprint.
  apply bind_inv_ok in H. destruct H as ([tl ta] & w2 & Hep & H).
  pose proof (train_epoch_same_records dl device
                (add_line (EpochLine (i + 1) epochs) w)) as Hsame.
  pose proof (train_epoch_leaves_training dl device
                (add_line (EpochLine (i + 1) epochs) w)) as Hmode.
  rewrite Hep in Hsame, Hmode. simpl in Hsame, Hmode.
  destruct Hsame as (Sta & Stl & Sva & Svl & Slog & _).
  apply bind_inv_ok in H. destruct H as ([] & w3 & Hmet & H).
  destruct (Z.eq_dec (len dl) 0) as [Hz | Hnz].
  { rewrite training_metrics_zero in Hmet by assumption. discriminate Hmet. }
  simpl in Sta, Stl, Sva, Svl, Slog.
  rewrite training_metrics_ok in Hmet by congruence.
  inversion Hmet; subst w3; clear Hmet.
  apply bind_inv_ok in H. destruct H as ([] & w4 & Htest & H).
  inversion H; subst w'; clear H.
  set (x := PrimFloat.div tl (Z2float (len dl))) in *.
  set (y := PrimFloat.div ta (Z2float (len dl))) in *.
  apply test_model_ok in Htest.
  2: { intros Htr. rewrite Htr in Lvl, Lva. simpl. split; congruence. }
  destruct Htest as [[Htr ->] | (Htr & d & vl & va & w5 & -> & Hd & Hval & ->)].
  - (* no validation *)
    rewrite Htr in *. simpl.
    split; [| split; [exact Hmode | exact Hnz]].
    exists (new ++ [[("training_loss"%string, x); ("training_acc"%string, y)]]).
    unfold after_training_metrics. simpl.
    rewrite !logged_app, !len_app, Slog, Hlog, Stl, Sta, Svl, Sva, <- app_assoc.
    rewrite Htl, Hta, Hvl, Hva in *. simpl.
    rewrite ?app_nil_r, ?Htr.
    repeat split; try reflexivity; unfold len in *; simpl; lia.
  - (* validation *)
    pose proof (validate_epoch_same_records d device (after_training_metrics x y w2))
      as Hsame.
    pose proof (validate_epoch_leaves_eval d device (after_training_metrics x y w2))
      as Heval.
    rewrite Hval in Hsame, Heval.
    destruct Hsame as (Vta & Vtl & Vva & Vvl & Vlog & _).
    simpl in Vta, Vtl, Vva, Vvl, Vlog, Heval.
    rewrite Htr in *. simpl.
    split; [| split; [exact Heval | exact Hnz]].
    set (x' := PrimFloat.div vl (Z2float (len d))).
    set (y' := PrimFloat.div va (Z2float (len d))).
    exists (new ++ [[("training_loss"%string, x); ("training_acc"%string, y)]]
                ++ [[("testing_loss"%string, x'); ("testing_acc"%string, y')]]).
    unfold after_testing_metrics. simpl.
    rewrite !logged_app, !len_app, Vlog, Vtl, Vta, Vvl, Vva.
    rewrite Slog, Hlog, Stl, Sta, Svl, Sva, <- !app_assoc.
    rewrite Htl, Hta, Hvl, Hva in *. simpl.
    rewrite ?app_nil_r, ?Htr.
    simpl in Htr. rewrite ?Htr, ?len_app.
    repeat split; try reflexivity; unfold len in *; simpl; lia.
Qed.

(** [recorded] does not look at the console. *)
Lemma recorded_add_line (log0 : list (list (string * float)))
    (tdl : option DataLoader) (i : Z) (l : line) (w : World) :
  recorded log0 tdl i w -> recorded log0 tdl i (add_line l w).
Proof. intros H. exact H. Qed.

(** The loop over [range(n)], when it ends normally. *)
Lemma epochs_loop_ok (dl : DataLoader) (device : Device) (epochs : Z)
    (tdl : option DataLoader) (log0 : list (list (string * float))) (n : nat) :
  forall w w',
    recorded log0 tdl 0 w ->
    epochs_loop dl device epochs tdl (range (Z.of_nat n)) w = (Ok tt, w') ->
    recorded log0 tdl (Z.of_nat n) w' /\
    (n = 0%nat -> w' = w) /\
    (n <> 0%nat -> training w' = negb (truthy tdl) /\ len dl <> 0).
Proof.
  unfold epochs_loop.
  induction n as [| n IH]; intros w w' Hrec Hrun.
  - simpl in Hrun. inversion Hrun; subst w'.
    split; [exact Hrec | split; [reflexivity | intros Hn; contradiction]].
  - replace (Z.of_nat (S n)) with (Z.of_nat n + 1) in * by lia.
    rewrite range_succ, for_each_app in Hrun by lia.
    destruct (for_each _ (range (Z.of_nat n)) tt w) as [[[] | e] w1] eqn:Hpre;
      [| discriminate Hrun].
    destruct (IH w w1 Hrec Hpre) as (Hrec1 & _ & _).
    simpl in Hrun. apply bind_inv_ok in Hrun.
    destruct Hrun as ([] & w2 & Hit & Hret). inversion Hret; subst w'.
    destruct (train_iteration_ok _ _ _ _ _ _ _ _ Hrec1 Hit) as (Hrec2 & Hmode & Hdl).
    split; [exact Hrec2 |].
    split; [intros Hn; discriminate Hn | intros _; split; [exact Hmode | exact Hdl]].
Qed.

(** [range] only sees how many epochs there are to run. *)
Lemma range_to_nat (n : Z) : range n = range (Z.of_nat (Z.to_nat n)).
Proof. unfold range. rewrite Nat2Z.id. reflexivity. Qed.

(** A run of [train] that returns: the tuple returned is the four
    lists in the order of line 57, they hold what was logged, and the
    model is in the mode of the last epoch function called. *)
Lemma train_ok (dl : DataLoader) (device : Device) (epochs : Z)
    (tdl : option DataLoader) (w w' : World) (h : History) :
  train dl device epochs tdl w = (Ok h, w') ->
  h = (training_acc w', training_loss w', testing_acc w', testing_loss w') /\
  recorded (wandb_log w) tdl (Z.max 0 epochs) w' /\
  (1 <= epochs -> training w' = negb (truthy tdl) /\ len dl <> 0) /\
  (epochs <= 0 -> w' = add_line FinishedLine (set_history [] [] [] [] w)).
Proof.
  intros H. unfold train in H.
  apply bind_inv_ok in H. destruct H as ([] & w1 & Hinit & H).
  inversion Hinit; subst w1; clear Hinit.
  apply bind_inv_ok in H. destruct H as ([] & w2 & Hloop & H).
  apply bind_inv_ok in H. destruct H as ([] & w3 & Hprint & H).
  inversion Hprint; subst w3; clear Hprint.
  inversion H; subst; clear H.
  rewrite range_to_nat in Hloop.
  destruct (epochs_loop_ok dl device epochs tdl (wandb_log w) (Z.to_nat epochs)
              _ _ (recorded_start tdl w) Hloop) as (Hrec & Hzero & Hpos).
  replace (Z.of_nat (Z.to_nat epochs)) with (Z.max 0 epochs) in Hrec by lia.
  split; [reflexivity |].
  split; [apply recorded_add_line; exact Hrec |].
  split.
  - intros Hge. apply Hpos. lia.
  - intros Hle. rewrite Hzero by lia. reflexivity.
Qed.

End Driver.

(** ** The history [train] returns *)

Section History.
Context `{T : Torch}.

(** C2, as the code has it.  A run of [train] that returns gives its
    caller four series, in the order (training_acc, training_loss,
    testing_acc, testing_loss): each holds, oldest first, the values
    the run emitted under that key, one per epoch for the training
    series, and one per epoch for the testing series when validation
    ran and none otherwise. *)
Theorem train_returns_four_series (dl : DataLoader) (device : Device) (epochs : Z)
    (tdl : option DataLoader) (w w' : World) (h : History) :
  train dl device epochs tdl w = (Ok h, w') ->
  exists new : list (list (string * float)),
    wandb_log w' = wandb_log w ++ new /\
    h = (logged "training_acc" new, logged "training_loss" new,
         logged "testing_acc" new, logged "testing_loss" new) /\
    len (logged "training_acc" new) = Z.max 0 epochs /\
    len (logged "training_loss" new) = Z.max 0 epochs /\
    len (logged "testing_acc" new) = (if truthy tdl then Z.max 0 epochs else 0) /\
    len (logged "testing_loss" new) = (if truthy tdl then Z.max 0 epochs else 0).
Proof.
  intros H. destruct (train_ok _ _ _ _ _ _ _ H) as (Hh & Hrec & _).
  destruct Hrec as (new & Hlog & Htl & Hta & Hvl & Hva & Ltl & Lta & Lvl & Lva & _).
  exists new. rewrite Htl, Hta, Hvl, Hva in *.
  repeat split; assumption.
Qed.

(** C3, as the code has it.  For every epoch count [E >= 0] a run of
    [train] that returns gives [E] entries on each training series,
    and on each testing series [E] entries when the validation
    dataloader is truthy (passed, and not empty) and none otherwise;
    with [E = 0] the run returns four empty series, raises nothing and
    emits nothing. *)
Theorem train_history_lengths (dl : DataLoader) (device : Device) (epochs : Z)
    (tdl : option DataLoader) (w w' : World) (s1 s2 s3 s4 : list float) :
  0 <= epochs ->
  train dl device epochs tdl w = (Ok (s1, s2, s3, s4), w') ->
  (len s1 = epochs /\ len s2 = epochs /\
   len s3 = (if truthy tdl then epochs else 0) /\
   len s4 = (if truthy tdl then epochs else 0)) /\
  (train dl device 0 tdl w =
     (Ok ([], [], [], []), add_line FinishedLine (set_history [] [] [] [] w)) /\
   wandb_log (snd (train dl device 0 tdl w)) = wandb_log w).
Proof.
  intros HE H. split; [| split; reflexivity].
  destruct (train_ok _ _ _ _ _ _ _ H) as (Hh & Hrec & _).
  destruct Hrec as (new & _ & _ & _ & _ & _ & Ltl & Lta & Lvl & Lva & _).
  inversion Hh; subst.
  rewrite Z.max_r in * by assumption.
  repeat split; assumption.
Qed.

(** C8. With a training dataloader of zero batches and at least one
    epoch to run, [train] raises [ZeroDivisionError] at line 37 in the
    first epoch: [train_epoch] has run (and put the model in training
    mode), nothing has been appended to any of the four lists and
    nothing has been logged. *)
Theorem train_zero_batches (device : Device) (epochs : Z)
    (tdl : option DataLoader) (w : World) :
  1 <= epochs ->
  let w' := set_training true
              (add_line (EpochLine 1 epochs) (set_history [] [] [] [] w)) in
  train [] device epochs tdl w =
    (Raise (ZeroDivisionError "float division by zero"), w') /\
  training_loss w' = [] /\ training_acc w' = [] /\
  testing_loss w' = [] /\ testing_acc w' = [] /\
  wandb_log w' = wandb_log w.
Proof.
  intros HE w'. split; [| repeat split; reflexivity].
  unfold train, range.
  replace (Z.to_nat epochs) with (S (Z.to_nat (epochs - 1))) by lia.
  reflexivity.
Qed.


End History.

(** ** A validation dataloader with no batches *)

Section EmptyValidation.
Context `{T : Torch}.

Lemma maintains_pure {A : Type} (P : World -> Prop) (m : M A) :
  (forall w, snd (m w) = w) -> maintains P m.
Proof. intros H w HP. rewrite H. exact HP. Qed.

Lemma maintains_modify (P : World -> Prop) (g : World -> World) :
  (forall w, P w -> P (g w)) -> maintains P (modify g).
Proof. intros H w HP. apply H. exact HP. Qed.

Lemma maintains_bind {A B : Type} (P : World -> Prop) (m : M A) (k : A -> M B) :
  maintains P m -> (forall a, maintains P (k a)) -> maintains P (bind m k).
Proof.
  intros Hm Hk w HP. unfold bind. specialize (Hm w HP).
  destruct (m w) as [[a | e] w1]; simpl in *.
  - apply Hk. exact Hm.
  - exact Hm.
Qed.

Lemma maintains_for_each {A B : Type} (P : World -> Prop) (body : A -> B -> M A)
    (xs : list B) (acc : A) :
  (forall a x, maintains P (body a x)) -> maintains P (for_each body xs acc).
Proof.
  intros Hbody. revert acc. induction xs as [| x xs IH]; intros acc; simpl.
  - apply maintains_pure. reflexivity.
  - apply maintains_bind; [apply Hbody | intros a; apply IH].
Qed.

Lemma no_testing_same_records (log0 : list (list (string * float))) (w w' : World) :
  same_records w' w -> no_testing log0 w -> no_testing log0 w'.
Proof.
  intros (_ & _ & Hva & Hvl & Hlog & _) (Hl & Ha & new & Hnew & Hnl & Hna).
  unfold no_testing. rewrite Hva, Hvl, Hlog.
  split; [exact Hl | split; [exact Ha |]].
  exists new. repeat split; assumption.
Qed.

Lemma training_metrics_no_testing (log0 : list (list (string * float)))
    (dl : DataLoader) (i : Z) (tl ta : float) :
  maintains (no_testing log0) (training_metrics dl i tl ta).
Proof.
  unfold training_metrics.
  repeat first
    [ apply maintains_bind; [| intro]
    | apply maintains_pure; reflexivity ].
  - apply maintains_modify. intros w H. exact H.
  - apply maintains_modify. intros w H. exact H.
  - apply maintains_modify. intros w H. exact H.
  - apply maintains_modify.
    intros w (Hl & Ha & new & Hnew & Hnl & Hna).
    split; [exact Hl | split; [exact Ha |]].
    eexists. simpl. rewrite Hnew, <- app_assoc.
    split; [reflexivity |].
    rewrite !logged_app, Hnl, Hna. split; reflexivity.
Qed.

Lemma train_iteration_no_testing (log0 : list (list (string * float)))
    (dl : DataLoader) (device : Device) (epochs i : Z) (tdl : option DataLoader) :
  truthy tdl = false ->
  maintains (no_testing log0) (train_iteration dl device epochs tdl i).
Proof.
  intros Htr. unfold train_iteration.
  apply maintains_bind; [apply maintains_modify; intros w H; exact H | intros _].
  apply maintains_bind.
  { intros w H. eapply no_testing_same_records; [| exact H].
    apply train_epoch_same_records. }
  intros [tl ta].
  apply maintains_bind; [apply training_metrics_no_testing | intros _].
  apply maintains_bind; [| intros _; apply maintains_modify; intros w H; exact H].
  unfold test_model. destruct tdl as [d |]; [rewrite Htr |];
    apply maintains_pure; reflexivity.
Qed.

(** What [train] does after emptying its four lists. *)
Lemma train_loop_no_testing (log0 : list (list (string * float)))
    (dl : DataLoader) (device : Device) (epochs : Z) (tdl : option DataLoader) :
  truthy tdl = false ->
  maintains (no_testing log0)
    (bind (epochs_loop dl device epochs tdl (range epochs))
       (fun _ => bind (print FinishedLine)
          (fun _ => bind get (fun w1 =>
             ret (training_acc w1, training_loss w1,
                  testing_acc w1, testing_loss w1))))).
Proof.
  intros Htr.
  apply maintains_bind.
  - apply maintains_for_each. intros _ i.
    apply train_iteration_no_testing. exact Htr.
  - intros _. apply maintains_bind.
    + apply maintains_modify. intros w H. exact H.
    + intros _. apply maintains_pure. reflexivity.
Qed.

(** C9. [train] tests the truthiness of [test_dataloader], so a
    validation dataloader with zero batches is treated exactly as an
    absent one: the run is the same in every respect, the [if] at line
    43 does nothing (no call of [validate_epoch], no division by the
    zero length), and, however the run ends, no testing metric has
    been appended or emitted. *)
Theorem empty_validation_is_absent (dl : DataLoader) (device : Device)
    (epochs : Z) (w : World) :
  train dl device epochs (Some []) w = train dl device epochs None w /\
  (forall i w0, test_model (Some []) device i w0 = (Ok tt, w0)) /\
  no_testing (wandb_log w) (snd (train dl device epochs (Some []) w)).
Proof.
  split; [reflexivity | split; [reflexivity |]].
  assert (Hstart : no_testing (wandb_log w) (set_history [] [] [] [] w)).
  { split; [reflexivity | split; [reflexivity |]].
    exists []. simpl. rewrite app_nil_r. repeat split; reflexivity. }
  exact (train_loop_no_testing (wandb_log w) dl device epochs (Some []) eq_refl
           (set_history [] [] [] [] w) Hstart).
Qed.

End EmptyValidation.

(** ** Exceptions *)

Section Exceptions.
Context `{T : Torch}.

Lemma raises_never {A : Type} (P : exn -> Prop) (m : M A) :
  (forall w, exists a, fst (m w) = Ok a) -> raises_only P m.
Proof.
  intros H w e w' Hm. destruct (H w) as [a Ha].
  rewrite Hm in Ha. discriminate Ha.
Qed.

Lemma raises_lift {A : Type} (P : exn -> Prop) (r : Res A) :
  (forall e, r = Raise e -> P e) -> raises_only P (lift r).
Proof. intros H w e w' Hm. apply H. inversion Hm. reflexivity. Qed.

Lemma raises_bind {A B : Type} (P : exn -> Prop) (m : M A) (k : A -> M B) :
  raises_only P m -> (forall a, raises_only P (k a)) -> raises_only P (bind m k).
Proof.
  intros Hm Hk w e w' H. apply bind_inv_raise in H.
  destruct H as [H | (a & w1 & _ & H)].
  - exact (Hm _ _ _ H).
  - exact (Hk _ _ _ _ H).
Qed.

Lemma raises_for_each {A B : Type} (P : exn -> Prop) (body : A -> B -> M A)
    (xs : list B) (acc : A) :
  (forall a x, raises_only P (body a x)) -> raises_only P (for_each body xs acc).
Proof.
  intros Hbody. revert acc. induction xs as [| x xs IH]; intros acc; simpl.
  - apply raises_never. intros w. exists acc. reflexivity.
  - apply raises_bind; [apply Hbody | intros a; apply IH].
Qed.

Lemma raises_with_no_grad {A : Type} (P : exn -> Prop) (body : M A) :
  raises_only P body -> raises_only P (with_no_grad body).
Proof.
  intros Hbody w e w' H. unfold with_no_grad in H.
  destruct (body (set_grad_enabled false w)) as [r w1] eqn:Hb.
  inversion H; subst. exact (Hbody _ _ _ Hb).
Qed.

Lemma batch_accuracy_raises (p t : list Z) (e : exn) :
  batch_accuracy p t = Raise e -> from_operator e.
Proof.
  unfold batch_accuracy, tensor_eq_sum, int_truediv, from_operator.
  repeat match goal with
         | |- context [if ?c then _ else _] => destruct c
         end; intros H; inversion H; auto.
Qed.

(** The steps shared by the two per-batch functions. *)
Lemma raises_wav_to (wav : Wav) (d : Device) : raises_only origin (lift (wav_to wav d)).
Proof. apply raises_lift. intros e H. left. left. eauto. Qed.

Lemma raises_target_to (t : list Z) (d : Device) : raises_only origin (target_to t d).
Proof.
  unfold target_to. destruct (target_to_raises t d) as [e0 |] eqn:Ht.
  - apply raises_lift. intros e H. inversion H; subst.
    left. right. left. eauto.
  - apply raises_never. intros w. exists t. reflexivity.
Qed.

Lemma raises_model_call (wav : Wav) : raises_only origin (model_call wav).
Proof.
  intros w e w' H. unfold model_call in H.
  destruct (forward (params w) (buffers w) (training w) (grad_enabled w) wav)
    as [r bf] eqn:Hf.
  inversion H; subst. left. right. right. left.
  exists (params w), (buffers w), (training w), (grad_enabled w), wav.
  rewrite Hf. reflexivity.
Qed.

Lemma raises_loss_fn (out : Out) (t : list Z) : raises_only origin (lift (loss_fn out t)).
Proof. apply raises_lift. intros e H. left. do 3 right. left. eauto. Qed.

Lemma raises_argmax1 (out : Out) : raises_only origin (lift (argmax1 out)).
Proof. apply raises_lift. intros e H. left. do 4 right. left. eauto. Qed.

Lemma raises_batch_accuracy (p t : list Z) :
  raises_only origin (lift (batch_accuracy p t)).
Proof. apply raises_lift. intros e H. right. eapply batch_accuracy_raises, H. Qed.

Lemma raises_zero_grad : raises_only origin optimizer_zero_grad.
Proof.
  intros w e w' H. unfold optimizer_zero_grad in H.
  destruct (zero_grad (grads w)) eqn:Hz; inversion H; subst.
  left. do 5 right. left. eauto.
Qed.

Lemma raises_backward (loss : Loss) : raises_only origin (loss_backward loss).
Proof.
  intros w e w' H. unfold loss_backward in H.
  destruct (backward loss (grads w)) eqn:Hz; inversion H; subst.
  left. do 6 right. left. eauto.
Qed.

Lemma raises_step : raises_only origin optimizer_step.
Proof.
  intros w e w' H. unfold optimizer_step in H.
  destruct (step (opt_state w) (params w) (grads w)) as [[p o] | e0] eqn:Hz;
    inversion H; subst.
  left. do 7 right. eauto.
Qed.

Lemma raises_ret {A : Type} (P : exn -> Prop) (a : A) : raises_only P (ret a).
Proof. apply raises_never. intros w. exists a. reflexivity. Qed.

Lemma raises_modify (P : exn -> Prop) (g : World -> World) : raises_only P (modify g).
Proof. apply raises_never. intros w. exists tt. reflexivity. Qed.

Lemma raises_train_batch (device : Device) (b : Batch) :
  raises_only origin (train_batch device b).
Proof.
  unfold train_batch.
  repeat first
    [ apply raises_bind; [| intro]
    | apply raises_wav_to | apply raises_target_to | apply raises_model_call
    | apply raises_loss_fn | apply raises_argmax1 | apply raises_batch_accuracy
    | apply raises_zero_grad | apply raises_backward | apply raises_step
    | apply raises_ret ].
Qed.

Lemma raises_validate_batch (device : Device) (b : Batch) :
  raises_only origin (validate_batch device b).
Proof.
  unfold validate_batch.
  repeat first
    [ apply raises_bind; [| intro]
    | apply raises_wav_to | apply raises_target_to | apply raises_model_call
    | apply raises_loss_fn | apply raises_argmax1 | apply raises_batch_accuracy
    | apply raises_ret ].
Qed.

Lemma raises_train_epoch (dl : DataLoader) (device : Device) :
  raises_only origin (train_epoch dl device).
Proof.
  unfold train_epoch, model_train.
  apply raises_bind; [apply raises_modify | intros _].
  apply raises_bind; [| intros [[l a] t]; apply raises_ret].
  apply raises_for_each. intros sums b.
  apply raises_bind; [apply raises_train_batch | intros m; apply raises_ret].
Qed.

Lemma raises_validate_epoch (dl : DataLoader) (device : Device) :
  raises_only origin (validate_epoch dl device).
Proof.
  unfold validate_epoch, model_eval.
  apply raises_bind; [apply raises_modify | intros _].
  apply raises_bind; [| intros [[l a] t]; apply raises_ret].
  apply raises_with_no_grad, raises_for_each. intros sums b.
  apply raises_bind; [apply raises_validate_batch | intros m; apply raises_ret].
Qed.

(** *** Where an exception of [train] comes from *)

Lemma train_iteration_raises (dl : DataLoader) (device : Device) (epochs : Z)
    (tdl : option DataLoader) (log0 : list (list (string * float)))
    (i : Z) (w w' : World) (e : exn) :
  recorded log0 tdl i w ->
  train_iteration dl device epochs tdl i w = (Raise e, w') ->
  origin e.
Proof.
  intros (new & Hlog & Htl & Hta & Hvl & Hva & Ltl & Lta & Lvl & Lva & Lnew) H.
  unfold train_iteration in H.
  apply bind_inv_raise in H. destruct H as [H | ([] & w1 & Hprint & H)];
    [discriminate H |].
  inversion Hprint; subst w1; clear Hprint.
  apply bind_inv_raise in H. destruct H as [H | ([tl ta] & w2 & Hep & H)];
    [exact (raises_train_epoch _ _ _ _ _ H) |].
  pose proof (train_epoch_same_records dl device
                (add_line (EpochLine (i + 1) epochs) w)) as Hsame.
  rewrite Hep in Hsame. destruct Hsame as (Sta & Stl & Sva & Svl & _).
  simpl in Sta, Stl, Sva, Svl.
  destruct (Z.eq_dec (len dl) 0) as [Hz | Hnz].
  { rewrite bind_raise with (e := ZeroDivisionError "float division by zero") (w' := w2)
      in H by (apply training_metrics_zero; exact Hz).
    inversion H; subst. right. left. reflexivity. }
  rewrite bind_ok with (a := tt)
                       (w' := after_training_metrics
                                (PrimFloat.div tl (Z2float (len dl)))
                                (PrimFloat.div ta (Z2float (len dl))) w2) in H
    by (apply training_metrics_ok; congruence).
  apply bind_inv_raise in H. destruct H as [H | ([] & w4 & _ & H)];
    [| discriminate H].
  unfold test_model in H. destruct tdl as [d |]; [| discriminate H].
  destruct (truthy (Some d)) eqn:Htr; [| discriminate H].
  apply bind_inv_raise in H. destruct H as [H | ([vl va] & w5 & Hval & H)];
    [exact (raises_validate_epoch _ _ _ _ _ H) |].
  assert (Hd : len d <> 0).
  { simpl in Htr. destruct (Z.eqb_spec (len d) 0); [discriminate | assumption]. }
  pose proof (validate_epoch_same_records d device
                (after_training_metrics (PrimFloat.div tl (Z2float (len dl)))
                                        (PrimFloat.div ta (Z2float (len dl))) w2))
    as Hsame.
  rewrite Hval in Hsame. destruct Hsame as (_ & _ & Vva & Vvl & _).
  simpl in Vva, Vvl.
  rewrite testing_metrics_ok in H by congruence.
  discriminate H.
Qed.

Lemma epochs_loop_raises (dl : DataLoader) (device : Device) (epochs : Z)
    (tdl : option DataLoader) (log0 : list (list (string * float))) (e : exn)
    (n : nat) :
  forall w w',
    recorded log0 tdl 0 w ->
    epochs_loop dl device epochs tdl (range (Z.of_nat n)) w = (Raise e, w') ->
    origin e.
Proof.
  unfold epochs_loop.
  induction n as [| n IH]; intros w w' Hrec Hrun.
  - discriminate Hrun.
  - replace (Z.of_nat (S n)) with (Z.of_nat n + 1) in * by lia.
    rewrite range_succ, for_each_app in Hrun by lia.
    destruct (for_each _ (range (Z.of_nat n)) tt w) as [[[] | e1] w1] eqn:Hpre.
    + destruct (epochs_loop_ok _ _ _ _ _ _ _ _ Hrec Hpre) as (Hrec1 & _).
      simpl in Hrun. apply bind_inv_raise in Hrun.
      destruct Hrun as [H | (a & w2 & _ & H)]; [| discriminate H].
      exact (train_iteration_raises _ _ _ _ _ _ _ _ _ Hrec1 H).
    + inversion Hrun; subst. exact (IH _ _ Hrec Hpre).
Qed.

(** Whatever leaves [train] was raised by a collaborator or by one of
    the operators of [train.py]: no exception is made up on the way. *)
Lemma train_raises_origin (dl : DataLoader) (device : Device) (epochs : Z)
    (tdl : option DataLoader) (w w' : World) (e : exn) :
  train dl device epochs tdl w = (Raise e, w') -> origin e.
Proof.
  intros H. unfold train in H.
  apply bind_inv_raise in H. destruct H as [H | ([] & w1 & Hinit & H)];
    [discriminate H |].
  inversion Hinit; subst w1; clear Hinit.
  apply bind_inv_raise in H. destruct H as [H | ([] & w2 & _ & H)].
  - rewrite range_to_nat in H.
    exact (epochs_loop_raises _ _ _ _ _ _ _ _ _ (recorded_start tdl w) H).
  - apply bind_inv_raise in H. destruct H as [H | ([] & w3 & _ & H)];
      discriminate H.
Qed.

(** *** Nothing catches an exception *)

(** The loop ends with the exception of the first element whose body
    raises, in the world that body left. *)
Lemma for_each_raise {A B : Type} (body : A -> B -> M A) (pre post : list B)
    (x : B) (acc acc1 : A) (w w1 w2 : World) (e : exn) :
  for_each body pre acc w = (Ok acc1, w1) ->
  body acc1 x w1 = (Raise e, w2) ->
  for_each body (pre ++ x :: post) acc w = (Raise e, w2).
Proof.
  intros Hpre Hx. rewrite for_each_app, Hpre. simpl.
  apply bind_raise. exact Hx.
Qed.

Lemma train_epoch_inv_ok (dl : DataLoader) (device : Device) (w w1 : World)
    (tl ta : float) :
  train_epoch dl device w = (Ok (tl, ta), w1) ->
  exists total, train_loop dl device (set_training true w) = (Ok (tl, ta, total), w1).
Proof.
  intros H. unfold train_epoch in H.
  apply bind_inv_ok in H. destruct H as ([] & w0 & Hmode & H).
  inversion Hmode; subst w0; clear Hmode.
  apply bind_inv_ok in H. destruct H as ([[l a] t] & w2 & Hloop & H).
  inversion H; subst. exists t. exact Hloop.
Qed.

Lemma train_epoch_raise (pre post : DataLoader) (b : Batch) (device : Device)
    (w w1 w2 : World) (tl ta : float) (e : exn) :
  train_epoch pre device w = (Ok (tl, ta), w1) ->
  train_batch device b w1 = (Raise e, w2) ->
  train_epoch (pre ++ b :: post) device w = (Raise e, w2).
Proof.
  intros Hpre Hb. apply train_epoch_inv_ok in Hpre. destruct Hpre as [total Hpre].
  unfold train_epoch. erewrite bind_ok by reflexivity.
  apply bind_raise. unfold train_loop in *.
  eapply for_each_raise; [exact Hpre |].
  apply bind_raise. exact Hb.
Qed.

Lemma validate_epoch_raise (pre post : DataLoader) (b : Batch) (device : Device)
    (w w1 w2 : World) (vl va : float) (e : exn) :
  validate_epoch pre device w = (Ok (vl, va), w1) ->
  validate_batch device b (set_grad_enabled false w1) = (Raise e, w2) ->
  validate_epoch (pre ++ b :: post) device w =
    (Raise e, set_grad_enabled (grad_enabled w) w2).
Proof.
  intros Hpre Hb. unfold validate_epoch in *.
  apply bind_inv_ok in Hpre. destruct Hpre as ([] & w0 & Hmode & Hpre).
  inversion Hmode; subst w0; clear Hmode.
  apply bind_inv_ok in Hpre. destruct Hpre as ([[l a] t] & w3 & Hloop & Hret).
  inversion Hret; subst; clear Hret.
  unfold with_no_grad in Hloop.
  destruct (validate_loop pre device (set_grad_enabled false (set_training false w)))
    as [r w4] eqn:Hin.
  inversion Hloop; subst; clear Hloop.
  assert (Hg : grad_enabled w4 = false).
  { assert (K : keeps grad_enabled (validate_loop pre device)).
    { unfold validate_loop. apply keeps_for_each. intros sums x.
      apply keeps_bind; [| intros m; apply keeps_ret].
      apply keeps_validate_batch. reflexivity. }
    specialize (K (set_grad_enabled false (set_training false w))).
    rewrite Hin in K. exact K. }
  assert (Hw : forall g, set_grad_enabled false (set_grad_enabled g w4) = w4).
  { intros g. destruct w4. simpl in *. subst. reflexivity. }
  rewrite Hw in Hb.
  erewrite bind_ok by reflexivity.
  apply bind_raise. unfold with_no_grad, validate_loop in *.
  erewrite for_each_raise; [reflexivity | exact Hin |].
  apply bind_raise. exact Hb.
Qed.

Lemma train_iteration_raise_training (dl : DataLoader) (device : Device) (epochs : Z)
    (tdl : option DataLoader) (i : Z) (w w2 : World) (e : exn) :
  train_epoch dl device (add_line (EpochLine (i + 1) epochs) w) = (Raise e, w2) ->
  train_iteration dl device epochs tdl i w = (Raise e, w2).
Proof.
  intros H. unfold train_iteration.
  erewrite bind_ok by reflexivity. apply bind_raise. exact H.
Qed.

Lemma train_iteration_raise_validation (dl d : DataLoader) (device : Device)
    (epochs : Z) (i : Z) (w w2 w3 w4 : World) (tl ta : float) (e : exn) :
  len d <> 0 ->
  train_epoch dl device (add_line (EpochLine (i + 1) epochs) w) = (Ok (tl, ta), w2) ->
  training_metrics dl i tl ta w2 = (Ok tt, w3) ->
  validate_epoch d device w3 = (Raise e, w4) ->
  train_iteration dl device epochs (Some d) i w = (Raise e, w4).
Proof.
  intros Hd Hep Hmet Hval. unfold train_iteration.
  erewrite bind_ok by reflexivity.
  erewrite bind_ok by exact Hep. cbv beta iota.
  erewrite bind_ok by exact Hmet.
  apply bind_raise. unfold test_model, truthy.
  rewrite (proj2 (Z.eqb_neq _ _) Hd). simpl.
  apply bind_raise. exact Hval.
Qed.

Lemma train_raise (dl : DataLoader) (device : Device) (epochs : Z)
    (tdl : option DataLoader) (i : Z) (w w1 w2 : World) (e : exn) :
  0 <= i < epochs ->
  epochs_loop dl device epochs tdl (range i) (set_history [] [] [] [] w) = (Ok tt, w1) ->
  train_iteration dl device epochs tdl i w1 = (Raise e, w2) ->
  train dl device epochs tdl w = (Raise e, w2).
Proof.
  intros Hi Hpre Hit. unfold train.
  erewrite bind_ok by reflexivity. apply bind_raise.
  assert (Hsplit : exists post, range epochs = range i ++ i :: post).
  { exists (map Z.of_nat (seq (S (Z.to_nat i)) (Z.to_nat epochs - S (Z.to_nat i)))).
    unfold range.
    replace (Z.to_nat epochs)
      with (Z.to_nat i + S (Z.to_nat epochs - S (Z.to_nat i)))%nat at 1 by lia.
    rewrite seq_app, map_app. simpl. rewrite Z2Nat.id by lia. reflexivity. }
  destruct Hsplit as [post ->].
  unfold epochs_loop in *.
  eapply for_each_raise; [exact Hpre | exact Hit].
Qed.

(** C7. [train] performs no error recovery.  Whichever call of a
    batch raises - moving the batch to the device, the model, the loss
    function, [zero_grad], [backward], the step of the optimizer,
    [argmax] or the comparison with the target, in [train_epoch]; the
    same calls but for the three of the optimizer in [validate_epoch]
    - that exception leaves the batch as it is, with the state changes
    made before it; the exception of the first failing batch leaves
    [train_epoch] and [validate_epoch] as it is (the latter having
    restored the autograd mode); the exception of either epoch
    function, or of the metric blocks after them, leaves the epoch of
    [train] as it is; and the exception of the first failing epoch
    leaves [train], which ends there, as it is.  In the other
    direction, whatever exception leaves [train] was raised by a
    collaborator or by an operator of the code: none is made up, or
    made from another. *)
Theorem exceptions_propagate :
  (* every call of a training batch, in the order of lines 68-82 *)
  (forall device b w e,
     wav_to (fst b) device = Raise e ->
     train_batch device b w = (Raise e, w)) /\
  (forall device b w wav e,
     wav_to (fst b) device = Ok wav ->
     target_to_raises (snd b) device = Some e ->
     train_batch device b w = (Raise e, w)) /\
  (forall device b w wav bf e,
     wav_to (fst b) device = Ok wav ->
     target_to_raises (snd b) device = None ->
     forward (params w) (buffers w) (training w) (grad_enabled w) wav = (Raise e, bf) ->
     train_batch device b w = (Raise e, set_buffers bf w)) /\
  (forall device b w wav bf out e,
     wav_to (fst b) device = Ok wav ->
     target_to_raises (snd b) device = None ->
     forward (params w) (buffers w) (training w) (grad_enabled w) wav = (Ok out, bf) ->
     loss_fn out (snd b) = Raise e ->
     train_batch device b w = (Raise e, set_buffers bf w)) /\
  (forall device b w wav bf out loss e,
     wav_to (fst b) device = Ok wav ->
     target_to_raises (snd b) device = None ->
     forward (params w) (buffers w) (training w) (grad_enabled w) wav = (Ok out, bf) ->
     loss_fn out (snd b) = Ok loss ->
     zero_grad (grads w) = Raise e ->
     train_batch device b w = (Raise e, set_buffers bf w)) /\
  (forall device b w wav bf out loss g0 e,
     wav_to (fst b) device = Ok wav ->
     target_to_raises (snd b) device = None ->
     forward (params w) (buffers w) (training w) (grad_enabled w) wav = (Ok out, bf) ->
     loss_fn out (snd b) = Ok loss ->
     zero_grad (grads w) = Ok g0 ->
     backward loss g0 = Raise e ->
     train_batch device b w = (Raise e, set_grads g0 (set_buffers bf w))) /\
  (forall device b w wav bf out loss g0 g1 e,
     wav_to (fst b) device = Ok wav ->
     target_to_raises (snd b) device = None ->
     forward (params w) (buffers w) (training w) (grad_enabled w) wav = (Ok out, bf) ->
     loss_fn out (snd b) = Ok loss ->
     zero_grad (grads w) = Ok g0 ->
     backward loss g0 = Ok g1 ->
     step (opt_state w) (params w) g1 = Raise e ->
     train_batch device b w = (Raise e, set_grads g1 (set_buffers bf w))) /\
  (forall device b w wav bf out loss g0 g1 p o e,
     wav_to (fst b) device = Ok wav ->
     target_to_raises (snd b) device = None ->
     forward (params w) (buffers w) (training w) (grad_enabled w) wav = (Ok out, bf) ->
     loss_fn out (snd b) = Ok loss ->
     zero_grad (grads w) = Ok g0 ->
     backward loss g0 = Ok g1 ->
     step (opt_state w) (params w) g1 = Ok (p, o) ->
     argmax1 out = Raise e \/
     (exists prediction,
        argmax1 out = Ok prediction /\ batch_accuracy prediction (snd b) = Raise e) ->
     train_batch device b w =
       (Raise e, set_params_opt p o (set_grads g1 (set_buffers bf w)))) /\
  (* every call of a validation batch, in the order of lines 96-103 *)
  (forall device b w e,
     wav_to (fst b) device = Raise e ->
     validate_batch device b w = (Raise e, w)) /\
  (forall device b w wav e,
     wav_to (fst b) device = Ok wav ->
     target_to_raises (snd b) device = Some e ->
     validate_batch device b w = (Raise e, w)) /\
  (forall device b w wav bf e,
     wav_to (fst b) device = Ok wav ->
     target_to_raises (snd b) device = None ->
     forward (params w) (buffers w) (training w) (grad_enabled w) wav = (Raise e, bf) ->
     validate_batch device b w = (Raise e, set_buffers bf w)) /\
  (forall device b w wav bf out e,
     wav_to (fst b) device = Ok wav ->
     target_to_raises (snd b) device = None ->
     forward (params w) (buffers w) (training w) (grad_enabled w) wav = (Ok out, bf) ->
     loss_fn out (snd b) = Raise e ->
     validate_batch device b w = (Raise e, set_buffers bf w)) /\
  (forall device b w wav bf out loss e,
     wav_to (fst b) device = Ok wav ->
     target_to_raises (snd b) device = None ->
     forward (params w) (buffers w) (training w) (grad_enabled w) wav = (Ok out, bf) ->
     loss_fn out (snd b) = Ok loss ->
     argmax1 out = Raise e \/
     (exists prediction,
        argmax1 out = Ok prediction /\ batch_accuracy prediction (snd b) = Raise e) ->
     validate_batch device b w = (Raise e, set_buffers bf w)) /\
  (* the first failing batch, in an epoch *)
  (forall pre post b device w w1 w2 tl ta e,
     train_epoch pre device w = (Ok (tl, ta), w1) ->
     train_batch device b w1 = (Raise e, w2) ->
     train_epoch (pre ++ b :: post) device w = (Raise e, w2)) /\
  (forall pre post b device w w1 w2 vl va e,
     validate_epoch pre device w = (Ok (vl, va), w1) ->
     validate_batch device b (set_grad_enabled false w1) = (Raise e, w2) ->
     validate_epoch (pre ++ b :: post) device w =
       (Raise e, set_grad_enabled (grad_enabled w) w2)) /\
  (* an epoch function, in an epoch of train *)
  (forall dl device epochs tdl i w w2 e,
     train_epoch dl device (add_line (EpochLine (i + 1) epochs) w) = (Raise e, w2) ->
     train_iteration dl device epochs tdl i w = (Raise e, w2)) /\
  (forall dl device epochs tdl i w w2 w3 tl ta e,
     train_epoch dl device (add_line (EpochLine (i + 1) epochs) w) = (Ok (tl, ta), w2) ->
     training_metrics dl i tl ta w2 = (Raise e, w3) ->
     train_iteration dl device epochs tdl i w = (Raise e, w3)) /\
  (forall dl d device epochs i w w2 w3 w4 tl ta e,
     len d <> 0 ->
     train_epoch dl device (add_line (EpochLine (i + 1) epochs) w) = (Ok (tl, ta), w2) ->
     training_metrics dl i tl ta w2 = (Ok tt, w3) ->
     validate_epoch d device w3 = (Raise e, w4) ->
     train_iteration dl device epochs (Some d) i w = (Raise e, w4)) /\
  (forall dl d device epochs i w w2 w3 w4 w5 tl ta vl va e,
     len d <> 0 ->
     train_epoch dl device (add_line (EpochLine (i + 1) epochs) w) = (Ok (tl, ta), w2) ->
     training_metrics dl i tl ta w2 = (Ok tt, w3) ->
     validate_epoch d device w3 = (Ok (vl, va), w4) ->
     testing_metrics d i vl va w4 = (Raise e, w5) ->
     train_iteration dl device epochs (Some d) i w = (Raise e, w5)) /\
  (* the first failing epoch, in the run *)
  (forall dl device epochs tdl i w w1 w2 e,
     0 <= i < epochs ->
     epochs_loop dl device epochs tdl (range i) (set_history [] [] [] [] w) = (Ok tt, w1) ->
     train_iteration dl device epochs tdl i w1 = (Raise e, w2) ->
     train dl device epochs tdl w = (Raise e, w2)) /\
  (* nothing else leaves train *)
  (forall dl device epochs tdl w w' e,
     train dl device epochs tdl w = (Raise e, w') ->
     from_collaborator e \/ from_operator e).
Proof.
  repeat match goal with |- _ /\ _ => split end.
  - intros device b w e Hw.
    unfold train_batch, bind, lift. rewrite Hw. reflexivity.
  - intros device b w wav e Hw Ht.
    unfold train_batch, bind, lift, target_to. rewrite Hw, Ht. reflexivity.
  - intros device b w wav bf e Hw Ht Hf.
    unfold train_batch, bind, lift, target_to, model_call.
    rewrite Hw, Ht. simpl. rewrite Hf. reflexivity.
  - intros device b w wav bf out e Hw Ht Hf Hl.
    unfold train_batch, bind, lift, target_to, model_call.
    rewrite Hw, Ht. simpl. rewrite Hf, Hl. reflexivity.
  - intros device b w wav bf out loss e Hw Ht Hf Hl Hz.
    unfold train_batch, bind, lift, target_to, model_call, optimizer_zero_grad.
    rewrite Hw, Ht. simpl. rewrite Hf, Hl. simpl. rewrite Hz. reflexivity.
  - intros device b w wav bf out loss g0 e Hw Ht Hf Hl Hz Hb.
    unfold train_batch, bind, lift, target_to, model_call,
      optimizer_zero_grad, loss_backward.
    rewrite Hw, Ht. simpl. rewrite Hf, Hl. simpl. rewrite Hz. simpl.
    rewrite Hb. reflexivity.
  - intros device b w wav bf out loss g0 g1 e Hw Ht Hf Hl Hz Hb Hs.
    unfold train_batch, bind, lift, target_to, model_call,
      optimizer_zero_grad, loss_backward, optimizer_step.
    rewrite Hw, Ht. simpl. rewrite Hf, Hl. simpl. rewrite Hz. simpl.
    rewrite Hb. simpl. rewrite Hs. reflexivity.
  - intros device b w wav bf out loss g0 g1 p o e Hw Ht Hf Hl Hz Hb Hs Hm.
    unfold train_batch, bind, lift, target_to, model_call,
      optimizer_zero_grad, loss_backward, optimizer_step.
    rewrite Hw, Ht. simpl. rewrite Hf, Hl. simpl. rewrite Hz. simpl.
    rewrite Hb. simpl. rewrite Hs.
    destruct Hm as [Hp | (prediction & Hp & Ha)].
    + rewrite Hp. reflexivity.
    + rewrite Hp, Ha. reflexivity.
  - intros device b w e Hw.
    unfold validate_batch, bind, lift. rewrite Hw. reflexivity.
  - intros device b w wav e Hw Ht.
    unfold validate_batch, bind, lift, target_to. rewrite Hw, Ht. reflexivity.
  - intros device b w wav bf e Hw Ht Hf.
    unfold validate_batch, bind, lift, target_to, model_call.
    rewrite Hw, Ht. simpl. rewrite Hf. reflexivity.
  - intros device b w wav bf out e Hw Ht Hf Hl.
    unfold validate_batch, bind, lift, target_to, model_call.
    rewrite Hw, Ht. simpl. rewrite Hf, Hl. reflexivity.
  - intros device b w wav bf out loss e Hw Ht Hf Hl Hm.
    unfold validate_batch, bind, lift, target_to, model_call.
    rewrite Hw, Ht. simpl. rewrite Hf, Hl.
    destruct Hm as [Hp | (prediction & Hp & Ha)].
    + rewrite Hp. reflexivity.
    + rewrite Hp, Ha. reflexivity.
  - intros. eapply train_epoch_raise; eassumption.
  - intros. eapply validate_epoch_raise; eassumption.
  - intros. apply train_iteration_raise_training. assumption.
  - intros dl device epochs tdl i w w2 w3 tl ta e Hep Hmet.
    unfold train_iteration.
    erewrite bind_ok by reflexivity.
    erewrite bind_ok by exact Hep. cbv beta iota.
    apply bind_raise. exact Hmet.
  - intros. eapply train_iteration_raise_validation; eassumption.
  - intros dl d device epochs i w w2 w3 w4 w5 tl ta vl va e Hd Hep Hmet Hval Htest.
    unfold train_iteration.
    erewrite bind_ok by reflexivity.
    erewrite bind_ok by exact Hep. cbv beta iota.
    erewrite bind_ok by exact Hmet.
    apply bind_raise. unfold test_model, truthy.
    rewrite (proj2 (Z.eqb_neq _ _) Hd). simpl.
    erewrite bind_ok by exact Hval. exact Htest.
  - intros. eapply train_raise; eassumption.
  - intros. eapply train_raises_origin; eassumption.
Qed.

End Exceptions.

(** ** The accuracy that an epoch accumulates *)

(** *** Binary64 quotients of integers

    The conversion of an integer below 2^53 and the division of two
    such conversions, followed through their specification in
    [SpecFloat]. *)

(** The number of bits of a positive number. *)
Lemma digits2_pos_bounds (p : positive) :
  2 ^ (Z.pos (digits2_pos p) - 1) <= Z.pos p < 2 ^ Z.pos (digits2_pos p).
Proof.
  induction p as [p IH | p IH |]; simpl digits2_pos.
  - rewrite Pos2Z.inj_succ.
    replace (Z.succ (Z.pos (digits2_pos p)) - 1) with (Z.succ (Z.pos (digits2_pos p) - 1)) by lia.
    rewrite !Z.pow_succ_r by lia. lia.
  - rewrite Pos2Z.inj_succ.
    replace (Z.succ (Z.pos (digits2_pos p)) - 1) with (Z.succ (Z.pos (digits2_pos p) - 1)) by lia.
    rewrite !Z.pow_succ_r by lia. lia.
  - simpl. lia.
Qed.

(** It is the only [d] with [2^(d-1) <= p < 2^d]. *)
Lemma digits2_pos_unique (p : positive) (d : Z) :
  2 ^ (d - 1) <= Z.pos p < 2 ^ d -> Z.pos (digits2_pos p) = d.
Proof.
  intros [Hlo Hhi]. pose proof (digits2_pos_bounds p) as [Blo Bhi].
  set (D := Z.pos (digits2_pos p)) in *.
  assert (HD : 1 <= D) by (subst D; lia).
  destruct (Z.lt_trichotomy D d) as [Hlt | [Heq | Hgt]]; [| exact Heq |].
  - assert (2 ^ D <= 2 ^ (d - 1)) by (apply Z.pow_le_mono_r; lia). lia.
  - assert (Hd : 0 <= d).
    { destruct (Z.lt_ge_cases d 0) as [Hneg | Hpos]; [| exact Hpos].
      rewrite (Z.pow_neg_r 2 d Hneg) in Hhi. lia. }
    assert (2 ^ d <= 2 ^ (D - 1)) by (apply Z.pow_le_mono_r; lia). lia.
Qed.

(** Appending [k] zero bits multiplies by [2^k]. *)
Lemma iter_xO_pow (p k : positive) :
  Z.pos (Pos.iter xO p k) = Z.pos p * 2 ^ Z.pos k.
Proof.
  induction k as [| k IH] using Pos.peano_ind.
  - simpl. lia.
  - rewrite Pos.iter_succ, Pos2Z.inj_succ, Z.pow_succ_r by lia.
    rewrite Pos2Z.inj_xO, IH. lia.
Qed.

(** Away from the subnormal range, the exponent of a number of
    magnitude [e] leaves 53 bits to the mantissa. *)
Lemma fexp_mid (e : Z) : -1021 <= e -> fexp prec emax e = e - 53.
Proof. intros H. unfold fexp, SpecFloat.emin, prec, emax. apply Z.max_l. lia. Qed.

(** A mantissa of 53 bits is not shifted; one of 54 bits is shifted
    once. *)
Lemma shr_fexp_53 (m : positive) (e : Z) (l : location) :
  digits2_pos m = 53%positive -> -1074 <= e ->
  shr_fexp prec emax (Z.pos m) e l = (shr_record_of_loc (Z.pos m) l, e).
Proof.
  intros Hd He. unfold shr_fexp.
  change (Zdigits2 (Z.pos m)) with (Z.pos (digits2_pos m)).
  rewrite Hd, fexp_mid by lia.
  replace (53 + e - 53 - e) with 0 by lia. reflexivity.
Qed.

Lemma shr_fexp_54 (m : positive) (e : Z) (l : location) :
  digits2_pos m = 54%positive -> -1075 <= e ->
  shr_fexp prec emax (Z.pos m) e l = (shr_1 (shr_record_of_loc (Z.pos m) l), e + 1).
Proof.
  intros Hd He. unfold shr_fexp.
  change (Zdigits2 (Z.pos m)) with (Z.pos (digits2_pos m)).
  rewrite Hd, fexp_mid by lia.
  replace (54 + e - 53 - e) with 1 by lia. reflexivity.
Qed.

(** Rounding leaves an exact mantissa of 53 bits as it is. *)
Lemma round_aux_exact (m : positive) (e : Z) :
  digits2_pos m = 53%positive -> -1074 <= e <= 971 ->
  binary_round_aux prec emax false (Z.pos m) e loc_Exact = S754_finite false m e.
Proof.
  intros Hd He. unfold binary_round_aux.
  rewrite shr_fexp_53 by (assumption || lia).
  cbn [shr_record_of_loc shr_m loc_of_shr_record round_nearest_even].
  rewrite shr_fexp_53 by (assumption || lia).
  cbn [shr_record_of_loc shr_m].
  destruct (Z.leb_spec e (emax - prec)) as [_ | H]; [reflexivity |].
  unfold emax, prec in H. lia.
Qed.

(** The binary64 form of a positive integer below 2^53. *)
Lemma Z2float_pos_spec (p : positive) :
  Z.pos p < 2 ^ 53 ->
  exists m : positive,
    Prim2SF (Z2float (Z.pos p)) = S754_finite false m (Z.pos (digits2_pos p) - 53) /\
    Z.pos m = Z.pos p * 2 ^ (53 - Z.pos (digits2_pos p)) /\
    digits2_pos m = 53%positive.
Proof.
  intros Hp. pose proof (digits2_pos_bounds p) as [Blo Bhi].
  set (d := Z.pos (digits2_pos p)) in *.
  assert (Hd : 1 <= d <= 53).
  { split; [subst d; lia |].
    destruct (Z.le_gt_cases d 53) as [H | H]; [exact H |].
    assert (2 ^ 53 <= 2 ^ (d - 1)) by (apply Z.pow_le_mono_r; lia). lia. }
  assert (Hm : exists m : positive,
             shl_align p 0 (fexp prec emax (d + 0)) = (m, d - 53) /\
             Z.pos m = Z.pos p * 2 ^ (53 - d)).
  { rewrite Z.add_0_r, fexp_mid by lia. unfold shl_align.
    destruct (d - 53 - 0) as [| k | k] eqn:Hk.
    - exists p. replace (d - 53) with 0 by lia. replace (53 - d) with 0 by lia.
      split; [reflexivity | simpl; lia].
    - lia.
    - exists (Pos.iter xO p k). split; [reflexivity |].
      rewrite iter_xO_pow. replace (53 - d) with (Z.pos k) by lia. reflexivity. }
  destruct Hm as (m & Hal & Hval).
  assert (Hdm : digits2_pos m = 53%positive).
  { assert (H : Z.pos (digits2_pos m) = 53).
    { apply digits2_pos_unique. rewrite Hval.
      assert (E1 : 2 ^ (53 - 1) = 2 ^ (d - 1) * 2 ^ (53 - d))
        by (rewrite <- Z.pow_add_r by lia; f_equal; lia).
      assert (E2 : 2 ^ 53 = 2 ^ d * 2 ^ (53 - d))
        by (rewrite <- Z.pow_add_r by lia; f_equal; lia).
      assert (0 < 2 ^ (53 - d)) by (apply Z.pow_pos_nonneg; lia).
      rewrite E1, E2. split; nia. }
    injection H as H. exact H. }
  exists m. split; [| split; [exact Hval | exact Hdm]].
  unfold Z2float. cbn [binary_normalize]. unfold binary_round.
  fold d. rewrite Hal. rewrite round_aux_exact by (assumption || lia).
  apply Prim2SF_SF2Prim.
  cbn [valid_binary]. unfold bounded, canonical_mantissa.
  rewrite Hdm, fexp_mid by lia.
  apply andb_true_intro. split.
  - apply Z.eqb_eq. lia.
  - apply Z.leb_le. unfold emax, prec. lia.
Qed.

(** Rounding to nearest moves the mantissa up by one at most. *)
Lemma round_nearest_even_bounds (m : Z) (l : location) :
  m <= round_nearest_even m l <= m + 1.
Proof.
  unfold round_nearest_even. destruct l as [| []]; try lia.
  destruct (Z.even m); lia.
Qed.

(** The last step of [binary_round_aux] on a mantissa of 53 bits, or
    on 2^53. *)
Lemma round_last_step (q1 : positive) (e : Z) :
  2 ^ 52 <= Z.pos q1 <= 2 ^ 53 -> -1074 <= e <= 970 ->
  (let '(mrs, e') := shr_fexp prec emax (Z.pos q1) e loc_Exact in
   match shr_m mrs with
   | 0 => S754_zero false
   | Z.pos m => if e' <=? emax - prec then S754_finite false m e' else S754_infinity false
   | Z.neg _ => S754_nan
   end) =
  if Z.pos q1 <? 2 ^ 53 then S754_finite false q1 e
  else S754_finite false (2 ^ 52)%positive (e + 1).
Proof.
  intros Hq He. destruct (Z.ltb_spec (Z.pos q1) (2 ^ 53)) as [Hlt | Hge].
  - assert (Hd : digits2_pos q1 = 53%positive).
    { assert (H : Z.pos (digits2_pos q1) = 53)
        by (apply digits2_pos_unique; simpl; lia).
      injection H as H. exact H. }
    rewrite shr_fexp_53 by (assumption || lia).
    cbn [shr_record_of_loc shr_m].
    destruct (Z.leb_spec e (emax - prec)) as [_ | H]; [reflexivity |].
    unfold emax, prec in H. lia.
  - assert (Hq1 : q1 = (2 ^ 53)%positive).
    { assert (H : Z.pos q1 = Z.pos (2 ^ 53)) by (simpl in *; lia).
      injection H as H. exact H. }
    subst q1. rewrite shr_fexp_54 by (reflexivity || lia).
    cbn [shr_record_of_loc shr_1 shr_m Pos.pow Pos.iter Pos.mul]. 
    destruct (Z.leb_spec (e + 1) (emax - prec)) as [_ | H]; [reflexivity |].
    unfold emax, prec in H. lia.
Qed.

Lemma loc_of_record_of_loc (m : Z) (l : location) :
  loc_of_shr_record (shr_record_of_loc m l) = l.
Proof. destruct l as [| []]; reflexivity. Qed.

Lemma shr_m_record_of_loc (m : Z) (l : location) :
  shr_m (shr_record_of_loc m l) = m.
Proof. destruct l as [| []]; reflexivity. Qed.

(** One shift of a mantissa of 54 bits leaves its upper 53 bits, and
    an exact even mantissa stays exact. *)
Lemma shr_1_54 (pq : positive) (l : location) :
  2 ^ 53 <= Z.pos pq < 2 ^ 54 ->
  exists p' : positive,
    shr_m (shr_1 (shr_record_of_loc (Z.pos pq) l)) = Z.pos p' /\
    2 ^ 52 <= Z.pos p' < 2 ^ 53 /\
    (l = loc_Exact -> Z.pos pq = 2 ^ 53 ->
     p' = (2 ^ 52)%positive /\
     loc_of_shr_record (shr_1 (shr_record_of_loc (Z.pos pq) l)) = loc_Exact).
Proof.
  intros Hq. destruct pq as [p' | p' |]; [| | simpl in Hq; lia].
  - exists p'. split; [destruct l as [| []]; reflexivity |].
    split; [rewrite Pos2Z.inj_xI in Hq; lia |].
    intros _ H. rewrite Pos2Z.inj_xI in H. simpl in H. lia.
  - exists p'. split; [destruct l as [| []]; reflexivity |].
    split; [rewrite Pos2Z.inj_xO in Hq; lia |].
    intros -> H. split; [| reflexivity].
    rewrite Pos2Z.inj_xO in H.
    assert (H' : Z.pos p' = Z.pos (2 ^ 52)) by (simpl in *; lia).
    injection H' as H'. exact H'.
Qed.

(** What [binary_round_aux] gives on a quotient of 53 or 54 bits. *)
Lemma round_aux_quotient (pq : positive) (e : Z) (l : location) :
  2 ^ 52 <= Z.pos pq < 2 ^ 54 -> -1074 <= e <= 900 ->
  exists (m : positive) (E : Z),
    binary_round_aux prec emax false (Z.pos pq) e l = S754_finite false m E /\
    ((Z.pos pq < 2 ^ 53 /\ E = e /\ Z.pos m < 2 ^ 53) \/
     (Z.pos pq < 2 ^ 53 /\ E = e + 1 /\ m = (2 ^ 52)%positive) \/
     (2 ^ 53 <= Z.pos pq /\ E = e + 1 /\ Z.pos m < 2 ^ 53 /\
      (l = loc_Exact -> Z.pos pq = 2 ^ 53 -> m = (2 ^ 52)%positive)) \/
     (2 ^ 53 <= Z.pos pq /\ E = e + 2 /\ m = (2 ^ 52)%positive /\
      ~ (l = loc_Exact /\ Z.pos pq = 2 ^ 53))).
Proof.
  intros Hq He. unfold binary_round_aux.
  destruct (Z.lt_ge_cases (Z.pos pq) (2 ^ 53)) as [Hlt | Hge].
  - assert (Hd : digits2_pos pq = 53%positive).
    { assert (H : Z.pos (digits2_pos pq) = 53)
        by (apply digits2_pos_unique; simpl; lia).
      injection H as H. exact H. }
    rewrite shr_fexp_53 by (assumption || lia).
    rewrite shr_m_record_of_loc, loc_of_record_of_loc.
    pose proof (round_nearest_even_bounds (Z.pos pq) l) as Hr.
    destruct (round_nearest_even (Z.pos pq) l) as [| q1 | q1] eqn:Hq1; try lia.
    rewrite round_last_step by lia.
    destruct (Z.ltb_spec (Z.pos q1) (2 ^ 53)) as [H1 | H1].
    + exists q1, e. split; [reflexivity |]. left. repeat split; assumption.
    + exists (2 ^ 52)%positive, (e + 1). split; [reflexivity |].
      right. left. repeat split; assumption.
  - assert (Hd : digits2_pos pq = 54%positive).
    { assert (H : Z.pos (digits2_pos pq) = 54)
        by (apply digits2_pos_unique; simpl; lia).
      injection H as H. exact H. }
    rewrite shr_fexp_54 by (assumption || lia).
    destruct (shr_1_54 pq l ltac:(lia)) as (p' & Hm & Hp' & Hex).
    rewrite Hm.
    pose proof (round_nearest_even_bounds (Z.pos p')
                  (loc_of_shr_record (shr_1 (shr_record_of_loc (Z.pos pq) l)))) as Hr.
    destruct (round_nearest_even (Z.pos p') _) as [| q1 | q1] eqn:Hq1; try lia.
    rewrite round_last_step by lia.
    destruct (Z.ltb_spec (Z.pos q1) (2 ^ 53)) as [H1 | H1].
    + exists q1, (e + 1). split; [reflexivity |].
      right. right. left. repeat split; try assumption.
      intros Hl Hpq. destruct (Hex Hl Hpq) as [-> Hloc].
      rewrite Hloc in Hq1. simpl in Hq1. injection Hq1 as <-. reflexivity.
    + exists (2 ^ 52)%positive, (e + 1 + 1). split; [reflexivity |].
      right. right. right.
      split; [assumption | split; [lia | split; [reflexivity |]]].
      intros [Hl Hpq]. destruct (Hex Hl Hpq) as [-> Hloc].
      rewrite Hloc in Hq1. simpl in Hq1. injection Hq1 as <-. simpl in H1. lia.
Qed.

(** A positive float is at most 1.0 when its exponent is below that of
    1.0, or when it is 1.0. *)
Lemma SFleb_one (m : positive) (E : Z) :
  E < -52 \/ (E = -52 /\ m = (2 ^ 52)%positive) ->
  SFleb (S754_finite false m E) (S754_finite false (2 ^ 52)%positive (-52)) = true.
Proof.
  intros H. unfold SFleb, SFcompare.
  destruct H as [H | [-> ->]].
  - rewrite (proj2 (Z.compare_lt_iff E (-52)) H). reflexivity.
  - reflexivity.
Qed.

(** A division without remainder is exact. *)
Lemma new_location_0 (n : Z) : new_location n 0 = loc_Exact.
Proof.
  unfold new_location, new_location_even, new_location_odd.
  destruct (Z.even n); reflexivity.
Qed.

Lemma div_eucl_div_mod (a b : Z) : Z.div_eucl a b = (a / b, a mod b).
Proof. unfold Z.div, Z.modulo. destruct (Z.div_eucl a b). reflexivity. Qed.

(** The quotient of two integers [0 <= c <= n] below 2^53, computed in
    binary64 from their conversions, lies between 0.0 and 1.0. *)
Lemma int_fraction_in_unit (c n : Z) :
  0 <= c <= n -> 0 < n < 2 ^ 53 ->
  PrimFloat.leb 0%float (PrimFloat.div (Z2float c) (Z2float n)) = true /\
  PrimFloat.leb (PrimFloat.div (Z2float c) (Z2float n)) 1%float = true.
Proof.
  intros Hc Hn. rewrite !leb_spec, div_spec.
  change (Prim2SF 0%float) with (S754_zero false).
  change (Prim2SF 1%float) with (S754_finite false (2 ^ 52)%positive (-52)).
  destruct n as [| pn | pn]; try lia.
  destruct (Z2float_pos_spec pn ltac:(lia)) as (mn & Hfn & Hvn & Hdn).
  rewrite Hfn.
  destruct c as [| pc | pc]; try lia.
  - (* c = 0 *)
    change (Prim2SF (Z2float 0)) with (S754_zero false).
    split; reflexivity.
  - destruct (Z2float_pos_spec pc ltac:(lia)) as (mc & Hfc & Hvc & Hdc).
    rewrite Hfc.
    pose proof (digits2_pos_bounds pc) as [Clo Chi].
    pose proof (digits2_pos_bounds pn) as [Nlo Nhi].
    set (dc := Z.pos (digits2_pos pc)) in *.
    set (dn := Z.pos (digits2_pos pn)) in *.
    assert (Hdc1 : 1 <= dc) by (subst dc; lia).
    assert (Hdn1 : 1 <= dn) by (subst dn; lia).
    assert (Hdn53 : dn <= 53).
    { destruct (Z.le_gt_cases dn 53) as [H | H]; [exact H |].
      assert (2 ^ 53 <= 2 ^ (dn - 1)) by (apply Z.pow_le_mono_r; lia). lia. }
    assert (Hdcn : dc <= dn).
    { destruct (Z.le_gt_cases dc dn) as [H | H]; [exact H |].
      assert (2 ^ dn <= 2 ^ (dc - 1)) by (apply Z.pow_le_mono_r; lia). lia. }
    pose proof (digits2_pos_bounds mc) as [MClo MChi]. rewrite Hdc in MClo, MChi.
    pose proof (digits2_pos_bounds mn) as [MNlo MNhi]. rewrite Hdn in MNlo, MNhi.
    change (2 ^ (53 - 1)) with (2 ^ 52) in *.
    (* the division *)
    unfold SF64div. cbn [SFdiv xorb]. unfold SFdiv_core_binary.
    change (Zdigits2 (Z.pos mc)) with (Z.pos (digits2_pos mc)).
    change (Zdigits2 (Z.pos mn)) with (Z.pos (digits2_pos mn)).
    rewrite Hdc, Hdn.
    replace (53 + (dc - 53) - (53 + (dn - 53))) with (dc - dn) by lia.
    rewrite fexp_mid by lia.
    rewrite Z.min_l by lia.
    replace (dc - 53 - (dn - 53) - (dc - dn - 53)) with 53 by lia.
    cbv iota.
    rewrite Z.shiftl_mul_pow2 by lia.
    rewrite div_eucl_div_mod.
    set (q := Z.pos mc * 2 ^ 53 / Z.pos mn).
    set (r := (Z.pos mc * 2 ^ 53) mod Z.pos mn).
    assert (Hq : 2 ^ 52 <= q < 2 ^ 54).
    { subst q. split.
      - apply Z.div_le_lower_bound; [lia |]. nia.
      - apply Z.div_lt_upper_bound; [lia |]. nia. }
    destruct q as [| pq | pq] eqn:Hqeq; try lia.
    destruct (round_aux_quotient pq (dc - dn - 53) (new_location (Z.pos mn) r)
                Hq ltac:(lia)) as (m & E & Hres & Hcases).
    rewrite Hres. split; [reflexivity |].
    apply SFleb_one.
    destruct (Z.eq_dec dc dn) as [Heq | Hne].
    + (* same number of bits: the mantissas are ordered like c and n *)
      assert (Hle : Z.pos mc <= Z.pos mn).
      { rewrite Hvc, Hvn. fold dc dn. rewrite Heq.
        apply Z.mul_le_mono_nonneg_r; [apply Z.pow_nonneg; lia | lia]. }
      assert (Hq53 : Z.pos pq <= 2 ^ 53).
      { rewrite <- Hqeq. subst q.
        apply Z.div_le_upper_bound; [lia |]. nia. }
      assert (Hfull : Z.pos pq = 2 ^ 53 -> new_location (Z.pos mn) r = loc_Exact).
      { intros Hfull.
        pose proof (Z.mul_div_le (Z.pos mc * 2 ^ 53) (Z.pos mn) ltac:(lia)) as Hmul.
        fold q in Hmul. rewrite Hqeq, Hfull in Hmul.
        assert (Hmm : Z.pos mc = Z.pos mn) by nia.
        subst r. rewrite Hmm, Z.mul_comm, Z_mod_mult. apply new_location_0. }
      destruct Hcases as [(H1 & -> & H2) | [(H1 & -> & ->) | [(H1 & -> & H2 & H3)
                         | (H1 & -> & -> & H3)]]].
      * left. lia.
      * right. split; [lia | reflexivity].
      * right. split; [lia |]. apply H3; [apply Hfull |]; lia.
      * exfalso. apply H3. split; [apply Hfull |]; lia.
    + (* fewer bits: the exponent alone decides *)
      destruct Hcases as [(H1 & -> & H2) | [(H1 & -> & ->) | [(H1 & -> & H2 & H3)
                         | (H1 & -> & -> & H3)]]].
      * left. lia.
      * left. lia.
      * left. lia.
      * destruct (Z.eq_dec (dc - dn - 53 + 2) (-52)) as [H52 | H52].
        -- right. split; [exact H52 | reflexivity].
        -- left. lia.
Qed.

(** The exact quotient of a count by the size lies in [0, 1]. *)
Lemma exact_fraction_in_unit (c n : Z) :
  0 <= c <= n -> 0 < n -> (0 <= inject_Z c / inject_Z n <= 1)%Q.
Proof.
  intros Hc Hn.
  assert (Hpos : (0 < inject_Z n)%Q).
  { change (inject_Z 0 < inject_Z n)%Q. rewrite <- Zlt_Qlt. exact Hn. }
  split.
  - apply Qle_shift_div_l; [exact Hpos |].
    rewrite Qmult_0_l. change (inject_Z 0 <= inject_Z c)%Q.
    rewrite <- Zle_Qle. lia.
  - apply Qle_shift_div_r; [exact Hpos |].
    rewrite Qmult_1_l. rewrite <- Zle_Qle. lia.
Qed.

Lemma batch_accuracy_is_fraction (p t : list Z) (a : float) :
  len p = len t -> batch_accuracy p t = Ok a -> is_fraction p t a.
Proof.
  intros Hlen H. unfold batch_accuracy in H.
  destruct (tensor_eq_sum_same_length p t Hlen) as [Hsum Hc].
  rewrite Hsum in H. unfold int_truediv in H.
  destruct (Z.eqb_spec (len p) 0) as [Hz | Hnz]; [discriminate H |].
  inversion H; subst a; clear H.
  pose proof (len_nonneg p) as Hp.
  assert (Hpos : 0 < len p) by lia.
  unfold is_fraction. repeat split; try lia.
  - apply exact_fraction_in_unit; lia.
  - apply exact_fraction_in_unit; lia.
  - apply int_fraction_in_unit; lia.
  - apply int_fraction_in_unit; lia.
Qed.

Section Accuracy.
Context `{T : Torch}.

Lemma target_to_inv_ok (t t' : list Z) (d : Device) (w w' : World) :
  target_to t d w = (Ok t', w') -> t' = t /\ w' = w.
Proof.
  unfold target_to. destruct (target_to_raises t d); intros H; inversion H.
  split; reflexivity.
Qed.

(** A batch that is processed normally: its accuracy is that of the
    classes picked from the output of the model, as the model is when
    the batch is processed, on the input of the batch. *)
Lemma train_batch_prediction (device : Device) (b : Batch) (w w' : World) (l a : float) :
  train_batch device b w = (Ok (l, a), w') ->
  exists wav out prediction,
    wav_to (fst b) device = Ok wav /\
    fst (forward (params w) (buffers w) (training w) (grad_enabled w) wav) = Ok out /\
    argmax1 out = Ok prediction /\
    batch_accuracy prediction (snd b) = Ok a.
Proof.
  intros H. unfold train_batch in H.
  apply bind_inv_ok in H. destruct H as (wav & w1 & Hwav & H).
  unfold lift in Hwav. injection Hwav as Hwav <-.
  apply bind_inv_ok in H. destruct H as (target & w2 & Ht & H).
  apply target_to_inv_ok in Ht. destruct Ht as [-> ->].
  apply bind_inv_ok in H. destruct H as (out & w3 & Hout & H).
  apply bind_inv_ok in H. destruct H as (loss & w4 & _ & H).
  apply bind_inv_ok in H. destruct H as ([] & w5 & _ & H).
  apply bind_inv_ok in H. destruct H as ([] & w6 & _ & H).
  apply bind_inv_ok in H. destruct H as ([] & w7 & _ & H).
  apply bind_inv_ok in H. destruct H as (prediction & w8 & Hp & H).
  apply bind_inv_ok in H. destruct H as (acc & w9 & Hacc & H).
  unfold lift in Hp, Hacc.
  injection Hp as Hp _. injection Hacc as Hacc _.
  unfold ret in H. injection H as _ <- _.
  unfold model_call in Hout.
  destruct (forward (params w) (buffers w) (training w) (grad_enabled w) wav)
    as [r bf'] eqn:Hf.
  injection Hout as -> _.
  exists wav, out, prediction. rewrite Hf. repeat split; assumption.
Qed.

Lemma validate_batch_prediction (device : Device) (b : Batch) (w w' : World)
    (l a : float) :
  validate_batch device b w = (Ok (l, a), w') ->
  exists wav out prediction,
    wav_to (fst b) device = Ok wav /\
    fst (forward (params w) (buffers w) (training w) (grad_enabled w) wav) = Ok out /\
    argmax1 out = Ok prediction /\
    batch_accuracy prediction (snd b) = Ok a.
Proof.
  intros H. unfold validate_batch in H.
  apply bind_inv_ok in H. destruct H as (wav & w1 & Hwav & H).
  unfold lift in Hwav. injection Hwav as Hwav <-.
  apply bind_inv_ok in H. destruct H as (target & w2 & Ht & H).
  apply target_to_inv_ok in Ht. destruct Ht as [-> ->].
  apply bind_inv_ok in H. destruct H as (out & w3 & Hout & H).
  apply bind_inv_ok in H. destruct H as (loss & w4 & _ & H).
  apply bind_inv_ok in H. destruct H as (prediction & w8 & Hp & H).
  apply bind_inv_ok in H. destruct H as (acc & w9 & Hacc & H).
  unfold lift in Hp, Hacc.
  injection Hp as Hp _. injection Hacc as Hacc _.
  unfold ret in H. injection H as _ <- _.
  unfold model_call in Hout.
  destruct (forward (params w) (buffers w) (training w) (grad_enabled w) wav)
    as [r bf'] eqn:Hf.
  injection Hout as -> _.
  exists wav, out, prediction. rewrite Hf. repeat split; assumption.
Qed.

(** What a batch that went through contributes. *)
Lemma batch_fraction_of_prediction (device : Device) (b : Batch) (w : World) (a : float) :
  (exists wav out prediction,
     wav_to (fst b) device = Ok wav /\
     fst (forward (params w) (buffers w) (training w) (grad_enabled w) wav) = Ok out /\
     argmax1 out = Ok prediction /\
     batch_accuracy prediction (snd b) = Ok a) ->
  batch_fraction device b w a.
Proof.
  intros (wav & out & prediction & Hw & Hf & Hp & Ha).
  exists wav, out, prediction.
  split; [exact Hw | split; [exact Hf | split; [exact Hp | split; [exact Ha |]]]].
  intros Hlen. apply batch_accuracy_is_fraction; assumption.
Qed.

(** The loop adds up what the batches yield, in their order. *)
Lemma loop_sums (step : Batch -> M (float * float)) (dl : DataLoader) :
  forall sums sums' w w',
    for_each (fun s b => bind (step b) (fun m => ret (accumulate s m))) dl sums w
      = (Ok sums', w') ->
    exists ms : list (float * float),
      Forall2 (fun b m => exists w1 w2, step b w1 = (Ok m, w2)) dl ms /\
      sums' = fold_left accumulate ms sums.
Proof.
  induction dl as [| b dl IH]; intros sums sums' w w' H; simpl in H.
  - inversion H; subst. exists []. split; [constructor | reflexivity].
  - apply bind_inv_ok in H. destruct H as (s1 & w1 & Hb & H).
    apply bind_inv_ok in Hb. destruct Hb as (m & w2 & Hm & Hret).
    inversion Hret; subst; clear Hret.
    destruct (IH _ _ _ _ H) as (ms & Hall & Hsum).
    exists (m :: ms). split; [| exact Hsum].
    constructor; [| exact Hall]. exists w, w1. exact Hm.
Qed.

Lemma accumulate_fold (ms : list (float * float)) :
  forall l a t,
    fold_left accumulate ms (l, a, t) =
    (fold_left PrimFloat.add (map fst ms) l,
     fold_left PrimFloat.add (map snd ms) a,
     fold_left (fun x _ => PrimFloat.add x 1%float) ms t).
Proof.
  induction ms as [| m ms IH]; intros l a t; simpl.
  - reflexivity.
  - apply IH.
Qed.

(** The loop, batch by batch: each batch is processed in the world
    that the batches before it have left. *)
Lemma loop_chain (step : Batch -> M (float * float)) (dl : DataLoader) :
  forall sums sums' w w',
    for_each (fun s b => bind (step b) (fun m => ret (accumulate s m))) dl sums w
      = (Ok sums', w') ->
    exists ms : list (float * float),
      List.length ms = List.length dl /\
      sums' = fold_left accumulate ms sums /\
      forall pre b post, dl = pre ++ b :: post ->
        exists m w2,
          step b (snd (for_each (fun s b => bind (step b) (fun m => ret (accumulate s m)))
                         pre sums w)) = (Ok m, w2) /\
          nth_error ms (List.length pre) = Some m.
Proof.
  induction dl as [| b0 dl IH]; intros sums sums' w w' H; simpl in H.
  - inversion H; subst. exists []. split; [reflexivity | split; [reflexivity |]].
    intros pre b post Hd. destruct pre; discriminate Hd.
  - apply bind_inv_ok in H. destruct H as (s1 & w1 & Hb & H).
    apply bind_inv_ok in Hb. destruct Hb as (m0 & w2 & Hm & Hret).
    inversion Hret; subst; clear Hret.
    destruct (IH _ _ _ _ H) as (ms & Hlen & Hsum & Hchain).
    exists (m0 :: ms). split; [simpl; congruence | split; [exact Hsum |]].
    intros pre b post Hd. destruct pre as [| b1 pre].
    + injection Hd as <- <-. exists m0, w1. split; [exact Hm | reflexivity].
    + injection Hd as <- Hd.
      destruct (Hchain pre b post Hd) as (m & w3 & Hstep & Hnth).
      exists m, w3. split; [| exact Hnth].
      cbn [for_each]. unfold bind at 1. unfold bind at 1. rewrite Hm.
      unfold ret at 1. exact Hstep.
Qed.

(** The accuracy that a loop over the batches accumulates. *)
Lemma loop_accuracy (step : Batch -> M (float * float)) (device : Device) :
  (forall b w1 w2 m, step b w1 = (Ok m, w2) -> batch_fraction device b w1 (snd m)) ->
  forall (dl : DataLoader) (w0 w' : World) (l a t : float),
    for_each (fun s b => bind (step b) (fun m => ret (accumulate s m))) dl
      (0%float, 0%float, 0%float) w0 = (Ok (l, a, t), w') ->
    exists fractions : list float,
      len fractions = len dl /\
      a = fold_left PrimFloat.add fractions 0%float /\
      (forall pre b post, dl = pre ++ b :: post ->
         exists x,
           nth_error fractions (List.length pre) = Some x /\
           batch_fraction device b
             (snd (for_each (fun s b => bind (step b) (fun m => ret (accumulate s m)))
                     pre (0%float, 0%float, 0%float) w0)) x) /\
      (Forall (well_shaped device) dl -> Forall in_unit fractions).
Proof.
  intros Hstep dl w0 w' l a t H.
  destruct (loop_chain step dl _ _ _ _ H) as (ms & Hlen & Hsum & Hchain).
  rewrite accumulate_fold in Hsum. injection Hsum as _ Ha _.
  exists (map snd ms).
  assert (Hfr : forall pre b post, dl = pre ++ b :: post ->
            exists x,
              nth_error (map snd ms) (List.length pre) = Some x /\
              batch_fraction device b
                (snd (for_each (fun s b => bind (step b) (fun m => ret (accumulate s m)))
                        pre (0%float, 0%float, 0%float) w0)) x).
  { intros pre b post Hd. destruct (Hchain pre b post Hd) as (m & w2 & Hm & Hnth).
    exists (snd m). split; [apply map_nth_error; exact Hnth |].
    eapply Hstep. exact Hm. }
  split; [unfold len; rewrite length_map, Hlen; reflexivity |].
  split; [exact Ha |]. split; [exact Hfr |].
  intros Hshape. apply Forall_forall. intros x Hx.
  apply In_nth_error in Hx. destruct Hx as [k Hk].
  assert (Hk' : (k < List.length dl)%nat).
  { rewrite <- Hlen, <- (length_map snd ms). apply nth_error_Some. congruence. }
  destruct (nth_error dl k) as [b |] eqn:Hb; [| apply nth_error_None in Hb; lia].
  destruct (nth_error_split dl k Hb) as (pre & post & Hd & Hpre).
  destruct (Hfr pre b post Hd) as (x' & Hx' & wav & out & prediction & Hw & Hf & Hp & Hacc & Hfrac).
  rewrite Hpre, Hk in Hx'. injection Hx' as <-.
  assert (Hwb : well_shaped device b).
  { rewrite Forall_forall in Hshape. apply Hshape. rewrite Hd.
    apply in_or_app. right. left. reflexivity. }
  destruct Hwb as [Hsize Hpred].
  pose proof (Hpred _ _ _ _ _ _ _ Hw Hf Hp) as Hsame.
  destruct (Hfrac Hsame) as (_ & _ & _ & _ & Hin). apply Hin. lia.
Qed.

(** C4. The total accuracy that [train_epoch] and [validate_epoch]
    return is a sum of per-batch fractions, one per batch, not a count
    of correct examples.  The term of a batch is the accuracy, against
    the target of the batch, of the classes that [torch.argmax] picks
    from the output the model gives for the input of the batch, the
    model being as the batches before have left it (in training mode
    for [train_epoch]; in evaluation mode, autograd off, for
    [validate_epoch]): the number of positions where that prediction
    equals the target, divided by the length of the prediction.  When
    prediction and target have the same shape that count is between 0
    and the length, so the fraction lies in [0, 1], as the exact
    rational and as the binary64 value that the code computes; over
    batches for which the model predicts one class per entry of the
    target, every term is a binary64 number in [0, 1].  The sum has as
    many terms as there are batches, so the mean accuracy is the total
    divided by the number of batches, which is what lines 38 and 49
    divide by. *)
Theorem total_accuracy_is_sum_of_fractions (dl : DataLoader) (device : Device)
    (w w' : World) (tl ta : float) :
  (train_epoch dl device w = (Ok (tl, ta), w') ->
   exists fractions : list float,
     len fractions = len dl /\
     ta = fold_left PrimFloat.add fractions 0%float /\
     (forall pre b post, dl = pre ++ b :: post ->
        exists a,
          nth_error fractions (List.length pre) = Some a /\
          batch_fraction device b (snd (train_loop pre device (set_training true w))) a) /\
     (Forall (well_shaped device) dl -> Forall in_unit fractions)) /\
  (validate_epoch dl device w = (Ok (tl, ta), w') ->
   exists fractions : list float,
     len fractions = len dl /\
     ta = fold_left PrimFloat.add fractions 0%float /\
     (forall pre b post, dl = pre ++ b :: post ->
        exists a,
          nth_error fractions (List.length pre) = Some a /\
          batch_fraction device b
            (snd (validate_loop pre device
                    (set_grad_enabled false (set_training false w)))) a) /\
     (Forall (well_shaped device) dl -> Forall in_unit fractions)).
Proof.
  split; intros H.
  - apply train_epoch_inv_ok in H. destruct H as [total H].
    unfold train_loop in *.
    apply (loop_accuracy (train_batch device) device) in H; [exact H |].
    intros b w1 w2 [l a] Hb. apply batch_fraction_of_prediction.
    eapply train_batch_prediction. exact Hb.
  - unfold validate_epoch in H.
    apply bind_inv_ok in H. destruct H as ([] & w0 & Hmode & H).
    inversion Hmode; subst w0; clear Hmode.
    apply bind_inv_ok in H. destruct H as ([[l a] t] & w2 & Hloop & H).
    inversion H; subst; clear H.
    unfold with_no_grad in Hloop.
    destruct (validate_loop dl device (set_grad_enabled false (set_training false w)))
      as [r w3] eqn:Hin.
    inversion Hloop; subst; clear Hloop.
    unfold validate_loop in *.
    apply (loop_accuracy (validate_batch device) device) in Hin; [exact Hin |].
    intros b w1 w2 [l a] Hb. apply batch_fraction_of_prediction.
    eapply validate_batch_prediction. exact Hb.
Qed.

End Accuracy.

(** ** The four-batch scenario *)

Section FourBatches.
Context `{T : Torch}.

(** C1. Four training batches whose losses are 1.0, 2.0, 3.0, 4.0 and
    whose accuracy fractions are 1.0, 0.5, 0.5, 0.0: [train_epoch]
    returns the sums (10.0, 2.0), and [train], here for one epoch
    without validation, divides them by the 4 batches and records
    training_loss = 2.5 and training_acc = 0.5, in its lists and in
    the log. *)
Theorem four_batches_sums_and_means (device : Device) (b1 b2 b3 b4 : Batch)
    (w w1 w2 w3 w4 : World) :
  let dl := [b1; b2; b3; b4] in
  let w0 := add_line (EpochLine 1 1) (set_history [] [] [] [] w) in
  train_batch device b1 (set_training true w0) = (Ok (1%float, 1%float), w1) ->
  train_batch device b2 w1 = (Ok (2%float, 0.5%float), w2) ->
  train_batch device b3 w2 = (Ok (3%float, 0.5%float), w3) ->
  train_batch device b4 w3 = (Ok (4%float, 0%float), w4) ->
  train_epoch dl device w0 = (Ok (10%float, 2%float), w4) /\
  exists w',
    train dl device 1 None w = (Ok ([0.5%float], [2.5%float], [], []), w') /\
    training_loss w' = [2.5%float] /\
    training_acc w' = [0.5%float] /\
    wandb_log w' = wandb_log w ++
      [[("training_loss"%string, 2.5%float); ("training_acc"%string, 0.5%float)]].
Proof.
  intros dl w0 H1 H2 H3 H4.
  assert (Hep : train_epoch dl device w0 = (Ok (10%float, 2%float), w4)).
  { unfold train_epoch, train_loop, dl. simpl for_each.
    erewrite bind_ok by reflexivity.
    unfold bind. rewrite H1. cbv beta iota. unfold ret at 1. cbv beta iota.
    rewrite H2. cbv beta iota. unfold ret at 1. cbv beta iota.
    rewrite H3. cbv beta iota. unfold ret at 1. cbv beta iota.
    rewrite H4. reflexivity. }
  split; [exact Hep |].
  pose proof (train_epoch_same_records dl device w0) as Hsame.
  rewrite Hep in Hsame. destruct Hsame as (Sta & Stl & Sva & Svl & Slog & _).
  simpl in Sta, Stl, Sva, Svl, Slog.
  assert (Hit : train_iteration dl device 1 None 0 (set_history [] [] [] [] w) =
                (Ok tt, add_line RuleLine
                          (after_training_metrics 2.5%float 0.5%float w4))).
  { unfold train_iteration.
    erewrite bind_ok by reflexivity. fold w0.
    erewrite bind_ok by exact Hep. cbv beta iota.
    erewrite bind_ok
      by (apply training_metrics_ok;
          [discriminate | rewrite Stl; reflexivity | rewrite Sta; reflexivity]).
    reflexivity. }
  exists (add_line FinishedLine
            (add_line RuleLine (after_training_metrics 2.5%float 0.5%float w4))).
  split.
  - unfold train, epochs_loop.
    erewrite bind_ok by reflexivity.
    change (range 1) with [0]. simpl for_each.
    erewrite bind_ok by (erewrite bind_ok by exact Hit; reflexivity).
    unfold bind, print, modify, get, ret, after_training_metrics. simpl.
    rewrite Sta, Stl, Sva, Svl. reflexivity.
  - unfold after_training_metrics. simpl.
    rewrite Sta, Stl, Slog. repeat split; reflexivity.
Qed.

End FourBatches.

(** * Further properties of the loop *)

(** ** Not-a-number in binary64 *)







(** ** The scope of [torch.no_grad()] *)

Section Scope.
Context `{T : Torch}.

Lemma keeps_validate_loop {X : Type} (f : World -> X) (dl : DataLoader) (device : Device) :
  (forall bf w, f (set_buffers bf w) = f w) -> keeps f (validate_loop dl device).
Proof.
  intros Hb. unfold validate_loop. apply keeps_for_each. intros sums x.
  apply keeps_bind; [apply keeps_validate_batch; exact Hb | intros m; apply keeps_ret].
Qed.

(** X1. [validate_epoch] runs its loop under [torch.no_grad()] with
    the model in evaluation mode: the call is the loop run from the
    world where both flags are off; whatever batches have gone
    through, and however the last of them ended, both flags are still
    off when the next batch is taken; and when the call ends, by
    return or by exception, the autograd mode is the one the caller
    had. *)
Theorem validate_epoch_no_grad_scope (dl : DataLoader) (device : Device) (w : World) :
  validate_epoch dl device w =
    (match fst (validate_loop dl device (set_grad_enabled false (set_training false w))) with
     | Ok (test_loss, test_acc, _) => Ok (test_loss, test_acc)
     | Raise e => Raise e
     end,
     set_grad_enabled (grad_enabled w)
       (snd (validate_loop dl device (set_grad_enabled false (set_training false w))))) /\
  (forall pre post : DataLoader, dl = pre ++ post ->
     training (snd (validate_loop pre device
                      (set_grad_enabled false (set_training false w)))) = false /\
     grad_enabled (snd (validate_loop pre device
                          (set_grad_enabled false (set_training false w)))) = false) /\
  grad_enabled (snd (validate_epoch dl device w)) = grad_enabled w.
Proof.
  split; [| split].
  - unfold validate_epoch, model_eval, modify, with_no_grad. unfold bind at 1.
    unfold bind at 1. simpl.
    destruct (validate_loop dl device _) as [[[[l a] t] | e] w1]; reflexivity.
  - intros pre post _. split.
    + rewrite (keeps_validate_loop training pre device (fun _ _ => eq_refl)). reflexivity.
    + rewrite (keeps_validate_loop grad_enabled pre device (fun _ _ => eq_refl)). reflexivity.
  - apply validate_epoch_restores_grad_mode.
Qed.

End Scope.

(** X2. The per-batch accuracy of lines 82 and 103, case by case.  An
    empty prediction (against an empty or one-element target) is a
    division by zero; shapes that differ, neither being a single
    element, are a shape error of the comparison; a prediction that is
    not empty, against a target of the same length or of one element,
    gives the fraction count/len(prediction) with 0 <= count <=
    len(prediction), which in binary64 lies between 0.0 and 1.0; and a
    one-element prediction against a target of another length is
    compared with every element of the target, so that the result is a
    count between 0 and len(target), divided by 1. *)
Theorem batch_accuracy_cases (p t : list Z) :
  (len p = 0 -> len t <= 1 ->
   batch_accuracy p t = Raise (ZeroDivisionError "division by zero")) /\
  (len p <> len t -> len t <> 1 -> len p <> 1 ->
   batch_accuracy p t =
     Raise (RuntimeError "The size of tensor a must match the size of tensor b")) /\
  (0 < len p -> len p = len t \/ len t = 1 ->
   exists c, 0 <= c <= len p /\
     batch_accuracy p t = Ok (PrimFloat.div (Z2float c) (Z2float (len p))) /\
     (len p < 2 ^ 53 ->
      PrimFloat.leb 0%float (PrimFloat.div (Z2float c) (Z2float (len p))) = true /\
      PrimFloat.leb (PrimFloat.div (Z2float c) (Z2float (len p))) 1%float = true)) /\
  (len p = 1 -> len t <> 1 ->
   exists c, 0 <= c <= len t /\
     batch_accuracy p t = Ok (PrimFloat.div (Z2float c) 1%float)).
Proof.
  pose proof (len_nonneg p) as Hp. pose proof (len_nonneg t) as Ht.
  unfold batch_accuracy, tensor_eq_sum, int_truediv.
  repeat split.
  - intros Hp0 Ht1.
    destruct (Z.eqb_spec (len p) (len t)) as [E | E].
    + rewrite Hp0. reflexivity.
    + destruct (Z.eqb_spec (len t) 1) as [E1 | E1]; [rewrite Hp0; reflexivity | lia].
  - intros Hne Ht1 Hp1.
    destruct (Z.eqb_spec (len p) (len t)); [lia |].
    destruct (Z.eqb_spec (len t) 1); [lia |].
    destruct (Z.eqb_spec (len p) 1); [lia |]. reflexivity.
  - intros Hpos Hshape.
    assert (Hnz : (len p =? 0) = false) by (apply Z.eqb_neq; lia).
    destruct (Z.eqb_spec (len p) (len t)) as [E | E].
    + pose proof (count_eq_bounds p t) as Hc.
      exists (count_eq p t). rewrite Hnz.
      split; [lia | split; [reflexivity |]].
      intros Hsz. apply int_fraction_in_unit; lia.
    + destruct Hshape as [Hs | Hs]; [lia |].
      rewrite (proj2 (Z.eqb_eq _ _) Hs).
      pose proof (count_eq_bounds p (repeat (hd 0 t) (List.length p))) as Hc.
      exists (count_eq p (repeat (hd 0 t) (List.length p))). rewrite Hnz.
      split; [lia | split; [reflexivity |]].
      intros Hsz. apply int_fraction_in_unit; lia.
  - intros Hp1 Ht1.
    destruct (Z.eqb_spec (len p) (len t)); [lia |].
    destruct (Z.eqb_spec (len t) 1); [lia |].
    rewrite Hp1. simpl.
    pose proof (count_eq_bounds (repeat (hd 0 p) (List.length t)) t) as Hc.
    exists (count_eq (repeat (hd 0 p) (List.length t)) t).
    split; [lia | reflexivity].
Qed.

Section Ordering.
Context `{T : Torch}.

(** X3. The accuracy is computed after the weights are updated: when
    everything up to [optimizer.step()] succeeds for a batch and then
    [torch.argmax] or the accuracy of line 82 raises, [train_epoch]'s
    batch ends with that exception in a world where the parameters,
    the optimizer state and the gradients are already those of the
    update; the same failure at line 102 or 103 leaves
    [validate_epoch]'s batch having changed nothing but the buffers
    of the forward pass. *)
Theorem metrics_failure_after_update (device : Device) (b : Batch) (w : World)
    (wav : Wav) (bf : Buffers) (out : Out) (loss : Loss) (g0 g1 : Grads)
    (p : Params) (o : OptState) (e : exn) :
  wav_to (fst b) device = Ok wav ->
  target_to_raises (snd b) device = None ->
  forward (params w) (buffers w) (training w) (grad_enabled w) wav = (Ok out, bf) ->
  loss_fn out (snd b) = Ok loss ->
  zero_grad (grads w) = Ok g0 ->
  backward loss g0 = Ok g1 ->
  step (opt_state w) (params w) g1 = Ok (p, o) ->
  (argmax1 out = Raise e \/
   exists prediction,
     argmax1 out = Ok prediction /\ batch_accuracy prediction (snd b) = Raise e) ->
  train_batch device b w =
    (Raise e, set_params_opt p o (set_grads g1 (set_buffers bf w))) /\
  validate_batch device b w = (Raise e, set_buffers bf w).
Proof.
  intros Hw Ht Hf Hl Hz Hb Hs Hacc.
  unfold train_batch, validate_batch, bind, lift, target_to, model_call,
    optimizer_zero_grad, loss_backward, optimizer_step.
  rewrite Hw, Ht. simpl. rewrite Hf, Hl. simpl. rewrite Hz. simpl.
  rewrite Hb. simpl. rewrite Hs. simpl.
  destruct Hacc as [Ha | (prediction & Ha & Hacc)]; rewrite Ha.
  - split; reflexivity.
  - rewrite Hacc. split; reflexivity.
Qed.

End Ordering.

(** ** The losses of an epoch *)

Section Losses.
Context `{T : Torch}.



(** What either epoch function returns, as the sums of what its
    batches yielded. *)
Lemma epoch_sums (dl : DataLoader) (device : Device) (w w' : World) (tl ta : float) :
  train_epoch dl device w = (Ok (tl, ta), w') \/
  validate_epoch dl device w = (Ok (tl, ta), w') ->
  exists ms : list (float * float),
    Forall2 (fun b m => exists w1 w2,
               train_batch device b w1 = (Ok m, w2) \/
               validate_batch device b w1 = (Ok m, w2)) dl ms /\
    tl = fold_left PrimFloat.add (map fst ms) 0%float /\
    ta = fold_left PrimFloat.add (map snd ms) 0%float.
Proof.
  intros [H | H].
  - apply train_epoch_inv_ok in H. destruct H as [total H].
    unfold train_loop in H. apply loop_sums in H.
    destruct H as (ms & Hall & Hsum).
    rewrite accumulate_fold in Hsum. inversion Hsum; subst.
    exists ms. split; [| split; reflexivity].
    clear Hsum. induction Hall as [| b m dl ms (w1 & w2 & Hb) Hall IH].
    + constructor.
    + constructor; [| exact IH]. exists w1, w2. left. exact Hb.
  - unfold validate_epoch in H.
    apply bind_inv_ok in H. destruct H as ([] & w0 & _ & H).
    apply bind_inv_ok in H. destruct H as ([[l a] t] & w2 & Hloop & H).
    inversion H; subst; clear H.
    unfold with_no_grad in Hloop.
    destruct (validate_loop dl device (set_grad_enabled false w0)) as [r w3] eqn:Hin.
    inversion Hloop; subst; clear Hloop.
    unfold validate_loop in Hin. apply loop_sums in Hin.
    destruct Hin as (ms & Hall & Hsum).
    rewrite accumulate_fold in Hsum. inversion Hsum; subst.
    exists ms. split; [| split; reflexivity].
    clear Hsum. induction Hall as [| b m dl ms (w1 & w2 & Hb) Hall IH].
    + constructor.
    + constructor; [| exact IH]. exists w1, w2. right. exact Hb.
Qed.


End Losses.

(** ** Passes over concatenated dataloaders *)

Section Concatenation.
Context `{T : Torch}.

Lemma loop_cons (step : Batch -> M (float * float)) (b : Batch) (dl : DataLoader)
    (s : float * float * float) (w : World) :
  for_each (fun s b => bind (step b) (fun m => ret (accumulate s m))) (b :: dl) s w =
  match step b w with
  | (Ok m, w1) =>
      for_each (fun s b => bind (step b) (fun m => ret (accumulate s m))) dl
               (accumulate s m) w1
  | (Raise e, w1) => (Raise e, w1)
  end.
Proof.
  simpl. unfold bind at 1. unfold bind at 1.
  destruct (step b w) as [[m | e] w1]; reflexivity.
Qed.




Lemma train_epoch_eq (dl : DataLoader) (device : Device) (w : World) :
  train_epoch dl device w =
  match train_loop dl device (set_training true w) with
  | (Ok (train_loss, train_acc, _), w1) => (Ok (train_loss, train_acc), w1)
  | (Raise e, w1) => (Raise e, w1)
  end.
Proof.
  unfold train_epoch, model_train, modify, bind, ret.
  destruct (train_loop dl device (set_training true w)) as [[[[l a] t] | e] w1];
    reflexivity.
Qed.



End Concatenation.

(** ** Gradients from before the call *)

Section StaleGradients.
Context `{T : Torch}.

Hypothesis zero_grad_resets : forall g g', zero_grad g = zero_grad g'.

Lemma train_batch_same_but_grads (device : Device) (b : Batch) (w w' : World) :
  same_but_grads w w' ->
  fst (train_batch device b w) = fst (train_batch device b w') /\
  same_but_grads (snd (train_batch device b w)) (snd (train_batch device b w')) /\
  ((exists m, fst (train_batch device b w) = Ok m) ->
   snd (train_batch device b w) = snd (train_batch device b w')).
Proof.
  unfold same_but_grads. intros <-.
  unfold train_batch, bind, lift, ret, target_to, model_call,
    optimizer_zero_grad, loss_backward, optimizer_step.
  destruct (wav_to (fst b) device) as [wav | e]; simpl;
    [| split; [reflexivity | split; [reflexivity | intros [m H]; discriminate H]]].
  destruct (target_to_raises (snd b) device) as [e |]; simpl;
    [split; [reflexivity | split; [reflexivity | intros [m H]; discriminate H]] |].
  unfold ret, lift. simpl.
  destruct (forward (params w') (buffers w') (training w') (grad_enabled w') wav)
    as [[out | e] bf]; simpl;
    [| split; [reflexivity | split; [reflexivity | intros [m H]; discriminate H]]].
  destruct (loss_fn out (snd b)) as [loss | e]; simpl;
    [| split; [reflexivity | split; [reflexivity | intros [m H]; discriminate H]]].
  rewrite (zero_grad_resets (grads w) (grads w')).
  destruct (zero_grad (grads w')) as [g0 | e]; simpl;
    [| split; [reflexivity | split; [reflexivity | intros [m H]; discriminate H]]].
  destruct (backward loss g0) as [g1 | e]; simpl;
    [| split; [reflexivity | split; [reflexivity | intros [m H]; discriminate H]]].
  destruct (step (opt_state w') (params w') g1) as [[p o] | e]; simpl;
    [| split; [reflexivity | split; [reflexivity | intros [m H]; discriminate H]]].
  destruct (argmax1 out) as [prediction | e]; simpl;
    [| split; [reflexivity | split; [reflexivity | intros [m H]; discriminate H]]].
  destruct (batch_accuracy prediction (snd b)) as [acc | e]; simpl;
    split; try reflexivity; split; try reflexivity; intros [m H]; discriminate H.
Qed.

Lemma same_but_grads_refl (w : World) : same_but_grads w w.
Proof. unfold same_but_grads. destruct w. reflexivity. Qed.

Lemma train_loop_same_but_grads (device : Device) (dl : DataLoader)
    (sums : float * float * float) (w w' : World) :
  same_but_grads w w' ->
  let run := for_each (fun sums b => bind (train_batch device b)
                                       (fun m => ret (accumulate sums m))) dl sums in
  fst (run w) = fst (run w') /\
  same_but_grads (snd (run w)) (snd (run w')) /\
  (dl <> [] -> (exists s, fst (run w) = Ok s) -> snd (run w) = snd (run w')).
Proof.
  intros Hw run. subst run. destruct dl as [| b dl].
  - split; [reflexivity | split; [exact Hw | intros H; contradiction]].
  - rewrite !loop_cons.
    destruct (train_batch_same_but_grads device b w w' Hw) as (Hr & Hs & Heq).
    destruct (train_batch device b w) as [[m | e] w1],
             (train_batch device b w') as [[m' | e'] w1']; simpl in *;
      try discriminate Hr.
    + injection Hr as <-. rewrite (Heq (ex_intro _ m eq_refl)).
      split; [reflexivity | split; [apply same_but_grads_refl | intros; reflexivity]].
    + injection Hr as <-.
      split; [reflexivity | split; [exact Hs | intros _ [s H]; discriminate H]].
Qed.

(** X6. [train_epoch] never uses gradients left over from before the
    call: [optimizer.zero_grad()] comes before [loss.backward()] in
    every batch, so, [zero_grad] giving the same gradients whatever it
    is called on, the result of [train_epoch] does not depend on the
    gradients it starts with, the worlds it leaves differ at most in
    the gradients, and not at all once a batch has gone through. *)
Theorem stale_gradients_are_never_used (dl : DataLoader) (device : Device)
    (w : World) (g : Grads) :
  fst (train_epoch dl device (set_grads g w)) = fst (train_epoch dl device w) /\
  same_but_grads (snd (train_epoch dl device (set_grads g w)))
                 (snd (train_epoch dl device w)) /\
  (dl <> [] -> (exists r, fst (train_epoch dl device w) = Ok r) ->
   snd (train_epoch dl device (set_grads g w)) = snd (train_epoch dl device w)).
Proof.
  rewrite !train_epoch_eq.
  assert (Hw : same_but_grads (set_training true (set_grads g w)) (set_training true w))
    by reflexivity.
  destruct (train_loop_same_but_grads device dl (0%float, 0%float, 0%float) _ _ Hw)
    as (Hr & Hs & Heq).
  unfold train_loop.
  destruct (for_each _ dl _ (set_training true (set_grads g w)))
    as [[[[l a] t] | e] w1],
    (for_each _ dl _ (set_training true w)) as [[[[l' a'] t'] | e'] w1'];
    simpl in *; try discriminate Hr.
  - injection Hr as -> -> ->.
    split; [reflexivity | split; [exact Hs |]].
    intros Hne _. apply Heq; [exact Hne | eexists; reflexivity].
  - injection Hr as ->.
    split; [reflexivity | split; [exact Hs |]].
    intros _ [r H]. discriminate H.
Qed.

End StaleGradients.

(** ** One epoch of [train], however it ends *)

Lemma at_epoch_app_old (xs : list float) (x : float) (i : Z) :
  0 <= i < len xs -> at_epoch (xs ++ [x]) i = at_epoch xs i.
Proof.
  intros Hi. unfold at_epoch, len in *. apply app_nth1. lia.
Qed.

Lemma at_epoch_app_new (xs : list float) (x : float) (i : Z) :
  len xs = i -> at_epoch (xs ++ [x]) i = x.
Proof.
  intros <-. unfold at_epoch, len. rewrite Nat2Z.id, app_nth2 by lia.
  rewrite Nat.sub_diag. reflexivity.
Qed.

Lemma in_range (i n : Z) : In i (range n) -> 0 <= i < n.
Proof.
  unfold range. rewrite in_map_iff. intros (k & <- & Hk).
  apply in_seq in Hk. lia.
Qed.

Lemma flat_map_ext_in {A B : Type} (f g : A -> list B) (l : list A) :
  (forall a, In a l -> f a = g a) -> flat_map f l = flat_map g l.
Proof.
  induction l as [| a l IH]; intros H; simpl.
  - reflexivity.
  - rewrite (H a) by (left; reflexivity).
    rewrite IH by (intros b Hb; apply H; right; exact Hb). reflexivity.
Qed.

Section Records.
Context `{T : Torch}.

(** One epoch of [train], whichever way it ends: it failed before
    anything was recorded; or the training metrics were recorded, and
    then either there was no validation, or validation failed, or the
    testing metrics were recorded too. *)
Lemma train_iteration_inv (dl : DataLoader) (device : Device) (epochs : Z)
    (tdl : option DataLoader) (i : Z) (w w' : World) (r : Res unit) :
  len (training_loss w) = i -> len (training_acc w) = i ->
  (truthy tdl = true -> len (testing_loss w) = i /\ len (testing_acc w) = i) ->
  train_iteration dl device epochs tdl i w = (r, w') ->
  (exists e, r = Raise e /\ same_records w' (add_line (EpochLine (i + 1) epochs) w)) \/
  (exists tl ta w2,
     train_epoch dl device (add_line (EpochLine (i + 1) epochs) w) = (Ok (tl, ta), w2) /\
     len dl <> 0 /\
     ((truthy tdl = false /\ r = Ok tt /\
       w' = add_line RuleLine
              (after_training_metrics (PrimFloat.div tl (Z2float (len dl)))
                                      (PrimFloat.div ta (Z2float (len dl))) w2)) \/
      (truthy tdl = true /\ exists e,
         r = Raise e /\
         same_records w'
           (after_training_metrics (PrimFloat.div tl (Z2float (len dl)))
                                   (PrimFloat.div ta (Z2float (len dl))) w2)) \/
      (exists d vl va w5,
         tdl = Some d /\ len d <> 0 /\ r = Ok tt /\
         validate_epoch d device
           (after_training_metrics (PrimFloat.div tl (Z2float (len dl)))
                                   (PrimFloat.div ta (Z2float (len dl))) w2)
           = (Ok (vl, va), w5) /\
         w' = add_line RuleLine
                (after_testing_metrics (PrimFloat.div vl (Z2float (len d)))
                                       (PrimFloat.div va (Z2float (len d))) w5)))).
Proof.
  intros Ltl Lta Ltest H. unfold train_iteration in H.
  unfold bind at 1 in H. unfold print at 1, modify at 1 in H.
  pose proof (train_epoch_same_records dl device
                (add_line (EpochLine (i + 1) epochs) w)) as Hsame.
  unfold bind at 1 in H.
  destruct (train_epoch dl device (add_line (EpochLine (i + 1) epochs) w))
    as [[[tl ta] | e] w2]; simpl in Hsame.
  2: { inversion H; subst. left. exists e. split; [reflexivity | exact Hsame]. }
  destruct (Z.eq_dec (len dl) 0) as [Hz | Hnz].
  { rewrite bind_raise with (e := ZeroDivisionError "float division by zero") (w' := w2)
      in H by (apply training_metrics_zero; exact Hz).
    inversion H; subst. left. eexists. split; [reflexivity | exact Hsame]. }
  destruct Hsame as (Sta & Stl & Sva & Svl & Slog & Scon).
  simpl in Sta, Stl, Sva, Svl, Slog, Scon.
  right. exists tl, ta, w2. split; [reflexivity | split; [exact Hnz |]].
  set (x := PrimFloat.div tl (Z2float (len dl))) in *.
  set (y := PrimFloat.div ta (Z2float (len dl))) in *.
  rewrite bind_ok with (a := tt) (w' := after_training_metrics x y w2) in H
    by (apply training_metrics_ok; congruence).
  unfold bind at 1 in H.
  destruct (test_model tdl device i (after_training_metrics x y w2))
    as [[[] | e] w4] eqn:Htest.
  - inversion H; subst; clear H.
    apply test_model_ok in Htest.
    2: { intros Htr. destruct (Ltest Htr). simpl. split; congruence. }
    destruct Htest as [[Htr ->] | (Htr & d & vl & va & w5 & -> & Hd & Hval & ->)].
    + left. split; [exact Htr | split; reflexivity].
    + right. right. exists d, vl, va, w5.
      repeat (split; [first [reflexivity | assumption] |]). reflexivity.
  - inversion H; subst; clear H.
    right. left.
    unfold test_model in Htest. destruct tdl as [d |]; [| discriminate Htest].
    destruct (truthy (Some d)) eqn:Htr; [| discriminate Htest].
    split; [reflexivity |]. exists e. split; [reflexivity |].
    apply bind_inv_raise in Htest.
    destruct Htest as [Hval | ([vl va] & w5 & Hval & Hmet)].
    + pose proof (validate_epoch_same_records d device (after_training_metrics x y w2))
        as Hs. rewrite Hval in Hs. exact Hs.
    + exfalso.
      assert (Hd : len d <> 0).
      { simpl in Htr. destruct (Z.eqb_spec (len d) 0); [discriminate | assumption]. }
      pose proof (validate_epoch_same_records d device (after_training_metrics x y w2))
        as Hs. rewrite Hval in Hs. destruct Hs as (_ & _ & Vva & Vvl & _).
      simpl in Vva, Vvl. destruct (Ltest eq_refl) as [L1 L2].
      rewrite testing_metrics_ok in Hmet by congruence.
      discriminate Hmet.
Qed.

End Records.

(** ** A run that fails *)

Section Failures.
Context `{T : Torch}.

Lemma train_iteration_interrupted (dl : DataLoader) (device : Device) (epochs : Z)
    (tdl : option DataLoader) (log0 : list (list (string * float)))
    (i : Z) (w w' : World) (e : exn) :
  recorded log0 tdl i w ->
  train_iteration dl device epochs tdl i w = (Raise e, w') ->
  interrupted log0 tdl i w'.
Proof.
  intros (new & Hlog & Htl & Hta & Hvl & Hva & Ltl & Lta & Lvl & Lva & Lnew) H.
  apply train_iteration_inv in H; [| assumption | assumption |].
  2: { intros Htr. rewrite Htr in Lvl, Lva. split; assumption. }
  destruct H as [(e0 & _ & S) |
                 (tl & ta & w2 & Hep & _ &
                  [(_ & Hr & _) | [(Htr & e0 & _ & S) |
                                   (d & vl & va & w5 & _ & _ & Hr & _)]])].
  - destruct S as (Sta & Stl & Sva & Svl & Slog & _).
    simpl in Sta, Stl, Sva, Svl, Slog.
    exists new. rewrite Sta, Stl, Sva, Svl, Slog.
    repeat split; try assumption. left. split; assumption.
  - discriminate Hr.
  - pose proof (train_epoch_same_records dl device
                  (add_line (EpochLine (i + 1) epochs) w)) as S2.
    rewrite Hep in S2.
    set (x := PrimFloat.div tl (Z2float (len dl))) in *.
    set (y := PrimFloat.div ta (Z2float (len dl))) in *.
    destruct S as (Sta & Stl & Sva & Svl & Slog & _).
    destruct S2 as (Sta2 & Stl2 & Sva2 & Svl2 & Slog2 & _).
    simpl in Sta, Stl, Sva, Svl, Slog, Sta2, Stl2, Sva2, Svl2, Slog2.
    exists (new ++ [[("training_loss"%string, x); ("training_acc"%string, y)]]).
    rewrite Sta, Stl, Sva, Svl, Slog, Sta2, Stl2, Sva2, Svl2, Slog2.
    rewrite !logged_app, !len_app, Hlog, <- app_assoc, <- Htl, <- Hta, <- Hvl, <- Hva.
    simpl. rewrite !app_nil_r.
    repeat split; try assumption.
    right. split; [exact Htr |]. unfold len in *. simpl. lia.
  - discriminate Hr.
Qed.

Lemma epochs_loop_interrupted (dl : DataLoader) (device : Device) (epochs : Z)
    (tdl : option DataLoader) (log0 : list (list (string * float))) (e : exn)
    (n : nat) :
  forall w w',
    recorded log0 tdl 0 w ->
    epochs_loop dl device epochs tdl (range (Z.of_nat n)) w = (Raise e, w') ->
    exists i, 0 <= i < Z.of_nat n /\ interrupted log0 tdl i w'.
Proof.
  unfold epochs_loop.
  induction n as [| n IH]; intros w w' Hrec Hrun.
  - discriminate Hrun.
  - replace (Z.of_nat (S n)) with (Z.of_nat n + 1) in * by lia.
    rewrite range_succ, for_each_app in Hrun by lia.
    destruct (for_each _ (range (Z.of_nat n)) tt w) as [[[] | e1] w1] eqn:Hpre.
    + destruct (epochs_loop_ok _ _ _ _ _ _ _ _ Hrec Hpre) as (Hrec1 & _).
      simpl in Hrun. apply bind_inv_raise in Hrun.
      destruct Hrun as [H | (a & w2 & _ & H)]; [| discriminate H].
      exists (Z.of_nat n). split; [lia |].
      exact (train_iteration_interrupted _ _ _ _ _ _ _ _ _ Hrec1 H).
    + inversion Hrun; subst.
      destruct (IH _ _ Hrec Hpre) as (i & Hi & Hint).
      exists i. split; [lia | exact Hint].
Qed.

(** X7. When [train] ends with an exception, it does so in some epoch
    [i] of the run, and what it has recorded by then is consistent:
    the log holds the entries emitted before the failure, each of the
    four lists holds what was emitted under its key, the testing lists
    have one entry for each of the [i] epochs before (when validation
    runs), and the training lists have as many, or one more when it is
    the validation of epoch [i] that failed. *)
Theorem failed_run_keeps_completed_epochs (dl : DataLoader) (device : Device)
    (epochs : Z) (tdl : option DataLoader) (w w' : World) (e : exn) :
  train dl device epochs tdl w = (Raise e, w') ->
  exists i, 0 <= i < epochs /\ interrupted (wandb_log w) tdl i w'.
Proof.
  intros H. unfold train in H.
  apply bind_inv_raise in H. destruct H as [H | ([] & w1 & Hinit & H)];
    [discriminate H |].
  inversion Hinit; subst w1; clear Hinit.
  apply bind_inv_raise in H. destruct H as [H | ([] & w2 & _ & H)].
  - rewrite range_to_nat in H.
    destruct (epochs_loop_interrupted _ _ _ _ _ _ _ _ _ (recorded_start tdl w) H)
      as (i & Hi & Hint).
    exists i. split; [lia | exact Hint].
  - apply bind_inv_raise in H. destruct H as [H | ([] & w3 & _ & H)];
      discriminate H.
Qed.

End Failures.

(** ** What a run prints and emits *)

Lemma range_nonneg_succ (n : nat) :
  range (Z.of_nat (S n)) = range (Z.of_nat n) ++ [Z.of_nat n].
Proof.
  replace (Z.of_nat (S n)) with (Z.of_nat n + 1) by lia.
  apply range_succ. lia.
Qed.

Lemma epoch_emissions_snoc (v : bool) (ta tl va vl : list float)
    (y x y' x' : float) (n : nat) :
  len ta = Z.of_nat n -> len tl = Z.of_nat n ->
  (v = true -> len va = Z.of_nat n /\ len vl = Z.of_nat n) ->
  flat_map (epoch_emissions v (ta ++ [y], tl ++ [x],
                               if v then va ++ [y'] else va,
                               if v then vl ++ [x'] else vl))
           (range (Z.of_nat (S n))) =
  flat_map (epoch_emissions v (ta, tl, va, vl)) (range (Z.of_nat n)) ++
  [("training_loss"%string, x); ("training_acc"%string, y)]
  :: (if v then [[("testing_loss"%string, x'); ("testing_acc"%string, y')]] else []).
Proof.
  intros Lta Ltl Lv. rewrite range_nonneg_succ, flat_map_app. f_equal.
  - apply flat_map_ext_in. intros i Hi. apply in_range in Hi.
    unfold epoch_emissions.
    rewrite !at_epoch_app_old by lia.
    destruct v; [| reflexivity].
    destruct (Lv eq_refl) as [Lva Lvl].
    rewrite !at_epoch_app_old by lia. reflexivity.
  - simpl. rewrite app_nil_r. unfold epoch_emissions.
    rewrite !at_epoch_app_new by assumption.
    destruct v; [| reflexivity].
    destruct (Lv eq_refl) as [Lva Lvl].
    rewrite !at_epoch_app_new by assumption. reflexivity.
Qed.

Lemma epoch_lines_snoc (epochs : Z) (v : bool) (ta tl va vl : list float)
    (y x y' x' : float) (n : nat) :
  len ta = Z.of_nat n -> len tl = Z.of_nat n ->
  (v = true -> len va = Z.of_nat n /\ len vl = Z.of_nat n) ->
  flat_map (epoch_lines epochs v (ta ++ [y], tl ++ [x],
                                  if v then va ++ [y'] else va,
                                  if v then vl ++ [x'] else vl))
           (range (Z.of_nat (S n))) =
  flat_map (epoch_lines epochs v (ta, tl, va, vl)) (range (Z.of_nat n)) ++
  [EpochLine (Z.of_nat n + 1) epochs; TrainingLine x y]
  ++ (if v then [TestingLine x' y'] else []) ++ [RuleLine].
Proof.
  intros Lta Ltl Lv. rewrite range_nonneg_succ, flat_map_app. f_equal.
  - apply flat_map_ext_in. intros i Hi. apply in_range in Hi.
    unfold epoch_lines.
    rewrite !at_epoch_app_old by lia.
    destruct v; [| reflexivity].
    destruct (Lv eq_refl) as [Lva Lvl].
    rewrite !at_epoch_app_old by lia. reflexivity.
  - simpl. rewrite app_nil_r. unfold epoch_lines.
    rewrite !at_epoch_app_new by assumption.
    destruct v; [| reflexivity].
    destruct (Lv eq_refl) as [Lva Lvl].
    rewrite !at_epoch_app_new by assumption. reflexivity.
Qed.

Section Output.
Context `{T : Torch}.

Lemma epochs_loop_output (dl : DataLoader) (device : Device) (epochs : Z)
    (tdl : option DataLoader) (n : nat) :
  forall w w',
    training_loss w = [] -> training_acc w = [] ->
    testing_loss w = [] -> testing_acc w = [] ->
    epochs_loop dl device epochs tdl (range (Z.of_nat n)) w = (Ok tt, w') ->
    len (training_loss w') = Z.of_nat n /\
    len (training_acc w') = Z.of_nat n /\
    (truthy tdl = true ->
     len (testing_acc w') = Z.of_nat n /\ len (testing_loss w') = Z.of_nat n) /\
    wandb_log w' =
      wandb_log w ++ flat_map (epoch_emissions (truthy tdl) (history_of w'))
                              (range (Z.of_nat n)) /\
    console w' =
      console w ++ flat_map (epoch_lines epochs (truthy tdl) (history_of w'))
                            (range (Z.of_nat n)).
Proof.
  unfold epochs_loop.
  induction n as [| n IH]; intros w w' Htl Hta Hvl Hva Hrun.
  - simpl in Hrun. inversion Hrun; subst w'. simpl.
    rewrite Htl, Hta, Hvl, Hva, !app_nil_r.
    repeat split; reflexivity.
  - rewrite range_nonneg_succ, for_each_app in Hrun.
    destruct (for_each _ (range (Z.of_nat n)) tt w) as [[[] | e] w1] eqn:Hpre;
      [| discriminate Hrun].
    destruct (IH w w1 Htl Hta Hvl Hva Hpre) as (L1 & L2 & Lv & Hlog & Hcon).
    simpl in Hrun. apply bind_inv_ok in Hrun.
    destruct Hrun as ([] & w2 & Hit & Hret). inversion Hret; subst w2; clear Hret.
    apply train_iteration_inv in Hit; [| assumption | assumption |].
    2: { intros Htr. destruct (Lv Htr). split; assumption. }
    pose proof (train_epoch_same_records dl device
                  (add_line (EpochLine (Z.of_nat n + 1) epochs) w1)) as S2.
    destruct Hit as [(e0 & Hr & _) |
                     (tl & ta & w2 & Hep & _ &
                      [(Htr & _ & ->) | [(_ & e0 & Hr & _) |
                                         (d & vl & va & w5 & -> & Hd & _ & Hval & ->)]])];
      try discriminate Hr; rewrite Hep in S2;
      set (x := PrimFloat.div tl (Z2float (len dl))) in *;
      set (y := PrimFloat.div ta (Z2float (len dl))) in *.
    + (* no validation *)
      destruct S2 as (Sta & Stl & Sva & Svl & Slog & Scon).
      simpl in Sta, Stl, Sva, Svl, Slog, Scon.
      unfold history_of in *. simpl.
      rewrite Sta, Stl, Sva, Svl, Slog, Scon, !len_app.
      rewrite Htr in *.
      pose proof (epoch_emissions_snoc false (training_acc w1) (training_loss w1)
                    (testing_acc w1) (testing_loss w1) y x y x n L2 L1
                    ltac:(discriminate)) as E1.
      pose proof (epoch_lines_snoc epochs false (training_acc w1) (training_loss w1)
                    (testing_acc w1) (testing_loss w1) y x y x n L2 L1
                    ltac:(discriminate)) as E2.
      cbv iota in E1, E2.
      change (Z.pos (Pos.of_succ_nat n)) with (Z.of_nat (S n)).
      rewrite E1, E2, Hlog, Hcon, <- !app_assoc.
      repeat split; try reflexivity; try discriminate;
        unfold len in *; simpl; lia.
    + (* validation *)
      pose proof (validate_epoch_same_records d device (after_training_metrics x y w2))
        as S5.
      rewrite Hval in S5.
      set (x' := PrimFloat.div vl (Z2float (len d))) in *.
      set (y' := PrimFloat.div va (Z2float (len d))) in *.
      assert (Htr : truthy (Some d) = true).
      { simpl. destruct (Z.eqb_spec (len d) 0); [contradiction | reflexivity]. }
      destruct S2 as (Sta & Stl & Sva & Svl & Slog & Scon).
      destruct S5 as (Vta & Vtl & Vva & Vvl & Vlog & Vcon).
      simpl in Sta, Stl, Sva, Svl, Slog, Scon, Vta, Vtl, Vva, Vvl, Vlog, Vcon.
      destruct (Lv Htr) as [Lva Lvl].
      unfold history_of in *.
      set (v := truthy (Some d)) in *. clearbody v. subst v.
      simpl.
      rewrite Vta, Vtl, Vva, Vvl, Vlog, Vcon, Sta, Stl, Sva, Svl, Slog, Scon, !len_app.
      pose proof (epoch_emissions_snoc true (training_acc w1) (training_loss w1)
                    (testing_acc w1) (testing_loss w1) y x y' x' n L2 L1
                    (fun _ => conj Lva Lvl)) as E1.
      pose proof (epoch_lines_snoc epochs true (training_acc w1) (training_loss w1)
                    (testing_acc w1) (testing_loss w1) y x y' x' n L2 L1
                    (fun _ => conj Lva Lvl)) as E2.
      cbv iota in E1, E2.
      change (Z.pos (Pos.of_succ_nat n)) with (Z.of_nat (S n)).
      rewrite E1, E2, Hlog, Hcon, <- !app_assoc.
      repeat split; try reflexivity; unfold len in *; simpl; lia.
Qed.

(** X8. What a run of [train] that returns has emitted and printed can
    be read off the history it returns: for each epoch in turn, one
    call of [wandb.log] with the training loss and accuracy of that
    epoch and, when validation runs, a second one with the testing
    loss and accuracy; and on the console, for each epoch, its
    "Epoch i+1/epochs" line, the training line, the testing line when
    validation runs, and the rule, with the line of line 56 at the
    end. *)
Theorem run_output_follows_history (dl : DataLoader) (device : Device) (epochs : Z)
    (tdl : option DataLoader) (w w' : World) (h : History) :
  train dl device epochs tdl w = (Ok h, w') ->
  wandb_log w' =
    wandb_log w ++ flat_map (epoch_emissions (truthy tdl) h) (range epochs) /\
  console w' =
    console w ++ flat_map (epoch_lines epochs (truthy tdl) h) (range epochs)
              ++ [FinishedLine].
Proof.
  intros H. unfold train in H.
  apply bind_inv_ok in H. destruct H as ([] & w1 & Hinit & H).
  inversion Hinit; subst w1; clear Hinit.
  apply bind_inv_ok in H. destruct H as ([] & w2 & Hloop & H).
  apply bind_inv_ok in H. destruct H as ([] & w3 & Hprint & H).
  inversion Hprint; subst w3; clear Hprint.
  inversion H; subst; clear H.
  rewrite range_to_nat in Hloop.
  destruct (epochs_loop_output dl device epochs tdl (Z.to_nat epochs)
              (set_history [] [] [] [] w) w2
              eq_refl eq_refl eq_refl eq_refl Hloop) as (_ & _ & _ & Hlog & Hcon).
  rewrite <- range_to_nat in Hlog, Hcon. simpl in Hlog, Hcon.
  split.
  - exact Hlog.
  - simpl. rewrite Hcon, <- app_assoc. reflexivity.
Qed.

End Output.

(** ** Training with and without validation *)

Section Simulation.
Context `{T : Torch}.

Lemma train_batch_same_model (device : Device) (b : Batch) (w w' : World) :
  same_model w w' ->
  fst (train_batch device b w) = fst (train_batch device b w') /\
  same_model (snd (train_batch device b w)) (snd (train_batch device b w')).
Proof.
  intros (Hp & Hb & Ht & Hg & Hgr & Ho).
  unfold train_batch, bind, lift, ret, target_to, model_call,
    optimizer_zero_grad, loss_backward, optimizer_step.
  destruct (wav_to (fst b) device) as [wav | e]; simpl;
    [| split; [reflexivity | repeat split; assumption]].
  destruct (target_to_raises (snd b) device) as [e |]; simpl;
    [split; [reflexivity | repeat split; assumption] |].
  unfold ret, lift. simpl.
  rewrite <- Hp, <- Hb, <- Ht, <- Hg.
  destruct (forward (params w) (buffers w) (training w) (grad_enabled w) wav)
    as [[out | e] bf]; simpl;
    [| split; [reflexivity | repeat split; assumption]].
  destruct (loss_fn out (snd b)) as [loss | e]; simpl;
    [| split; [reflexivity | repeat split; assumption]].
  rewrite <- Hgr.
  destruct (zero_grad (grads w)) as [g0 | e]; simpl;
    [| split; [reflexivity | repeat split; assumption]].
  destruct (backward loss g0) as [g1 | e]; simpl;
    [| split; [reflexivity | repeat split; assumption]].
  rewrite <- Ho, <- Hp.
  destruct (step (opt_state w) (params w) g1) as [[p o] | e]; simpl;
    [| split; [reflexivity | repeat split; assumption]].
  destruct (argmax1 out) as [prediction | e]; simpl;
    [| split; [reflexivity | repeat split; assumption]].
  destruct (batch_accuracy prediction (snd b)) as [acc | e]; simpl;
    split; try reflexivity; repeat split; assumption.
Qed.

Lemma train_loop_same_model (device : Device) (dl : DataLoader) :
  forall (sums : float * float * float) (w w' : World),
    same_model w w' ->
    fst (for_each (fun sums b => bind (train_batch device b)
                                   (fun m => ret (accumulate sums m))) dl sums w) =
    fst (for_each (fun sums b => bind (train_batch device b)
                                   (fun m => ret (accumulate sums m))) dl sums w') /\
    same_model
      (snd (for_each (fun sums b => bind (train_batch device b)
                                      (fun m => ret (accumulate sums m))) dl sums w))
      (snd (for_each (fun sums b => bind (train_batch device b)
                                      (fun m => ret (accumulate sums m))) dl sums w')).
Proof.
  induction dl as [| b dl IH]; intros sums w w' Hw.
  - split; [reflexivity | exact Hw].
  - rewrite !loop_cons.
    destruct (train_batch_same_model device b w w' Hw) as [Hr Hs].
    destruct (train_batch device b w) as [[m | e] w1],
             (train_batch device b w') as [[m' | e'] w1']; simpl in *;
      try discriminate Hr.
    + injection Hr as <-. apply IH. exact Hs.
    + injection Hr as <-. split; [reflexivity | exact Hs].
Qed.

(** [train_epoch] sets the mode itself: run from two worlds that agree
    on everything else of the model, it ends the same way in both. *)
Lemma train_epoch_same_weights (dl : DataLoader) (device : Device) (w w' : World) :
  same_weights w w' ->
  fst (train_epoch dl device w) = fst (train_epoch dl device w') /\
  same_model (snd (train_epoch dl device w)) (snd (train_epoch dl device w')).
Proof.
  intros (Hp & Hb & Hg & Hgr & Ho). rewrite !train_epoch_eq.
  assert (Hw : same_model (set_training true w) (set_training true w'))
    by (repeat split; assumption).
  destruct (train_loop_same_model device dl (0%float, 0%float, 0%float) _ _ Hw)
    as [Hr Hs].
  unfold train_loop.
  destruct (for_each _ dl _ (set_training true w)) as [[[[l a] t] | e] w1],
           (for_each _ dl _ (set_training true w')) as [[[[l' a'] t'] | e'] w1'];
    simpl in *; try discriminate Hr.
  - injection Hr as -> -> ->. split; [reflexivity | exact Hs].
  - injection Hr as ->. split; [reflexivity | exact Hs].
Qed.

Section PureEvaluation.
Hypothesis eval_forward_pure :
  forall p bf wav, snd (forward p bf false false wav) = bf.

Lemma validate_epoch_same_weights (d : DataLoader) (device : Device) (w : World) :
  same_weights (snd (validate_epoch d device w)) w.
Proof.
  repeat split.
  - apply keeps_validate_epoch; reflexivity.
  - apply validate_epoch_keeps_buffers. exact eval_forward_pure.
  - apply validate_epoch_restores_grad_mode.
  - apply keeps_validate_epoch; reflexivity.
  - apply keeps_validate_epoch; reflexivity.
Qed.

(** The loop over the epochs with validation, against the loop
    without. *)
Lemma epochs_loop_without_validation (dl d : DataLoader) (device : Device)
    (epochs : Z) (log log0 : list (list (string * float))) (n : nat) :
  forall w w0 w',
    same_weights w w0 ->
    recorded log (Some d) 0 w -> recorded log0 None 0 w0 ->
    epochs_loop dl device epochs (Some d) (range (Z.of_nat n)) w = (Ok tt, w') ->
    exists w0',
      epochs_loop dl device epochs None (range (Z.of_nat n)) w0 = (Ok tt, w0') /\
      same_weights w' w0' /\
      training_acc w' = training_acc w0' /\
      training_loss w' = training_loss w0'.
Proof.
  induction n as [| n IH]; intros w w0 w' Hw Hrec Hrec0 Hrun.
  - unfold epochs_loop in *. simpl in *. inversion Hrun; subst w'.
    exists w0. split; [reflexivity |].
    destruct Hrec as (new & _ & Htl & Hta & _ & _ & Ltl & Lta & _).
    destruct Hrec0 as (new0 & _ & Htl0 & Hta0 & _ & _ & Ltl0 & Lta0 & _).
    split; [exact Hw |].
    destruct (training_acc w), (training_acc w0), (training_loss w), (training_loss w0);
      try discriminate; split; reflexivity.
  - pose proof Hrun as Hrun'.
    unfold epochs_loop in Hrun.
    rewrite range_nonneg_succ, for_each_app in Hrun.
    destruct (for_each _ (range (Z.of_nat n)) tt w) as [[[] | e] w1] eqn:Hpre;
      [| discriminate Hrun].
    fold (epochs_loop dl device epochs (Some d) (range (Z.of_nat n)) w) in Hpre.
    destruct (IH w w0 w1 Hw Hrec Hrec0 Hpre) as (w01 & Hpre0 & Hw1 & Hta1 & Htl1).
    destruct (epochs_loop_ok _ _ _ _ _ _ _ _ Hrec Hpre) as (Hrec1 & _).
    destruct (epochs_loop_ok _ _ _ _ _ _ _ _ Hrec0 Hpre0) as (Hrec01 & _).
    simpl in Hrun. apply bind_inv_ok in Hrun.
    destruct Hrun as ([] & w2 & Hit & Hret). inversion Hret; subst w2; clear Hret.
    destruct Hrec1 as (new & _ & _ & _ & _ & _ & Ltl & Lta & Lvl & Lva & _).
    destruct Hrec01 as (new0 & _ & _ & _ & _ & _ & Ltl0 & Lta0 & _).
    apply train_iteration_inv in Hit; [| assumption | assumption |].
    2: { intros Htr. rewrite Htr in Lvl, Lva. split; assumption. }
    destruct Hit as [(e0 & Hr & _) |
                     (tl & ta & w2 & Hep & Hdl &
                      [(Htr & _ & ->) | [(_ & e0 & Hr & _) |
                                         (d' & vl & va & w5 & Hd' & Hd & _ & Hval & ->)]])];
      try discriminate Hr.
    + (* the validation dataloader is empty *)
      assert (Hw2 : same_weights (add_line (EpochLine (Z.of_nat n + 1) epochs) w1)
                                 (add_line (EpochLine (Z.of_nat n + 1) epochs) w01))
        by exact Hw1.
      destruct (train_epoch_same_weights dl device _ _ Hw2) as [Hr Hs].
      rewrite Hep in Hr, Hs. simpl in Hr, Hs.
      pose proof (train_epoch_same_records dl device
                    (add_line (EpochLine (Z.of_nat n + 1) epochs) w1)) as S2.
      pose proof (train_epoch_same_records dl device
                    (add_line (EpochLine (Z.of_nat n + 1) epochs) w01)) as S02.
      rewrite Hep in S2.
      destruct (train_epoch dl device
                  (add_line (EpochLine (Z.of_nat n + 1) epochs) w01))
        as [r02 w02] eqn:Hep0.
      simpl in Hr, Hs, S2, S02. subst r02.
      destruct S2 as (Sta & Stl & _). destruct S02 as (Sta0 & Stl0 & _).
      simpl in Sta, Stl, Sta0, Stl0.
      eexists. split.
      * unfold epochs_loop.
        rewrite range_nonneg_succ, for_each_app.
        unfold epochs_loop in Hpre0. rewrite Hpre0. simpl.
        erewrite bind_ok; [reflexivity |].
        unfold train_iteration.
        erewrite bind_ok by reflexivity.
        erewrite bind_ok by exact Hep0. cbv beta iota.
        erewrite bind_ok by (apply training_metrics_ok; congruence).
        reflexivity.
      * destruct Hs as (Hp & Hb & _ & Hg & Hgr & Ho).
        simpl. rewrite Sta, Stl, Sta0, Stl0, Hta1, Htl1.
        repeat split; assumption.
    + (* validation ran *)
      injection Hd' as <-.
      assert (Hw2 : same_weights (add_line (EpochLine (Z.of_nat n + 1) epochs) w1)
                                 (add_line (EpochLine (Z.of_nat n + 1) epochs) w01))
        by exact Hw1.
      destruct (train_epoch_same_weights dl device _ _ Hw2) as [Hr Hs].
      rewrite Hep in Hr, Hs. simpl in Hr, Hs.
      pose proof (train_epoch_same_records dl device
                    (add_line (EpochLine (Z.of_nat n + 1) epochs) w1)) as S2.
      pose proof (train_epoch_same_records dl device
                    (add_line (EpochLine (Z.of_nat n + 1) epochs) w01)) as S02.
      rewrite Hep in S2.
      destruct (train_epoch dl device
                  (add_line (EpochLine (Z.of_nat n + 1) epochs) w01))
        as [r02 w02] eqn:Hep0.
      simpl in Hr, Hs, S2, S02. subst r02.
      destruct S2 as (Sta & Stl & _). destruct S02 as (Sta0 & Stl0 & _).
      simpl in Sta, Stl, Sta0, Stl0.
      set (x := PrimFloat.div tl (Z2float (len dl))) in *.
      set (y := PrimFloat.div ta (Z2float (len dl))) in *.
      pose proof (validate_epoch_same_weights d device (after_training_metrics x y w2))
        as V.
      pose proof (validate_epoch_same_records d device (after_training_metrics x y w2))
        as VS.
      rewrite Hval in V, VS. simpl in V, VS.
      destruct V as (Vp & Vb & Vg & Vgr & Vo).
      destruct VS as (Vta & Vtl & _).
      simpl in Vp, Vb, Vg, Vgr, Vo, Vta, Vtl.
      eexists. split.
      * unfold epochs_loop.
        rewrite range_nonneg_succ, for_each_app.
        unfold epochs_loop in Hpre0. rewrite Hpre0. simpl.
        erewrite bind_ok; [reflexivity |].
        unfold train_iteration.
        erewrite bind_ok by reflexivity.
        erewrite bind_ok by exact Hep0. cbv beta iota.
        erewrite bind_ok by (apply training_metrics_ok; congruence).
        reflexivity.
      * destruct Hs as (Hp & Hb & _ & Hg & Hgr & Ho).
        unfold same_weights. simpl. rewrite Vp, Vb, Vg, Vgr, Vo, Vta, Vtl.
        rewrite Sta, Stl, Sta0, Stl0, Hta1, Htl1.
        repeat split; assumption.
Qed.

(** X10. Validation does not change what is learned, for dataloaders
    and a model without randomness: the training dataloader yielding
    the same batches in the same order on every pass, whether or not
    a validation pass ran in between, the collaborators being
    functions of their arguments ([Torch]), and the forward pass in
    evaluation mode leaving the buffers alone, a run of [train] with a
    validation dataloader that returns is matched by the run without
    one, which returns too, with the same training accuracies and
    losses and the same parameters, buffers, gradients, optimizer
    state and autograd mode at the end.  (A shuffling dataloader or a
    dropout layer that draws from a random number generator shared
    with the validation pass is outside this statement.) *)
Theorem validation_does_not_change_training (dl d : DataLoader) (device : Device)
    (epochs : Z) (w w' : World) (h : History) :
  train dl device epochs (Some d) w = (Ok h, w') ->
  exists h0 w0,
    train dl device epochs None w = (Ok h0, w0) /\
    fst (fst (fst h0)) = fst (fst (fst h)) /\
    snd (fst (fst h0)) = snd (fst (fst h)) /\
    same_weights w0 w'.
Proof.
  intros H. unfold train in H.
  apply bind_inv_ok in H. destruct H as ([] & w1 & Hinit & H).
  inversion Hinit; subst w1; clear Hinit.
  apply bind_inv_ok in H. destruct H as ([] & w2 & Hloop & H).
  apply bind_inv_ok in H. destruct H as ([] & w3 & Hprint & H).
  inversion Hprint; subst w3; clear Hprint.
  inversion H; subst; clear H.
  rewrite range_to_nat in Hloop.
  assert (Hw : same_weights (set_history [] [] [] [] w) (set_history [] [] [] [] w))
    by (repeat split; reflexivity).
  destruct (epochs_loop_without_validation dl d device epochs (wandb_log w) (wandb_log w)
              (Z.to_nat epochs) _ _ _ Hw (recorded_start (Some d) w)
              (recorded_start None w) Hloop)
    as (w0' & Hloop0 & (Hp & Hb & Hg & Hgr & Ho) & Hta & Htl).
  rewrite <- range_to_nat in Hloop0.
  eexists _, _. split.
  - unfold train.
    erewrite bind_ok by reflexivity.
    erewrite bind_ok by exact Hloop0.
    reflexivity.
  - simpl. rewrite Hta, Htl.
    repeat split; symmetry; assumption.
Qed.

End PureEvaluation.
End Simulation.

(** ** The name of the saved model *)

Lemma digit_char_compare (d d' : Z) :
  0 <= d <= 9 -> 0 <= d' <= 9 ->
  Ascii.compare (digit_char d) (digit_char d') = (d ?= d').
Proof.
  intros Hd Hd'.
  assert (E : d = 0 \/ d = 1 \/ d = 2 \/ d = 3 \/ d = 4 \/ d = 5 \/ d = 6 \/ d = 7
              \/ d = 8 \/ d = 9) by lia.
  assert (E' : d' = 0 \/ d' = 1 \/ d' = 2 \/ d' = 3 \/ d' = 4 \/ d' = 5 \/ d' = 6
               \/ d' = 7 \/ d' = 8 \/ d' = 9) by lia.
  repeat (destruct E as [-> | E]);
    try subst d; repeat (destruct E' as [-> | E']); try subst d'; reflexivity.
Qed.

Lemma ascii_compare_refl (c : Ascii.ascii) : Ascii.compare c c = Eq.
Proof. unfold Ascii.compare. apply N.compare_refl. Qed.

Lemma string_compare_refl (s : string) : String.compare s s = Eq.
Proof.
  induction s as [| c s IH]; simpl; [reflexivity |].
  rewrite ascii_compare_refl. exact IH.
Qed.

Lemma string_app_assoc (s1 s2 s3 : string) :
  ((s1 ++ s2) ++ s3 = s1 ++ (s2 ++ s3))%string.
Proof.
  induction s1 as [| c s1 IH]; simpl; [reflexivity | rewrite IH; reflexivity].
Qed.

(** Comparing behind a common prefix. *)
Lemma compare_prefix (p s s' : string) :
  String.compare (p ++ s) (p ++ s') = String.compare s s'.
Proof.
  induction p as [| c p IH]; simpl; [reflexivity |].
  rewrite ascii_compare_refl. exact IH.
Qed.

(** Two strings that start with two digits compare as the numbers the
    digits spell, and then as what follows. *)
Lemma compare_two_digits (a b : Z) (s s' : string) :
  0 <= a <= 99 -> 0 <= b <= 99 ->
  String.compare (two_digits a ++ s) (two_digits b ++ s') =
  match a ?= b with
  | Eq => String.compare s s'
  | c => c
  end.
Proof.
  intros Ha Hb. unfold two_digits.
  cbn [String.append String.compare].
  assert (Qa : 0 <= a / 10 < 10)
    by (split; [apply Z.div_pos; lia | apply Z.div_lt_upper_bound; lia]).
  assert (Qb : 0 <= b / 10 < 10)
    by (split; [apply Z.div_pos; lia | apply Z.div_lt_upper_bound; lia]).
  pose proof (Z.mod_pos_bound a 10 ltac:(lia)) as Ra.
  pose proof (Z.mod_pos_bound b 10 ltac:(lia)) as Rb.
  rewrite (digit_char_compare (a / 10) (b / 10)) by lia.
  rewrite (digit_char_compare (a mod 10) (b mod 10)) by lia.
  assert (Ea : a = 10 * (a / 10) + a mod 10) by (apply Z.div_mod; lia).
  assert (Eb : b = 10 * (b / 10) + b mod 10) by (apply Z.div_mod; lia).
  destruct (Z.compare_spec (a / 10) (b / 10)) as [Hq | Hq | Hq].
  - destruct (Z.compare_spec (a mod 10) (b mod 10)) as [Hr | Hr | Hr].
    + replace a with b by lia. rewrite Z.compare_refl. reflexivity.
    + rewrite (proj2 (Z.compare_lt_iff a b)) by lia. reflexivity.
    + rewrite (proj2 (Z.compare_gt_iff a b)) by lia. reflexivity.
  - rewrite (proj2 (Z.compare_lt_iff a b)) by lia. reflexivity.
  - rewrite (proj2 (Z.compare_gt_iff a b)) by lia. reflexivity.
Qed.

Lemma four_digits_split (n : Z) :
  0 <= n <= 9999 ->
  four_digits n = (two_digits (n / 100) ++ two_digits (n mod 100))%string.
Proof.
  intros Hn. unfold four_digits, two_digits.
  cbn [String.append].
  rewrite Z.div_div by lia.
  change (100 * 10) with 1000.
  replace (n / 100 mod 10) with ((n / 100) mod 10) by reflexivity.
  reflexivity.
Qed.

Lemma compare_four_digits (a b : Z) (s s' : string) :
  0 <= a <= 9999 -> 0 <= b <= 9999 ->
  String.compare (four_digits a ++ s) (four_digits b ++ s') =
  match a ?= b with
  | Eq => String.compare s s'
  | c => c
  end.
Proof.
  intros Ha Hb. rewrite !four_digits_split by assumption.
  rewrite !string_app_assoc.
  assert (Ea : a = 100 * (a / 100) + a mod 100) by (apply Z.div_mod; lia).
  assert (Eb : b = 100 * (b / 100) + b mod 100) by (apply Z.div_mod; lia).
  pose proof (Z.mod_pos_bound a 100 ltac:(lia)) as Ra.
  pose proof (Z.mod_pos_bound b 100 ltac:(lia)) as Rb.
  assert (Qa : 0 <= a / 100 < 100)
    by (split; [apply Z.div_pos; lia | apply Z.div_lt_upper_bound; lia]).
  assert (Qb : 0 <= b / 100 < 100)
    by (split; [apply Z.div_pos; lia | apply Z.div_lt_upper_bound; lia]).
  rewrite compare_two_digits by lia.
  destruct (Z.compare_spec (a / 100) (b / 100)) as [Hq | Hq | Hq].
  - rewrite compare_two_digits by lia.
    destruct (Z.compare_spec (a mod 100) (b mod 100)) as [Hr | Hr | Hr].
    + replace a with b by lia. rewrite Z.compare_refl. reflexivity.
    + rewrite (proj2 (Z.compare_lt_iff a b)) by lia. reflexivity.
    + rewrite (proj2 (Z.compare_gt_iff a b)) by lia. reflexivity.
  - rewrite (proj2 (Z.compare_lt_iff a b)) by lia. reflexivity.
  - rewrite (proj2 (Z.compare_gt_iff a b)) by lia. reflexivity.
Qed.

Lemma length_two_digits (n : Z) : String.length (two_digits n) = 2%nat.
Proof. reflexivity. Qed.

Lemma string_length_app (s s' : string) :
  String.length (s ++ s') = (String.length s + String.length s')%nat.
Proof.
  induction s as [| c s IH]; simpl; [reflexivity | rewrite IH; reflexivity].
Qed.

(** The comparison of two clock numbers, field by field. *)
Lemma clock_number_compare (a b : datetime) :
  valid_datetime a -> valid_datetime b ->
  (clock_number a ?= clock_number b) =
  match year a ?= year b with
  | Eq => match month a ?= month b with
          | Eq => match day a ?= day b with
                  | Eq => match hour a ?= hour b with
                          | Eq => match minute a ?= minute b with
                                  | Eq => second a ?= second b
                                  | c => c
                                  end
                          | c => c
                          end
                  | c => c
                  end
          | c => c
          end
  | c => c
  end.
Proof.
  intros (Ya & Ma & Da & Ha & Mia & Sa & _) (Yb & Mb & Db & Hb & Mib & Sb & _).
  unfold clock_number.
  destruct (Z.compare_spec (year a) (year b)) as [Hy | Hy | Hy];
    [| apply Z.compare_lt_iff; lia | apply Z.compare_gt_iff; lia].
  destruct (Z.compare_spec (month a) (month b)) as [Hm | Hm | Hm];
    [| apply Z.compare_lt_iff; lia | apply Z.compare_gt_iff; lia].
  destruct (Z.compare_spec (day a) (day b)) as [Hd | Hd | Hd];
    [| apply Z.compare_lt_iff; lia | apply Z.compare_gt_iff; lia].
  destruct (Z.compare_spec (hour a) (hour b)) as [Hh | Hh | Hh];
    [| apply Z.compare_lt_iff; lia | apply Z.compare_gt_iff; lia].
  destruct (Z.compare_spec (minute a) (minute b)) as [Hmi | Hmi | Hmi];
    [| apply Z.compare_lt_iff; lia | apply Z.compare_gt_iff; lia].
  destruct (Z.compare_spec (second a) (second b)) as [Hs | Hs | Hs];
    [apply Z.compare_eq_iff; lia | apply Z.compare_lt_iff; lia
     | apply Z.compare_gt_iff; lia].
Qed.

Lemma strftime_compare (a b : datetime) :
  valid_datetime a -> valid_datetime b ->
  String.compare (model_filename (strftime_Ymd_HMS a))
                 (model_filename (strftime_Ymd_HMS b)) =
  (clock_number a ?= clock_number b).
Proof.
  intros Va Vb. rewrite (clock_number_compare a b Va Vb).
  destruct Va as (Ya & Ma & Da & Ha & Mia & Sa & _).
  destruct Vb as (Yb & Mb & Db & Hb & Mib & Sb & _).
  unfold model_filename, strftime_Ymd_HMS.
  rewrite compare_prefix.
  rewrite !string_app_assoc.
  rewrite compare_four_digits by lia.
  destruct (year a ?= year b); try reflexivity.
  rewrite compare_two_digits by lia.
  destruct (month a ?= month b); try reflexivity.
  rewrite compare_two_digits by lia.
  destruct (day a ?= day b); try reflexivity.
  rewrite (compare_prefix "_").
  rewrite compare_two_digits by lia.
  destruct (hour a ?= hour b); try reflexivity.
  rewrite compare_two_digits by lia.
  destruct (minute a ?= minute b); try reflexivity.
  rewrite compare_two_digits by lia.
  destruct (second a ?= second b); try reflexivity.
Qed.

(** X9. The name under which the model is saved, for a clock reading
    in the years 1000 to 9999: it has 36 characters; two names compare
    as strings the way the two readings compare to the second, so that
    sorting the saved models by name sorts them by time; and two runs
    get the same name exactly when they end within the same second,
    the microseconds being dropped. *)
Theorem model_filename_orders_runs (a b : datetime) :
  valid_datetime a -> valid_datetime b ->
  String.length (model_filename (strftime_Ymd_HMS a)) = 36%nat /\
  String.compare (model_filename (strftime_Ymd_HMS a))
                 (model_filename (strftime_Ymd_HMS b)) =
    (clock_number a ?= clock_number b) /\
  (model_filename (strftime_Ymd_HMS a) = model_filename (strftime_Ymd_HMS b) <->
   year a = year b /\ month a = month b /\ day a = day b /\
   hour a = hour b /\ minute a = minute b /\ second a = second b).
Proof.
  intros Va Vb. split; [reflexivity |].
  split; [apply strftime_compare; assumption |].
  split.
  - intros Heq.
    pose proof (strftime_compare a b Va Vb) as Hc.
    rewrite Heq, string_compare_refl in Hc. symmetry in Hc.
    rewrite (clock_number_compare a b Va Vb) in Hc.
    destruct (Z.compare_spec (year a) (year b)); try discriminate Hc.
    destruct (Z.compare_spec (month a) (month b)); try discriminate Hc.
    destruct (Z.compare_spec (day a) (day b)); try discriminate Hc.
    destruct (Z.compare_spec (hour a) (hour b)); try discriminate Hc.
    destruct (Z.compare_spec (minute a) (minute b)); try discriminate Hc.
    destruct (Z.compare_spec (second a) (second b)); try discriminate Hc.
    repeat split; assumption.
  - intros (Hy & Hm & Hd & Hh & Hmi & Hs).
    unfold strftime_Ymd_HMS. rewrite Hy, Hm, Hd, Hh, Hmi, Hs. reflexivity.
Qed.

(** ** Accuracies stay within the unit interval *)

(** *** Shifts of a mantissa *)

(** The exponent binary64 gives to a number of magnitude [e]. *)
Lemma fexp_max (e : Z) : fexp prec emax e = Z.max (e - 53) (-1074).
Proof. reflexivity. Qed.

(** One shift of a non-negative mantissa. *)
Lemma shr_1_spec (m : Z) (r s : bool) :
  0 <= m ->
  shr_1 (Build_shr_record m r s) = Build_shr_record (Z.div2 m) (Z.odd m) (r || s).
Proof.
  intros Hm. destruct m as [| [p | p |] | p]; try reflexivity. lia.
Qed.

(** [iter_pos] iterates as many times as its count says. *)
Lemma iter_pos_nat {A : Type} (f : A -> A) (p : positive) (x : A) :
  iter_pos f p x = Nat.iter (Pos.to_nat p) f x.
Proof.
  revert x. induction p as [p IH | p IH |]; intros x; simpl iter_pos.
  - rewrite !IH, Pos2Nat.inj_xI.
    replace (S (2 * Pos.to_nat p))%nat with (Pos.to_nat p + (Pos.to_nat p + 1))%nat by lia.
    rewrite !Nat.iter_add. simpl. reflexivity.
  - rewrite !IH, Pos2Nat.inj_xO.
    replace (2 * Pos.to_nat p)%nat with (Pos.to_nat p + Pos.to_nat p)%nat by lia.
    rewrite Nat.iter_add. reflexivity.
  - reflexivity.
Qed.

(** A record is exact when neither of its two bits is set. *)
Lemma loc_exact_iff (rec : shr_record) :
  loc_of_shr_record rec = loc_Exact <-> shr_r rec = false /\ shr_s rec = false.
Proof.
  destruct rec as [m [] []]; simpl; split; intros H; try discriminate;
    try (destruct H; discriminate); auto.
Qed.

(** The low [k + 1] bits are zero when the low [k] bits and the next
    one are. *)
Lemma mod_pow2_succ (m : Z) (k : Z) :
  0 <= k ->
  (m mod 2 ^ (k + 1) = 0 <-> m mod 2 ^ k = 0 /\ Z.odd (m / 2 ^ k) = false).
Proof.
  intros Hk.
  assert (Hp : 0 < 2 ^ k) by (apply Z.pow_pos_nonneg; lia).
  rewrite Z.pow_add_r, Z.pow_1_r by lia.
  rewrite Z.rem_mul_r by lia.
  pose proof (Z.mod_pos_bound m (2 ^ k) Hp) as H1.
  pose proof (Z.mod_pos_bound (m / 2 ^ k) 2 ltac:(lia)) as H2.
  rewrite Zodd_mod.
  destruct (Z.eqb_spec ((m / 2 ^ k) mod 2) 1) as [E | E]; split; intros H; try nia.
  all: try (destruct H as [_ H]; discriminate H).
  all: try (split; [nia | reflexivity]).
  all: try (destruct H as [H _]; assert ((m / 2 ^ k) mod 2 = 0) by lia; nia).
Qed.

(** [k] shifts of a non-negative mantissa. *)
Lemma shr_iter (k : nat) (m : Z) (r s : bool) :
  0 <= m ->
  shr_m (Nat.iter k shr_1 (Build_shr_record m r s)) = m / 2 ^ Z.of_nat k /\
  (loc_of_shr_record (Nat.iter k shr_1 (Build_shr_record m r s)) = loc_Exact <->
   r = false /\ s = false /\ m mod 2 ^ Z.of_nat k = 0).
Proof.
  intros Hm. induction k as [| k [IHm IHl]].
  - change (Nat.iter 0 shr_1 (Build_shr_record m r s)) with (Build_shr_record m r s).
    cbn [shr_m]. change (2 ^ Z.of_nat 0) with 1.
    rewrite Z.div_1_r, Z.mod_1_r. split; [reflexivity |].
    rewrite loc_exact_iff. cbn [shr_r shr_s]. tauto.
  - rewrite Nat.iter_succ.
    destruct (Nat.iter k shr_1 (Build_shr_record m r s)) as [mk rk sk] eqn:Hk.
    cbn [shr_m] in IHm.
    assert (Hmk : 0 <= mk).
    { rewrite IHm. apply Z.div_pos; [lia | apply Z.pow_pos_nonneg; lia]. }
    rewrite shr_1_spec by exact Hmk.
    replace (Z.of_nat (S k)) with (Z.of_nat k + 1) by lia.
    split.
    + cbn [shr_m]. rewrite Z.div2_div, IHm, Z.pow_add_r, Z.pow_1_r by lia.
      rewrite Z.div_div by (try apply Z.pow_pos_nonneg; lia). reflexivity.
    + rewrite loc_exact_iff. cbn [shr_r shr_s].
      rewrite loc_exact_iff in IHl. cbn [shr_r shr_s] in IHl.
      rewrite mod_pow2_succ by lia. rewrite <- IHm.
      rewrite orb_false_iff. tauto.
Qed.

(** [shr] by [n] places. *)
Lemma shr_spec (m : Z) (l : location) (e n : Z) :
  0 <= m -> 0 <= n ->
  shr_m (fst (shr (shr_record_of_loc m l) e n)) = m / 2 ^ n /\
  snd (shr (shr_record_of_loc m l) e n) = e + n /\
  (loc_of_shr_record (fst (shr (shr_record_of_loc m l) e n)) = loc_Exact <->
   l = loc_Exact /\ m mod 2 ^ n = 0).
Proof.
  intros Hm Hn. destruct n as [| p | p]; [| | lia].
  - simpl. rewrite Z.div_1_r, Z.mod_1_r, Z.add_0_r, shr_m_record_of_loc,
      loc_of_record_of_loc. tauto.
  - cbn [shr fst snd]. rewrite iter_pos_nat.
    destruct l as [| []]; cbn [shr_record_of_loc];
      match goal with
      | |- context [Nat.iter ?k shr_1 (Build_shr_record m ?r ?s)] =>
          destruct (shr_iter k m r s Hm) as [H1 H2]
      end;
      rewrite positive_nat_Z in *; rewrite H1, H2;
      (split; [reflexivity | split; [reflexivity |]]);
      intuition congruence.
Qed.

(** *** The order of binary64 numbers and the order of their values *)

(** The number of bits of a non-negative number. *)
Lemma Zdigits2_bounds (m : Z) :
  0 <= m ->
  (m = 0 /\ Zdigits2 m = 0) \/
  (0 < m /\ 1 <= Zdigits2 m /\ 2 ^ (Zdigits2 m - 1) <= m < 2 ^ Zdigits2 m).
Proof.
  intros Hm. destruct m as [| p | p]; [left; split; reflexivity | right | lia].
  cbn [Zdigits2]. pose proof (digits2_pos_bounds p). lia.
Qed.

Lemma Zdigits2_unique (m d : Z) :
  2 ^ (d - 1) <= m < 2 ^ d -> 0 < m -> Zdigits2 m = d.
Proof.
  intros H Hm. destruct m as [| p | p]; try lia.
  cbn [Zdigits2]. apply digits2_pos_unique. exact H.
Qed.

Lemma pow2_pos (e : Z) : 0 <= e -> 0 < 2 ^ e.
Proof. intros H. apply Z.pow_pos_nonneg; lia. Qed.

Lemma pow2_split (a b : Z) : 0 <= a <= b -> 2 ^ b = 2 ^ (b - a) * 2 ^ a.
Proof. intros H. rewrite <- Z.pow_add_r by lia. f_equal. lia. Qed.

(** What a valid finite binary64 number is: at most 53 bits of
    mantissa, and exactly 53 above the smallest exponent. *)
Lemma valid_finite (s : bool) (m : positive) (e : Z) :
  valid_binary (S754_finite s m e) = true ->
  -1074 <= e <= 971 /\ Z.pos m < 2 ^ 53 /\ (-1074 < e -> 2 ^ 52 <= Z.pos m).
Proof.
  cbn [valid_binary]. unfold bounded, canonical_mantissa.
  intros H. apply andb_true_iff in H. destruct H as [H1 H2].
  apply Z.eqb_eq in H1. apply Z.leb_le in H2.
  rewrite fexp_max in H1. unfold emax, prec in H2.
  pose proof (digits2_pos_bounds m) as [Blo Bhi].
  set (d := Z.pos (digits2_pos m)) in *.
  assert (Hd : 1 <= d) by (subst d; lia).
  split; [lia |]. split.
  - assert (2 ^ d <= 2 ^ 53) by (apply Z.pow_le_mono_r; lia). lia.
  - intros He. assert (d = 53) by lia.
    replace (d - 1) with 52 in Blo by lia. exact Blo.
Qed.

(** A mantissa of at most 53 bits is below any mantissa of 53 bits
    that has a larger exponent. *)
Lemma scaled_lt_exp (m m' e e' : Z) :
  -2200 <= e -> 0 <= m < 2 ^ 53 -> 2 ^ 52 <= m' -> e < e' ->
  scaled m e < scaled m' e'.
Proof.
  intros He Hm Hm' Hlt. unfold scaled.
  rewrite (pow2_split (e + 2200) (e' + 2200)) by lia.
  pose proof (pow2_pos (e + 2200) ltac:(lia)) as HP.
  assert (HQ : 2 ^ 1 <= 2 ^ (e' + 2200 - (e + 2200))) by (apply Z.pow_le_mono_r; lia).
  change (2 ^ 1) with 2 in HQ.
  set (P := 2 ^ (e + 2200)) in *. set (Q := 2 ^ (e' + 2200 - (e + 2200))) in *.
  change (2 ^ 53) with (2 ^ 52 * 2) in Hm.
  set (B := 2 ^ 52) in *. assert (HB : 0 < B) by (subst B; reflexivity).
  assert (H1 : m * P < B * 2 * P) by (apply Z.mul_lt_mono_pos_r; lia).
  assert (H2 : B * 2 <= m' * Q) by (apply Z.mul_le_mono_nonneg; lia).
  assert (H3 : B * 2 * P <= m' * Q * P) by (apply Z.mul_le_mono_nonneg_r; lia).
  lia.
Qed.

Lemma scaled_le_same (m m' e : Z) :
  -2200 <= e -> (scaled m e <= scaled m' e <-> m <= m').
Proof.
  intros He. unfold scaled.
  pose proof (pow2_pos (e + 2200) ltac:(lia)) as HP.
  set (P := 2 ^ (e + 2200)) in *. split; intros H; nia.
Qed.

(** On valid positive numbers the comparison of binary64 is the
    comparison of the values. *)
Lemma SFleb_finite_iff (m m' : positive) (e e' : Z) :
  valid_binary (S754_finite false m e) = true ->
  valid_binary (S754_finite false m' e') = true ->
  (SFleb (S754_finite false m e) (S754_finite false m' e') = true <->
   scaled (Z.pos m) e <= scaled (Z.pos m') e').
Proof.
  intros V V'.
  destruct (valid_finite _ _ _ V) as (He & Hm & Hm2).
  destruct (valid_finite _ _ _ V') as (He' & Hm' & Hm2').
  unfold SFleb, SFcompare.
  destruct (Z.compare_spec e e') as [-> | Hlt | Hgt].
  - rewrite scaled_le_same by lia.
    change (Pos.compare_cont Eq m m') with (Z.pos m ?= Z.pos m').
    destruct (Z.compare_spec (Z.pos m) (Z.pos m')); split; intros H';
      try reflexivity; try discriminate; lia.
  - pose proof (scaled_lt_exp (Z.pos m) (Z.pos m') e e' ltac:(lia) ltac:(lia)
                  ltac:(lia) Hlt).
    split; [lia | reflexivity].
  - pose proof (scaled_lt_exp (Z.pos m') (Z.pos m) e' e ltac:(lia) ltac:(lia)
                  ltac:(lia) Hgt).
    split; [discriminate | lia].
Qed.

(** No shift is made by a count that is not positive. *)
Lemma shr_nonpos (mrs : shr_record) (e n : Z) : n <= 0 -> shr mrs e n = (mrs, e).
Proof. intros H. destruct n; try reflexivity. lia. Qed.

(** The second shift of [binary_round_aux]: it only undoes a carry
    into the 54th bit. *)
Lemma round_final (m2 E1 : Z) :
  -1074 <= E1 -> 0 <= m2 <= 2 ^ 53 ->
  (let '(mrs, e') := shr_fexp prec emax m2 E1 loc_Exact in (shr_m mrs, e')) =
  if m2 <? 2 ^ 53 then (m2, E1) else (2 ^ 52, E1 + 1).
Proof.
  intros HE Hm. unfold shr_fexp. rewrite fexp_max.
  destruct (Z.ltb_spec m2 (2 ^ 53)) as [Hlt | Hge].
  - rewrite shr_nonpos; [reflexivity |].
    destruct (Zdigits2_bounds m2 ltac:(lia)) as [[-> ->] | (Hpos & Hd & Hlo & Hhi)];
      [lia |].
    assert (Zdigits2 m2 <= 53); [| lia].
    destruct (Z.le_gt_cases (Zdigits2 m2) 53) as [H | H]; [exact H |].
    assert (2 ^ 53 <= 2 ^ (Zdigits2 m2 - 1)) by (apply Z.pow_le_mono_r; lia). lia.
  - assert (m2 = 2 ^ 53) by lia. subst m2.
    change (Zdigits2 (2 ^ 53)) with 54.
    replace (Z.max (54 + E1 - 53) (-1074) - E1) with 1 by lia.
    reflexivity.
Qed.

(** *** Rounding below a representable number *)

(** Rounding never passes a representable number that lies above. *)
Lemma round_aux_le (mx ex : Z) (lx : location) (mg : positive) (eg : Z) :
  0 <= mx -> -2200 <= ex ->
  ex <= fexp prec emax (Zdigits2 mx + ex) ->
  valid_binary (S754_finite false mg eg) = true ->
  scaled mx ex <= scaled (Z.pos mg) eg ->
  (lx <> loc_Exact -> scaled (mx + 1) ex <= scaled (Z.pos mg) eg) ->
  binary_round_aux prec emax false mx ex lx = S754_zero false \/
  exists (m : positive) (e : Z),
    binary_round_aux prec emax false mx ex lx = S754_finite false m e /\
    (e < eg \/ (e = eg /\ Z.pos m <= Z.pos mg)).
Proof.
  intros Hmx Hex Hn Hg Hle Hlt.
  destruct (valid_finite _ _ _ Hg) as (Heg & Hmg & Hmg').
  set (r := binary_round_aux prec emax false mx ex lx).
  assert (Hr0 : r = binary_round_aux prec emax false mx ex lx) by reflexivity.
  clearbody r. unfold binary_round_aux in Hr0. unfold shr_fexp at 1 in Hr0.
  set (D := Zdigits2 mx) in *.
  pose proof (fexp_max (D + ex)) as HE1.
  set (E1 := fexp prec emax (D + ex)) in *.
  destruct (shr_spec mx lx ex (E1 - ex) Hmx ltac:(lia)) as (Hm1 & He1 & Hl1).
  destruct (shr (shr_record_of_loc mx lx) ex (E1 - ex)) as [rec1 e1].
  cbn [fst snd] in Hm1, He1, Hl1.
  assert (He1' : e1 = E1) by lia. clear He1. subst e1.
  pose proof (round_nearest_even_bounds (shr_m rec1) (loc_of_shr_record rec1)) as Hr.
  assert (Hexact : loc_of_shr_record rec1 = loc_Exact ->
                   round_nearest_even (shr_m rec1) (loc_of_shr_record rec1) = shr_m rec1).
  { intros ->. reflexivity. }
  set (m1 := shr_m rec1) in *. set (l1 := loc_of_shr_record rec1) in *.
  set (m2 := round_nearest_even m1 l1) in *.
  (* the arithmetic of the first shift *)
  pose proof (pow2_pos (E1 - ex) ltac:(lia)) as HP.
  pose proof (pow2_pos (ex + 2200) ltac:(lia)) as HS.
  pose proof (pow2_pos (eg + 2200) ltac:(lia)) as HG.
  assert (HES : 2 ^ (E1 + 2200) = 2 ^ (E1 - ex) * 2 ^ (ex + 2200))
    by (rewrite <- Z.pow_add_r by lia; f_equal; lia).
  unfold scaled in Hle, Hlt.
  set (P := 2 ^ (E1 - ex)) in *. set (U := 2 ^ (ex + 2200)) in *.
  set (G := Z.pos mg * 2 ^ (eg + 2200)) in *.
  pose proof (Z.mul_div_le mx P HP) as Hfloor. rewrite <- Hm1 in Hfloor.
  pose proof (Z.mul_succ_div_gt mx P HP) as Hceil. rewrite <- Hm1 in Hceil.
  assert (Hm1pos : 0 <= m1) by (rewrite Hm1; apply Z.div_pos; lia).
  assert (HD : (mx = 0 /\ D = 0) \/ (0 < mx /\ 1 <= D /\ 2 ^ (D - 1) <= mx < 2 ^ D))
    by (apply Zdigits2_bounds; exact Hmx).
  (* the shifted mantissa has at most 53 bits, and exactly 53 above the
     subnormal range *)
  assert (Hm1hi : m1 < 2 ^ 53).
  { destruct HD as [[H0 _] | (Hpos & HD1 & Hlo & Hhi)].
    - rewrite Hm1, H0. rewrite Z.div_0_l by lia. reflexivity.
    - rewrite Hm1. apply Z.div_lt_upper_bound; [exact HP |].
      assert (2 ^ D <= 2 ^ (E1 - ex + 53)) by (apply Z.pow_le_mono_r; lia).
      rewrite Z.pow_add_r in H by lia. fold P in H. lia. }
  assert (Hm1lo : -1074 < E1 -> 2 ^ 52 <= m1).
  { intros HE. destruct HD as [[H0 HD0] | (Hpos & HD1 & Hlo & Hhi)]; [lia |].
    rewrite Hm1. apply Z.div_le_lower_bound; [exact HP |].
    assert (HDeq : D - 1 = E1 - ex + 52) by lia. rewrite HDeq in Hlo.
    rewrite Z.pow_add_r in Hlo by lia. fold P in Hlo. lia. }
  (* the rounded mantissa is still below the bound *)
  assert (HA : m2 * (P * U) <= G).
  { destruct (Z.eq_dec m2 m1) as [-> | Hne].
    - assert (m1 * P * U <= mx * U) by (apply Z.mul_le_mono_nonneg_r; lia). lia.
    - assert (Hm2 : m2 = m1 + 1) by lia.
      assert (Hl1' : l1 <> loc_Exact) by (intros Hl; apply Hne, Hexact, Hl).
      assert (Hstep : (m1 * P + 1) * U <= G).
      { destruct (Z.eq_dec (mx mod P) 0) as [Hz | Hnz].
        - assert (Hlx : lx <> loc_Exact) by (intros Hl; apply Hl1', Hl1; auto).
          specialize (Hlt Hlx).
          assert ((m1 * P + 1) * U <= (mx + 1) * U)
            by (apply Z.mul_le_mono_nonneg_r; lia). lia.
        - assert (Hmod : mx = P * m1 + mx mod P)
            by (rewrite Hm1; apply Z.div_mod; lia).
          pose proof (Z.mod_pos_bound mx P HP).
          assert ((m1 * P + 1) * U <= mx * U)
            by (apply Z.mul_le_mono_nonneg_r; lia). lia. }
      rewrite Hm2.
      destruct (Z.le_gt_cases E1 eg) as [Hge | Hlt'].
      + assert (HGs : 2 ^ (eg + 2200) = 2 ^ (eg - E1) * (P * U)).
        { rewrite <- HES. rewrite <- Z.pow_add_r by lia. f_equal. lia. }
        pose proof (pow2_pos (eg - E1) ltac:(lia)) as HT.
        subst G. rewrite HGs in *.
        set (T := Z.pos mg * 2 ^ (eg - E1)) in *.
        assert (HPS : 0 < P * U) by (apply Z.mul_pos_pos; assumption).
        assert (HTm : m1 < T).
        { apply (Z.mul_lt_mono_pos_r (P * U)); [exact HPS |].
          replace (Z.pos mg * (2 ^ (eg - E1) * (P * U))) with (T * (P * U)) in Hstep
            by (subst T; ring).
          assert (m1 * (P * U) < (m1 * P + 1) * U) by nia. lia. }
        replace (Z.pos mg * (2 ^ (eg - E1) * (P * U))) with (T * (P * U))
          by (subst T; ring).
        apply Z.mul_le_mono_nonneg_r; lia.
      + exfalso.
        pose proof (scaled_lt_exp (Z.pos mg) m1 eg E1 ltac:(lia) ltac:(lia)
                      ltac:(apply Hm1lo; lia) Hlt') as Hc.
        unfold scaled in Hc. fold G in Hc. rewrite HES in Hc.
        assert (m1 * (P * U) < (m1 * P + 1) * U) by nia. lia. }
  (* the second shift *)
  assert (Hm2 : 0 <= m2 <= 2 ^ 53) by lia.
  pose proof (round_final m2 E1 ltac:(lia) Hm2) as Hfin.
  destruct (shr_fexp prec emax m2 E1 loc_Exact) as [rec2 e2].
  assert (Hcmp : E1 < eg \/ (E1 = eg /\ m2 <= Z.pos mg) \/ m2 = 0).
  { destruct (Z.eq_dec m2 0) as [Hz | Hnz]; [right; right; exact Hz |].
    destruct (Z.lt_trichotomy E1 eg) as [H | [H | H]]; [left; exact H | |].
    - right. left. split; [exact H |].
      subst G. rewrite <- HES, H in HA.
      apply (scaled_le_same m2 (Z.pos mg) eg); [lia | exact HA].
    - exfalso.
      assert (Hm2lo : 2 ^ 52 <= m2) by (specialize (Hm1lo ltac:(lia)); lia).
      pose proof (scaled_lt_exp (Z.pos mg) m2 eg E1 ltac:(lia) ltac:(lia) Hm2lo H) as Hc.
      unfold scaled in Hc. fold G in Hc. rewrite HES in Hc. lia. }
  destruct (Z.ltb_spec m2 (2 ^ 53)) as [Hlt53 | Hge53].
  - injection Hfin as Hf1 Hf2. rewrite Hf1 in Hr0. subst e2.
    destruct m2 as [| p2 | p2] eqn:Hp2; [left; exact Hr0 | | lia].
    right. exists p2, E1.
    assert (HE971 : E1 <= 971).
    { destruct Hcmp as [H | [[H H'] | H]]; try discriminate H; lia. }
    destruct (Z.leb_spec E1 (emax - prec)) as [_ | Hbad];
      [| unfold emax, prec in Hbad; lia].
    split; [exact Hr0 |].
    destruct Hcmp as [H | [[H H'] | H]]; try discriminate H.
    + left; exact H.
    + right; split; assumption.
  - injection Hfin as Hf1 Hf2. rewrite Hf1 in Hr0. subst e2.
    assert (Heq : m2 = 2 ^ 53) by lia.
    assert (HltE : E1 < eg).
    { destruct Hcmp as [H | [[H H'] | H]]; [exact H | lia | ].
      rewrite H in Heq. discriminate Heq. }
    right. exists (2 ^ 52)%positive, (E1 + 1).
    change (2 ^ 52) with (Z.pos (2 ^ 52)) in Hr0.
    cbv iota in Hr0.
    destruct (Z.leb_spec (E1 + 1) (emax - prec)) as [_ | Hbad];
      [| unfold emax, prec in Hbad; lia].
    split; [exact Hr0 |].
    destruct (Z.eq_dec (E1 + 1) eg) as [He | Hne]; [right | left; lia].
    split; [exact He |]. apply Hmg'. lia.
Qed.

Lemma scaled_pos (m : positive) (e : Z) : -2200 <= e -> 0 < scaled (Z.pos m) e.
Proof.
  intros H. unfold scaled. pose proof (pow2_pos (e + 2200) ltac:(lia)). lia.
Qed.

(** From the comparisons to the value, and back. *)
Lemma upto_of_leb (x g : float) (mg : positive) (eg : Z) :
  Prim2SF g = S754_finite false mg eg ->
  PrimFloat.leb 0%float x = true -> PrimFloat.leb x g = true ->
  upto (scaled (Z.pos mg) eg) x.
Proof.
  intros Hg H0 H1. rewrite leb_spec in H0, H1. rewrite Hg in H1.
  change (Prim2SF 0%float) with (S754_zero false) in H0.
  pose proof (Prim2SF_valid x) as Vx. pose proof (Prim2SF_valid g) as Vg.
  rewrite Hg in Vg. unfold upto.
  destruct (Prim2SF x) as [sx | [] | | [] m e]; try discriminate; [exact I |].
  apply SFleb_finite_iff; assumption.
Qed.

Lemma leb_of_upto (v : Z) (x g : float) (mg : positive) (eg : Z) :
  Prim2SF g = S754_finite false mg eg ->
  v <= scaled (Z.pos mg) eg -> upto v x ->
  PrimFloat.leb 0%float x = true /\ PrimFloat.leb x g = true.
Proof.
  intros Hg Hv Hx. rewrite !leb_spec, Hg.
  change (Prim2SF 0%float) with (S754_zero false).
  pose proof (Prim2SF_valid x) as Vx. pose proof (Prim2SF_valid g) as Vg.
  rewrite Hg in Vg. unfold upto in Hx.
  destruct (Prim2SF x) as [sx | [] | | [] m e]; try contradiction.
  - split; reflexivity.
  - split; [reflexivity |]. apply SFleb_finite_iff; try assumption. lia.
Qed.

(** The conversion of a positive integer below 2^53 has its value. *)
Lemma Z2float_scaled (k : Z) :
  0 < k < 2 ^ 53 ->
  exists (mk : positive) (ek : Z),
    Prim2SF (Z2float k) = S754_finite false mk ek /\
    scaled (Z.pos mk) ek = k * 2 ^ 2200.
Proof.
  intros Hk. destruct k as [| p | p]; try lia.
  destruct (Z2float_pos_spec p ltac:(lia)) as (m & Hf & Hv & Hd).
  exists m, (Z.pos (digits2_pos p) - 53). split; [exact Hf |].
  pose proof (digits2_pos_bounds p) as [Blo Bhi].
  set (d := Z.pos (digits2_pos p)) in *.
  assert (Hd1 : 1 <= d) by (subst d; lia).
  assert (Hd53 : d <= 53).
  { destruct (Z.le_gt_cases d 53) as [H | H]; [exact H |].
    assert (2 ^ 53 <= 2 ^ (d - 1)) by (apply Z.pow_le_mono_r; lia). lia. }
  unfold scaled. rewrite Hv, <- Z.mul_assoc, <- Z.pow_add_r by lia.
  do 2 f_equal. lia.
Qed.

(** The value of 1.0. *)
Lemma one_scaled : scaled (Z.pos (2 ^ 52)) (-52) = 2 ^ 2200.
Proof. reflexivity. Qed.

(** Aligning a mantissa to a smaller exponent keeps the value. *)
Lemma shl_align_spec (mx : positive) (ex ez : Z) :
  snd (shl_align mx ex ez) = Z.min ex ez /\
  Z.pos (fst (shl_align mx ex ez)) = Z.pos mx * 2 ^ (ex - Z.min ex ez).
Proof.
  unfold shl_align. destruct (ez - ex) as [| d | d] eqn:Hd; cbn [fst snd].
  - rewrite Z.min_l by lia. rewrite Z.sub_diag. split; lia.
  - rewrite Z.min_l by lia. rewrite Z.sub_diag. split; lia.
  - rewrite Z.min_r by lia. rewrite iter_xO_pow. split; [reflexivity |].
    do 2 f_equal. lia.
Qed.

Lemma Zdigits2_shift (m k : Z) :
  0 < m -> 0 <= k -> Zdigits2 (m * 2 ^ k) = Zdigits2 m + k.
Proof.
  intros Hm Hk. pose proof (pow2_pos k Hk) as HP.
  destruct (Zdigits2_bounds m ltac:(lia)) as [[H _] | (_ & HD & Hlo & Hhi)]; [lia |].
  apply Zdigits2_unique; [| lia].
  replace (Zdigits2 m + k - 1) with (Zdigits2 m - 1 + k) by lia.
  rewrite !Z.pow_add_r by lia. split.
  - apply Z.mul_le_mono_nonneg_r; lia.
  - apply Z.mul_lt_mono_pos_r; lia.
Qed.

Lemma scaled_le_of_cmp (m mg : positive) (e eg : Z) :
  valid_binary (S754_finite false m e) = true ->
  valid_binary (S754_finite false mg eg) = true ->
  e < eg \/ (e = eg /\ Z.pos m <= Z.pos mg) ->
  scaled (Z.pos m) e <= scaled (Z.pos mg) eg.
Proof.
  intros V Vg H.
  destruct (valid_finite _ _ _ V) as (He & Hm & _).
  destruct (valid_finite _ _ _ Vg) as (Heg & _ & Hmg).
  destruct H as [H | [-> H]].
  - apply Z.lt_le_incl, scaled_lt_exp; lia.
  - apply scaled_le_same; lia.
Qed.

(** Rounding a positive number that is at most a representable one. *)
Lemma binary_round_le (mz : positive) (ez : Z) (mg : positive) (eg : Z) :
  -2200 <= ez ->
  valid_binary (S754_finite false mg eg) = true ->
  scaled (Z.pos mz) ez <= scaled (Z.pos mg) eg ->
  binary_round prec emax false mz ez = S754_zero false \/
  exists (m : positive) (e : Z),
    binary_round prec emax false mz ez = S754_finite false m e /\
    (e < eg \/ (e = eg /\ Z.pos m <= Z.pos mg)).
Proof.
  intros Hez Vg Hle. unfold binary_round.
  pose proof (fexp_max (Z.pos (digits2_pos mz) + ez)) as HF.
  set (F := fexp prec emax (Z.pos (digits2_pos mz) + ez)) in *.
  destruct (shl_align_spec mz ez F) as [Hs Hf].
  destruct (shl_align mz ez F) as [mz' ez']. cbn [fst snd] in Hs, Hf.
  assert (Hd : Zdigits2 (Z.pos mz') + ez' = Z.pos (digits2_pos mz) + ez).
  { rewrite Hf, Zdigits2_shift by lia. cbn [Zdigits2]. lia. }
  apply round_aux_le.
  - lia.
  - lia.
  - rewrite Hd. fold F. lia.
  - exact Vg.
  - replace (scaled (Z.pos mz') ez') with (scaled (Z.pos mz) ez); [exact Hle |].
    unfold scaled. rewrite Hf, <- Z.mul_assoc, <- Z.pow_add_r by lia.
    do 2 f_equal. lia.
  - intros H. contradiction H. reflexivity.
Qed.

(** The sum of two numbers in range, when a representable number lies
    above the sum of their bounds. *)
Lemma upto_add (u v : Z) (x y g : float) (mg : positive) (eg : Z) :
  Prim2SF g = S754_finite false mg eg ->
  0 <= u -> 0 <= v -> u + v <= scaled (Z.pos mg) eg ->
  upto u x -> upto v y -> upto (scaled (Z.pos mg) eg) (x + y).
Proof.
  intros Hg Hu Hv Huv Hx Hy.
  pose proof (Prim2SF_valid (x + y)) as Vr.
  pose proof (Prim2SF_valid x) as Vx. pose proof (Prim2SF_valid y) as Vy.
  pose proof (Prim2SF_valid g) as Vg. rewrite Hg in Vg.
  unfold upto in *. rewrite add_spec in *.
  destruct (Prim2SF x) as [sx | [] | | [] mx ex]; try contradiction;
    destruct (Prim2SF y) as [sy | [] | | [] my ey]; try contradiction.
  - destruct sx, sy; exact I.
  - change (SF64add (S754_zero sx) (S754_finite false my ey))
      with (S754_finite false my ey). cbv iota. lia.
  - change (SF64add (S754_finite false mx ex) (S754_zero sy))
      with (S754_finite false mx ex). cbv iota. lia.
  - destruct (valid_finite _ _ _ Vx) as (Hex & _ & _).
    destruct (valid_finite _ _ _ Vy) as (Hey & _ & _).
    unfold SF64add, SFadd in *. cbn [cond_Zopp] in *.
    destruct (shl_align_spec mx ex (Z.min ex ey)) as [_ Hax].
    destruct (shl_align_spec my ey (Z.min ex ey)) as [_ Hay].
    set (ax := fst (shl_align mx ex (Z.min ex ey))) in *.
    set (ay := fst (shl_align my ey (Z.min ex ey))) in *.
    change (Z.pos ax + Z.pos ay) with (Z.pos (ax + ay)) in *.
    cbn [binary_normalize] in *.
    assert (Hsum : scaled (Z.pos (ax + ay)) (Z.min ex ey) =
                   scaled (Z.pos mx) ex + scaled (Z.pos my) ey).
    { rewrite Pos2Z.inj_add, Hax, Hay. unfold scaled.
      rewrite Z.mul_add_distr_r, <- !Z.mul_assoc, <- !Z.pow_add_r by lia.
      f_equal; do 2 f_equal; lia. }
    destruct (binary_round_le (ax + ay) (Z.min ex ey) mg eg ltac:(lia) Vg
                ltac:(lia)) as [Hz | (m & e & Hr & Hcmp)].
    + rewrite Hz. exact I.
    + rewrite Hr in *. apply scaled_le_of_cmp; assumption.
Qed.

Lemma Zdigits2_nonneg (m : Z) : 0 <= m -> 0 <= Zdigits2 m.
Proof.
  intros H. destruct (Zdigits2_bounds m H) as [[_ ->] | (_ & H1 & _)]; lia.
Qed.

(** A number of at least [t] bits. *)
Lemma Zdigits2_lower (q t : Z) : 0 <= q -> (1 <= t -> 2 ^ (t - 1) <= q) -> t <= Zdigits2 q.
Proof.
  intros Hq Ht. pose proof (Zdigits2_nonneg q Hq) as Hd.
  destruct (Z.le_gt_cases t (Zdigits2 q)) as [H | H]; [exact H | exfalso].
  specialize (Ht ltac:(lia)).
  destruct (Zdigits2_bounds q Hq) as [[H0 _] | (_ & _ & _ & Hhi)].
  - pose proof (pow2_pos (t - 1) ltac:(lia)). lia.
  - assert (2 ^ Zdigits2 q <= 2 ^ (t - 1)) by (apply Z.pow_le_mono_r; lia). lia.
Qed.

(** The quotient of a number in range by its bound is at most 1. *)
Lemma upto_div (s g : float) (mn : positive) (en : Z) :
  Prim2SF g = S754_finite false mn en ->
  upto (scaled (Z.pos mn) en) s ->
  upto (2 ^ 2200) (s / g).
Proof.
  intros Hg Hs.
  pose proof (Prim2SF_valid (s / g)) as Vr.
  pose proof (Prim2SF_valid s) as Vs.
  pose proof (Prim2SF_valid g) as Vg. rewrite Hg in Vg.
  unfold upto in *. rewrite div_spec in *. rewrite Hg in *.
  destruct (Prim2SF s) as [sx | [] | | [] ms es]; try contradiction.
  - exact I.
  - destruct (valid_finite _ _ _ Vs) as (Hes & Hms & Hms').
    destruct (valid_finite _ _ _ Vg) as (Hen & Hmn & Hmn').
    assert (Hee : es <= en).
    { destruct (Z.le_gt_cases es en) as [H | H]; [exact H | exfalso].
      pose proof (scaled_lt_exp (Z.pos mn) (Z.pos ms) en es ltac:(lia) ltac:(lia)
                    ltac:(apply Hms'; lia) H). lia. }
    unfold SF64div, SFdiv, SFdiv_core_binary in *. cbn [xorb] in *.
    set (d1 := Zdigits2 (Z.pos ms)) in *. set (d2 := Zdigits2 (Z.pos mn)) in *.
    pose proof (fexp_max (d1 + es - (d2 + en))) as HF.
    set (F := fexp prec emax (d1 + es - (d2 + en))) in *.
    set (e' := Z.min F (es - en)) in *.
    set (sh := es - en - e') in *.
    assert (Hsh : 0 <= sh) by (subst sh e'; lia).
    assert (He' : -2200 <= e' <= 0) by (subst e'; lia).
    set (m' := match sh with
               | 0 => Z.pos ms
               | Z.pos _ => Z.shiftl (Z.pos ms) sh
               | Z.neg _ => 0
               end) in *.
    assert (Hm' : m' = Z.pos ms * 2 ^ sh).
    { subst m'. destruct sh as [| p | p] eqn:Hp; [simpl; lia | | lia].
      apply Z.shiftl_mul_pow2. lia. }
    clearbody m'.
    rewrite div_eucl_div_mod in *.
    set (q := m' / Z.pos mn) in *. set (r := m' mod Z.pos mn) in *.
    pose proof (Z.div_mod m' (Z.pos mn) ltac:(lia)) as Hdiv. fold q r in Hdiv.
    pose proof (Z.mod_pos_bound m' (Z.pos mn) ltac:(lia)) as Hr. fold r in Hr.
    pose proof (pow2_pos sh Hsh) as HPs.
    assert (Hq : 0 <= q) by (subst q; apply Z.div_pos; lia).
    (* the bounds of the digits *)
    destruct (Zdigits2_bounds (Z.pos ms) ltac:(lia)) as [[H0 _] | (_ & Hd1 & Hlo1 & Hhi1)];
      [lia |].
    destruct (Zdigits2_bounds (Z.pos mn) ltac:(lia)) as [[H0 _] | (_ & Hd2 & Hlo2 & Hhi2)];
      [lia |].
    fold d1 in Hd1, Hlo1, Hhi1. fold d2 in Hd2, Hlo2, Hhi2.
    assert (Hdq : d1 + sh - d2 <= Zdigits2 q).
    { apply Zdigits2_lower; [exact Hq |]. intros Ht.
      subst q. apply Z.div_le_lower_bound; [lia |].
      rewrite Hm'.
      assert (E : 2 ^ (d1 - 1) * 2 ^ sh = 2 ^ d2 * 2 ^ (d1 + sh - d2 - 1))
        by (rewrite <- !Z.pow_add_r by lia; f_equal; lia).
      pose proof (pow2_pos (d1 + sh - d2 - 1) ltac:(lia)) as HT.
      assert (Z.pos mn * 2 ^ (d1 + sh - d2 - 1) <= 2 ^ d2 * 2 ^ (d1 + sh - d2 - 1))
        by (apply Z.mul_le_mono_nonneg_r; lia).
      assert (2 ^ (d1 - 1) * 2 ^ sh <= Z.pos ms * 2 ^ sh)
        by (apply Z.mul_le_mono_nonneg_r; lia).
      lia. }
    (* the quotient against 1 *)
    pose proof (pow2_pos (e' + 2200) ltac:(lia)) as HPe.
    pose proof (pow2_pos (en + 2200) ltac:(lia)) as HPn.
    assert (E1 : 2 ^ sh * 2 ^ (e' + 2200) * 2 ^ (en + 2200) =
                 2 ^ (es + 2200) * 2 ^ 2200)
      by (rewrite <- !Z.pow_add_r by lia; f_equal; lia).
    assert (E2 : 2 ^ 2200 = 2 ^ (- e') * 2 ^ (e' + 2200))
      by (rewrite <- Z.pow_add_r by lia; f_equal; lia).
    unfold scaled in Hs.
    set (Pe := 2 ^ (e' + 2200)) in *. set (Pn := 2 ^ (en + 2200)) in *.
    set (Ps := 2 ^ sh) in *. set (Px := 2 ^ (es + 2200)) in *.
    set (K := 2 ^ 2200) in *.
    assert (HK : 0 < K) by (subst K; apply pow2_pos; lia).
    assert (Hmain : q * Z.pos mn * Pe * Pn <= Z.pos mn * Pn * K).
    { assert (q * Z.pos mn <= Z.pos ms * Ps) by lia.
      assert (q * Z.pos mn * (Pe * Pn) <= Z.pos ms * Ps * (Pe * Pn))
        by (apply Z.mul_le_mono_nonneg_r; nia).
      assert (Z.pos ms * Px * K <= Z.pos mn * Pn * K)
        by (apply Z.mul_le_mono_nonneg_r; lia).
      replace (Z.pos ms * Ps * (Pe * Pn)) with (Z.pos ms * (Ps * Pe * Pn)) in * by ring.
      rewrite E1 in *. lia. }
    assert (Hqle : q * Pe <= K).
    { apply (Z.mul_le_mono_pos_r _ _ (Z.pos mn * Pn)); [nia |].
      replace (q * Pe * (Z.pos mn * Pn)) with (q * Z.pos mn * Pe * Pn) by ring.
      replace (K * (Z.pos mn * Pn)) with (Z.pos mn * Pn * K) by ring. exact Hmain. }
    assert (Hqlt : r <> 0 -> (q + 1) * Pe <= K).
    { intros Hr0.
      assert (Hstrict : q * Pe < K).
      { apply (Z.mul_lt_mono_pos_r (Z.pos mn * Pn)); [nia |].
        assert (q * Z.pos mn < Z.pos ms * Ps) by lia.
        assert (q * Z.pos mn * (Pe * Pn) < Z.pos ms * Ps * (Pe * Pn))
          by (apply Z.mul_lt_mono_pos_r; nia).
        assert (Z.pos ms * Px * K <= Z.pos mn * Pn * K)
          by (apply Z.mul_le_mono_nonneg_r; lia).
        replace (Z.pos ms * Ps * (Pe * Pn)) with (Z.pos ms * (Ps * Pe * Pn)) in * by ring.
        rewrite E1 in *.
        replace (q * Pe * (Z.pos mn * Pn)) with (q * Z.pos mn * (Pe * Pn)) by ring.
        replace (K * (Z.pos mn * Pn)) with (Z.pos mn * Pn * K) by ring. lia. }
      rewrite E2 in Hstrict |- *.
      pose proof (pow2_pos (- e') ltac:(lia)) as HPm.
      assert (q < 2 ^ (- e')) by (apply (Z.mul_lt_mono_pos_r Pe); assumption).
      apply Z.mul_le_mono_nonneg_r; lia. }
    destruct (round_aux_le q e' (new_location (Z.pos mn) r) (2 ^ 52)%positive (-52))
      as [Hz | (m & e & Hres & Hcmp)].
    + exact Hq.
    + lia.
    + rewrite (fexp_max (Zdigits2 q + e')). subst e' sh. lia.
    + reflexivity.
    + rewrite one_scaled. unfold scaled. exact Hqle.
    + intros Hl. rewrite one_scaled. unfold scaled. apply Hqlt.
      intros Hr0. apply Hl. rewrite Hr0. apply new_location_0.
    + rewrite Hz. exact I.
    + rewrite Hres in *. subst K. rewrite <- one_scaled.
      apply scaled_le_of_cmp; [exact Vr | reflexivity | exact Hcmp].
Qed.

(** *** The accuracies of an epoch and of a run *)

(** The unit interval, as a range of values. *)
Lemma upto_of_in_unit (a : float) : in_unit a -> upto (2 ^ 2200) a.
Proof.
  intros [H0 H1]. rewrite <- one_scaled.
  apply (upto_of_leb a 1%float); [reflexivity | exact H0 | exact H1].
Qed.

Lemma in_unit_of_upto (a : float) : upto (2 ^ 2200) a -> in_unit a.
Proof.
  intros H. apply (leb_of_upto (2 ^ 2200) a 1%float (2 ^ 52)%positive (-52));
    [reflexivity | rewrite one_scaled; lia | exact H].
Qed.

(** A number in range of an integer compares with its conversion. *)
Lemma leb_Z2float_of_upto (k : Z) (x : float) :
  0 <= k < 2 ^ 53 -> upto (k * 2 ^ 2200) x ->
  PrimFloat.leb 0%float x = true /\ PrimFloat.leb x (Z2float k) = true.
Proof.
  intros Hk Hx. destruct (Z.eq_dec k 0) as [-> | Hnz].
  - rewrite !leb_spec.
    change (Prim2SF (Z2float 0)) with (S754_zero false).
    change (Prim2SF 0%float) with (S754_zero false).
    pose proof (Prim2SF_valid x) as Vx. unfold upto in Hx.
    destruct (Prim2SF x) as [sx | [] | | [] m e]; try contradiction.
    + split; reflexivity.
    + destruct (valid_finite _ _ _ Vx) as (He & _).
      pose proof (scaled_pos m e ltac:(lia)). lia.
  - destruct (Z2float_scaled k ltac:(lia)) as (mk & ek & Hf & Hv).
    apply (leb_of_upto (k * 2 ^ 2200) x (Z2float k) mk ek); [exact Hf | lia | exact Hx].
Qed.

(** The sum of [n] numbers of the unit interval, added to a number of
    at most [k], is at most [k + n]: no rounding takes it further. *)
Lemma fold_add_upto (accs : list float) :
  Forall in_unit accs ->
  forall (acc : float) (k : Z),
    0 <= k -> k + len accs < 2 ^ 53 -> upto (k * 2 ^ 2200) acc ->
    upto ((k + len accs) * 2 ^ 2200) (fold_left PrimFloat.add accs acc).
Proof.
  induction 1 as [| a accs Ha _ IH]; intros acc k Hk Hlen Hacc.
  - change (len (@nil float)) with 0. rewrite Z.add_0_r. exact Hacc.
  - assert (Hl : len (a :: accs) = 1 + len accs)
      by (unfold len; cbn [List.length]; lia).
    pose proof (len_nonneg accs) as Hn.
    rewrite Hl in *. cbn [fold_left].
    replace (k + (1 + len accs)) with (k + 1 + len accs) by lia.
    apply IH; [lia | lia |].
    destruct (Z2float_scaled (k + 1) ltac:(lia)) as (mk & ek & Hf & Hv).
    rewrite <- Hv.
    assert (HK : 0 < 2 ^ 2200) by (apply pow2_pos; lia).
    apply (upto_add (k * 2 ^ 2200) (2 ^ 2200) acc a (Z2float (k + 1)));
      [exact Hf | nia | lia | rewrite Hv; lia | exact Hacc |
       apply upto_of_in_unit; exact Ha].
Qed.

Section UnitInterval.
Context `{T : Torch}.

(** The total accuracy of an epoch over well-shaped batches is at most
    the number of batches. *)
Lemma epoch_accuracy_upto (dl : DataLoader) (device : Device) (w w' : World)
    (tl ta : float) :
  Forall (well_shaped device) dl -> len dl < 2 ^ 53 ->
  train_epoch dl device w = (Ok (tl, ta), w') \/
  validate_epoch dl device w = (Ok (tl, ta), w') ->
  upto (len dl * 2 ^ 2200) ta.
Proof.
  intros Hshape Hlen H.
  destruct (epoch_sums _ _ _ _ _ _ H) as (ms & Hall & _ & Hta).
  assert (Hunit : Forall in_unit (map snd ms)).
  { clear Hta H Hlen. induction Hall as [| b m dl ms (w1 & w2 & Hb) Hall IH]; simpl.
    - constructor.
    - inversion Hshape as [| b' dl' [Hsize Hpred] Hshape']; subst.
      constructor; [| apply IH; exact Hshape'].
      destruct m as [l a]. cbn [snd].
      assert (Hp : exists wav out prediction,
                 wav_to (fst b) device = Ok wav /\
                 fst (forward (params w1) (buffers w1) (training w1) (grad_enabled w1) wav)
                   = Ok out /\
                 argmax1 out = Ok prediction /\
                 batch_accuracy prediction (snd b) = Ok a).
      { destruct Hb as [Hb | Hb];
          [eapply train_batch_prediction | eapply validate_batch_prediction]; exact Hb. }
      destruct Hp as (wav & out & prediction & Hw & Hf & Hp & Hacc).
      pose proof (Hpred _ _ _ _ _ _ _ Hw Hf Hp) as Hsame.
      destruct (batch_accuracy_is_fraction _ _ _ Hsame Hacc) as (_ & _ & _ & _ & Hin).
      apply Hin. lia. }
  assert (Hms : len (map snd ms) = len dl).
  { unfold len. rewrite length_map. f_equal. symmetry.
    eapply Forall2_length. exact Hall. }
  rewrite Hta. rewrite <- Hms.
  replace (len (map snd ms)) with (0 + len (map snd ms)) by lia.
  apply fold_add_upto; [exact Hunit | lia | lia | exact I].
Qed.

(** The mean of lines 38 and 49 over well-shaped batches. *)
Lemma epoch_mean_in_unit (dl : DataLoader) (device : Device) (w w' : World)
    (tl ta : float) :
  Forall (well_shaped device) dl -> len dl < 2 ^ 53 -> len dl <> 0 ->
  train_epoch dl device w = (Ok (tl, ta), w') \/
  validate_epoch dl device w = (Ok (tl, ta), w') ->
  in_unit (PrimFloat.div ta (Z2float (len dl))).
Proof.
  intros Hshape Hlen Hnz H.
  pose proof (epoch_accuracy_upto _ _ _ _ _ _ Hshape Hlen H) as Hup.
  pose proof (len_nonneg dl) as Hn.
  destruct (Z2float_scaled (len dl) ltac:(lia)) as (mk & ek & Hf & Hv).
  apply in_unit_of_upto. apply (upto_div ta (Z2float (len dl)) mk ek Hf).
  rewrite Hv. exact Hup.
Qed.

(** X11. Rounding never takes an accuracy out of range.  Over batches
    for which the model predicts one class per entry of the target
    (fewer than 2^53 entries a batch, fewer than 2^53 batches), the
    total accuracy that [train_epoch] and [validate_epoch] return lies
    between 0.0 and the number of batches, and the mean that lines 38
    and 49 make of it, dividing by [len] of the dataloader, lies
    between 0.0 and 1.0: each of the binary64 additions and the
    division rounds to nearest, and none of them passes the bound. *)
Theorem mean_accuracy_in_unit (dl : DataLoader) (device : Device) (w w' : World)
    (tl ta : float) :
  Forall (well_shaped device) dl -> len dl < 2 ^ 53 ->
  train_epoch dl device w = (Ok (tl, ta), w') \/
  validate_epoch dl device w = (Ok (tl, ta), w') ->
  PrimFloat.leb 0%float ta = true /\
  PrimFloat.leb ta (Z2float (len dl)) = true /\
  (dl <> [] ->
   exists x, float_div_int ta (len dl) = Ok x /\ in_unit x).
Proof.
  intros Hshape Hlen H.
  pose proof (epoch_accuracy_upto _ _ _ _ _ _ Hshape Hlen H) as Hup.
  pose proof (len_nonneg dl) as Hn.
  destruct (leb_Z2float_of_upto (len dl) ta ltac:(lia) Hup) as [H0 H1].
  split; [exact H0 | split; [exact H1 |]].
  intros Hne.
  assert (Hpos : 0 < len dl).
  { destruct dl; [contradiction Hne; reflexivity |].
    unfold len. cbn [List.length]. lia. }
  unfold float_div_int. rewrite (proj2 (Z.eqb_neq _ _)) by lia.
  eexists. split; [reflexivity |].
  apply (epoch_mean_in_unit dl device w w' tl ta); try assumption. lia.
Qed.

(** One epoch of [train] keeps the recorded accuracies in the unit
    interval. *)
Lemma train_iteration_in_unit (dl : DataLoader) (device : Device) (epochs : Z)
    (tdl : option DataLoader) (log0 : list (list (string * float)))
    (i : Z) (w w' : World) :
  Forall (well_shaped device) dl -> len dl < 2 ^ 53 ->
  (forall d, tdl = Some d -> Forall (well_shaped device) d /\ len d < 2 ^ 53) ->
  recorded log0 tdl i w ->
  Forall in_unit (training_acc w) /\ Forall in_unit (testing_acc w) ->
  train_iteration dl device epochs tdl i w = (Ok tt, w') ->
  Forall in_unit (training_acc w') /\ Forall in_unit (testing_acc w').
Proof.
  intros Hshape Hlen Htest (new & _ & _ & _ & _ & _ & Ltl & Lta & Lvl & Lva & _)
         [Itr Ite] H.
  apply train_iteration_inv in H; [| exact Ltl | exact Lta |
    intros Htr; rewrite Htr in Lvl, Lva; split; assumption].
  destruct H as [(e & He & _) | (tl & ta & w2 & Hep & Hnz & H)]; [discriminate He |].
  pose proof (epoch_mean_in_unit _ _ _ _ _ _ Hshape Hlen Hnz (or_introl Hep)) as Hy.
  pose proof (train_epoch_same_records dl device
                (add_line (EpochLine (i + 1) epochs) w)) as Hsame.
  rewrite Hep in Hsame. destruct Hsame as (Sta & _ & Sva & _). simpl in Sta, Sva.
  set (x := PrimFloat.div tl (Z2float (len dl))) in *.
  set (y := PrimFloat.div ta (Z2float (len dl))) in *.
  destruct H as [(_ & _ & ->) | [(_ & e & He & _) | (d & vl & va & w5 & -> & Hd & _ & Hval & ->)]].
  - simpl. rewrite Sta, Sva. split; [| exact Ite].
    apply Forall_app. split; [exact Itr | constructor; [exact Hy | constructor]].
  - discriminate He.
  - destruct (Htest d eq_refl) as [Hshape' Hlen'].
    pose proof (epoch_mean_in_unit _ _ _ _ _ _ Hshape' Hlen' Hd (or_intror Hval)) as Hy'.
    pose proof (validate_epoch_same_records d device (after_training_metrics x y w2))
      as Hsame.
    rewrite Hval in Hsame. destruct Hsame as (Vta & _ & Vva & _). simpl in Vta, Vva.
    simpl. rewrite Vta, Vva, Sta, Sva. split.
    + apply Forall_app. split; [exact Itr | constructor; [exact Hy | constructor]].
    + apply Forall_app. split; [exact Ite | constructor; [exact Hy' | constructor]].
Qed.

(** So does the loop over the epochs. *)
Lemma epochs_loop_in_unit (dl : DataLoader) (device : Device) (epochs : Z)
    (tdl : option DataLoader) (log0 : list (list (string * float))) (n : nat) :
  Forall (well_shaped device) dl -> len dl < 2 ^ 53 ->
  (forall d, tdl = Some d -> Forall (well_shaped device) d /\ len d < 2 ^ 53) ->
  forall w w',
    recorded log0 tdl 0 w ->
    Forall in_unit (training_acc w) /\ Forall in_unit (testing_acc w) ->
    epochs_loop dl device epochs tdl (range (Z.of_nat n)) w = (Ok tt, w') ->
    Forall in_unit (training_acc w') /\ Forall in_unit (testing_acc w').
Proof.
  intros Hshape Hlen Htest.
  induction n as [| n IH]; intros w w' Hrec Hin Hrun.
  - unfold epochs_loop in Hrun. simpl in Hrun. inversion Hrun; subst w'. exact Hin.
  - pose proof Hrun as Hrun'. unfold epochs_loop in Hrun'.
    replace (Z.of_nat (S n)) with (Z.of_nat n + 1) in Hrun' by lia.
    rewrite range_succ, for_each_app in Hrun' by lia.
    destruct (for_each _ (range (Z.of_nat n)) tt w) as [[[] | e] w1] eqn:Hpre;
      [| discriminate Hrun'].
    destruct (epochs_loop_ok dl device epochs tdl log0 n w w1 Hrec Hpre) as (Hrec1 & _).
    pose proof (IH w w1 Hrec Hin Hpre) as Hin1.
    simpl in Hrun'. apply bind_inv_ok in Hrun'.
    destruct Hrun' as ([] & w2 & Hit & Hret). inversion Hret; subst w'.
    eapply train_iteration_in_unit; eassumption.
Qed.

(** X12. Every accuracy that a run of [train] records lies between 0.0
    and 1.0: when the batches of the training dataloader, and of the
    validation dataloader if one is passed, are such that the model
    predicts one class per entry of the target (fewer than 2^53
    entries a batch, fewer than 2^53 batches), every entry of the
    training and of the testing accuracies in the history that [train]
    returns is a binary64 number in [0, 1]. *)
Theorem recorded_accuracies_in_unit (dl : DataLoader) (device : Device) (epochs : Z)
    (tdl : option DataLoader) (w w' : World) (h : History) :
  Forall (well_shaped device) dl -> len dl < 2 ^ 53 ->
  (forall d, tdl = Some d -> Forall (well_shaped device) d /\ len d < 2 ^ 53) ->
  train dl device epochs tdl w = (Ok h, w') ->
  Forall in_unit (fst (fst (fst h))) /\ Forall in_unit (snd (fst h)).
Proof.
  intros Hshape Hlen Htest H. unfold train in H.
  apply bind_inv_ok in H. destruct H as ([] & w1 & Hinit & H).
  inversion Hinit; subst w1; clear Hinit.
  apply bind_inv_ok in H. destruct H as ([] & w2 & Hloop & H).
  apply bind_inv_ok in H. destruct H as ([] & w3 & Hprint & H).
  inversion Hprint; subst w3; clear Hprint.
  inversion H; subst; clear H. cbn [fst snd].
  rewrite range_to_nat in Hloop.
  apply (epochs_loop_in_unit dl device epochs tdl (wandb_log w) (Z.to_nat epochs)
           Hshape Hlen Htest _ _ (recorded_start tdl w)) in Hloop.
  - exact Hloop.
  - split; constructor.
Qed.

End UnitInterval.

(** * The properties on the concrete instance *)

Lemma four_batches_sums_and_means_witness :
  train_batch cpu batch1 (set_training true epoch1_start)
    = (Ok (1%float, 1%float), after_batches 1) /\
  train_batch cpu batch2 (after_batches 1) = (Ok (2%float, 0.5%float), after_batches 2) /\
  train_batch cpu batch3 (after_batches 2) = (Ok (3%float, 0.5%float), after_batches 3) /\
  train_batch cpu batch4 (after_batches 3) = (Ok (4%float, 0%float), after_batches 4) /\
  train_epoch four_batches cpu epoch1_start = (Ok (10%float, 2%float), after_batches 4) /\
  exists w',
    train four_batches cpu 1 None world0 = (Ok ([0.5%float], [2.5%float], [], []), w') /\
    training_loss w' = [2.5%float] /\
    training_acc w' = [0.5%float] /\
    wandb_log w' = wandb_log world0 ++
      [[("training_loss"%string, 2.5%float); ("training_acc"%string, 0.5%float)]].
Proof.
  assert (H1 : train_batch cpu batch1 (set_training true epoch1_start)
               = (Ok (1%float, 1%float), after_batches 1))
    by (vm_compute; reflexivity).
  assert (H2 : train_batch cpu batch2 (after_batches 1)
               = (Ok (2%float, 0.5%float), after_batches 2))
    by (vm_compute; reflexivity).
  assert (H3 : train_batch cpu batch3 (after_batches 2)
               = (Ok (3%float, 0.5%float), after_batches 3))
    by (vm_compute; reflexivity).
  assert (H4 : train_batch cpu batch4 (after_batches 3)
               = (Ok (4%float, 0%float), after_batches 4))
    by (vm_compute; reflexivity).
  repeat (split; [assumption |]).
  exact (@four_batches_sums_and_means scenario cpu batch1 batch2 batch3 batch4
           world0 _ _ _ _ H1 H2 H3 H4).
Defined.

(** The first series returned is the accuracies, whereas the
    specification reads it as the losses. *)
Lemma train_history_order_counterexample :
  let r := train four_batches cpu 1 None world0 in
  fst r = Ok ([0.5%float], [2.5%float], [], []) /\
  logged "training_loss" (wandb_log (snd r)) = [2.5%float] /\
  ~ history_in_spec_order ([0.5%float], [2.5%float], [], []) (wandb_log (snd r)).
Proof.
  split; [vm_compute; reflexivity | split; [vm_compute; reflexivity |]].
  intros H. unfold history_in_spec_order in H.
  apply (f_equal (fun h : History =>
                    PrimFloat.eqb (hd 0%float (fst (fst (fst h)))) 0.5%float)) in H.
  vm_compute in H. discriminate H.
Qed.

Lemma train_returns_four_series_witness :
  train four_batches cpu 2 (Some four_batches) world0
    = (Ok ([0.5%float; 0.5%float], [2.5%float; 2.5%float],
           [0.5%float; 0.5%float], [2.5%float; 2.5%float]),
       snd (train four_batches cpu 2 (Some four_batches) world0)) /\
  exists new : list (list (string * float)),
    wandb_log (snd (train four_batches cpu 2 (Some four_batches) world0))
      = wandb_log world0 ++ new /\
    ([0.5%float; 0.5%float], [2.5%float; 2.5%float],
     [0.5%float; 0.5%float], [2.5%float; 2.5%float])
      = (logged "training_acc" new, logged "training_loss" new,
         logged "testing_acc" new, logged "testing_loss" new) /\
    len (logged "training_acc" new) = Z.max 0 2 /\
    len (logged "training_loss" new) = Z.max 0 2 /\
    len (logged "testing_acc" new)
      = (if truthy (Some four_batches) then Z.max 0 2 else 0) /\
    len (logged "testing_loss" new)
      = (if truthy (Some four_batches) then Z.max 0 2 else 0).
Proof.
  assert (H : train four_batches cpu 2 (Some four_batches) world0
              = (Ok ([0.5%float; 0.5%float], [2.5%float; 2.5%float],
                     [0.5%float; 0.5%float], [2.5%float; 2.5%float]),
                 snd (train four_batches cpu 2 (Some four_batches) world0)))
    by (vm_compute; reflexivity).
  split; [exact H |].
  exact (@train_returns_four_series scenario four_batches cpu 2 (Some four_batches)
           world0 _ _ H).
Defined.

(** A validation dataloader is passed, and yet the testing series are
    empty after one epoch: it has no batches. *)
Lemma supplied_empty_validation_counterexample :
  let r := train four_batches cpu 1 (Some []) world0 in
  fst r = Ok ([0.5%float], [2.5%float], [], []) /\
  ~ lengths_in_spec (T := scenario) 1 (Some []) ([0.5%float], [2.5%float], [], []).
Proof.
  split; [vm_compute; reflexivity |].
  intros (_ & _ & Hiff).
  assert (Hsupplied : Some ([] : @DataLoader scenario) <> None) by discriminate.
  apply Hiff in Hsupplied. destruct Hsupplied as [Hlen _].
  discriminate Hlen.
Qed.

Lemma train_history_lengths_witness :
  0 <= 2 /\
  train four_batches cpu 2 (Some four_batches) world0
    = (Ok ([0.5%float; 0.5%float], [2.5%float; 2.5%float],
           [0.5%float; 0.5%float], [2.5%float; 2.5%float]),
       snd (train four_batches cpu 2 (Some four_batches) world0)) /\
  len [0.5%float; 0.5%float] = 2 /\
  len [2.5%float; 2.5%float] = 2.
Proof.
  assert (HE : 0 <= 2) by lia.
  assert (H : train four_batches cpu 2 (Some four_batches) world0
              = (Ok ([0.5%float; 0.5%float], [2.5%float; 2.5%float],
                     [0.5%float; 0.5%float], [2.5%float; 2.5%float]),
                 snd (train four_batches cpu 2 (Some four_batches) world0)))
    by (vm_compute; reflexivity).
  split; [exact HE | split; [exact H |]].
  destruct (@train_history_lengths scenario four_batches cpu 2 (Some four_batches)
              world0 _ _ _ _ _ HE H) as [(L1 & L2 & _) _].
  split; [exact L1 | exact L2].
Defined.

(** Without the same shape the bound is lost: a one-element prediction
    is compared with every element of the target, and the count is
    divided by 1. *)
Example broadcast_exceeds_one :
  batch_accuracy [1] [1; 1; 1] = Ok 3%float.
Proof. vm_compute. reflexivity. Qed.

Lemma total_accuracy_is_sum_of_fractions_witness :
  train_epoch four_batches cpu epoch1_start = (Ok (10%float, 2%float), after_batches 4) /\
  exists fractions : list float,
    len fractions = len four_batches /\
    2%float = fold_left PrimFloat.add fractions 0%float /\
    (forall pre b post, four_batches = pre ++ b :: post ->
       exists a,
         nth_error fractions (List.length pre) = Some a /\
         batch_fraction cpu b
           (snd (train_loop pre cpu (set_training true epoch1_start))) a) /\
    (Forall (@well_shaped scenario cpu) four_batches -> Forall in_unit fractions).
Proof.
  assert (H : train_epoch four_batches cpu epoch1_start
                = (Ok (10%float, 2%float), after_batches 4))
    by (vm_compute; reflexivity).
  split; [exact H |].
  exact (proj1 (@total_accuracy_is_sum_of_fractions scenario four_batches cpu
                  epoch1_start _ _ _) H).
Defined.

(** The total of the four batches is 2.0 although 4 of the 8 examples
    are predicted correctly: divided by the 4 batches it gives the
    mean accuracy 0.5, divided by the 8 examples it does not. *)
Example total_accuracy_is_not_a_count :
  fst (train_epoch four_batches cpu epoch1_start) = Ok (10%float, 2%float) /\
  fold_left Z.add (map (fun b : @Batch scenario =>
                          match fst b with
                          | Some x => count_eq (snd x) (snd b)
                          | None => 0
                          end) four_batches) 0 = 4 /\
  fold_left Z.add (map (fun b : @Batch scenario => len (snd b)) four_batches) 0 = 8 /\
  float_div_int 2%float (len four_batches) = Ok 0.5%float /\
  float_div_int 2%float 8 = Ok 0.25%float.
Proof. repeat split; vm_compute; reflexivity. Qed.

Lemma validate_epoch_idempotent_witness :
  (forall p bf wav, snd (@forward scenario p bf false false wav) = bf) /\
  fst (validate_epoch four_batches cpu (snd (validate_epoch four_batches cpu world0)))
    = fst (validate_epoch four_batches cpu world0).
Proof.
  assert (H : forall p bf wav, snd (@forward scenario p bf false false wav) = bf)
    by (intros p bf [x |]; reflexivity).
  split; [exact H |].
  exact (@validate_epoch_idempotent scenario H four_batches cpu world0).
Defined.

(** The model raises on the second batch: of the first training pass,
    and of the first validation pass.  Either way that is what the
    caller of [train] gets. *)
Lemma exceptions_propagate_witness :
  (exists w', train broken_batches cpu 2 None world0 = (Raise bad_input, w')) /\
  (exists w', train four_batches cpu 1 (Some broken_batches) world0
              = (Raise bad_input, w')).
Proof.
  destruct (@exceptions_propagate scenario)
    as (_ & _ & Hmodel & _ & _ & _ & _ & _ & _ & _ & Hvmodel & _ & _ &
        Hbatch & Hvbatch & Hepoch & _ & Hvepoch & _ & Hrun & _).
  split.
  - eexists.
    eapply (Hrun broken_batches cpu 2 None 0); [lia | reflexivity |].
    eapply Hepoch.
    change broken_batches with ([batch1] ++ bad_batch :: []).
    eapply Hbatch; [vm_compute; reflexivity |].
    eapply Hmodel; reflexivity.
  - eexists.
    eapply (Hrun four_batches cpu 1 (Some broken_batches) 0); [lia | reflexivity |].
    eapply Hvepoch; [discriminate | vm_compute; reflexivity | vm_compute; reflexivity |].
    change broken_batches with ([batch1] ++ bad_batch :: []).
    eapply Hvbatch; [vm_compute; reflexivity |].
    eapply Hvmodel; reflexivity.
Defined.

Lemma train_zero_batches_witness :
  1 <= 3 /\
  train (T := scenario) [] cpu 3 None world0 =
    (Raise (ZeroDivisionError "float division by zero"),
     set_training true (add_line (EpochLine 1 3) (set_history [] [] [] [] world0))).
Proof.
  assert (HE : 1 <= 3) by lia.
  split; [exact HE |].
  exact (proj1 (@train_zero_batches scenario cpu 3 None world0 HE)).
Defined.


(** ** The further properties on the concrete instance *)

(** The target of [ragged_batch] has three examples and the prediction
    two: the comparison fails, after the step. *)
Lemma metrics_failure_after_update_witness :
  train_batch cpu ragged_batch world0 =
    (Raise (RuntimeError "The size of tensor a must match the size of tensor b"),
     set_params_opt (T := scenario) 1%nat tt
       (set_grads (T := scenario) 1%nat (set_buffers (T := scenario) 0%nat world0))) /\
  validate_batch cpu ragged_batch world0 =
    (Raise (RuntimeError "The size of tensor a must match the size of tensor b"),
     set_buffers (T := scenario) 0%nat world0).
Proof.
  apply (@metrics_failure_after_update scenario cpu ragged_batch world0
           (Some (1%float, [0; 1])) 0%nat (1%float, [0; 1]) 1%float
           0%nat 1%nat 1%nat tt); try reflexivity.
  right. exists [0; 1]. split; reflexivity.
Defined.


(** The total of a pass over three batches is not the sum of the
    totals of the passes over the first and over the other two: the
    additions are rounded in turn. *)
Example totals_are_not_additive :
  fst (train_epoch ([big_batch] ++ [batch1; batch1]) cpu world0)
    = Ok (9007199254740992%float, 3%float) /\
  fst (train_epoch [big_batch] cpu world0) = Ok (9007199254740992%float, 1%float) /\
  fst (train_epoch [batch1; batch1] cpu world0) = Ok (2%float, 2%float) /\
  PrimFloat.add 9007199254740992%float 2%float = 9007199254740994%float.
Proof. repeat split; vm_compute; reflexivity. Qed.

Lemma stale_gradients_are_never_used_witness :
  (forall g g', @zero_grad scenario g = @zero_grad scenario g') /\
  fst (train_epoch four_batches cpu (set_grads (T := scenario) 7%nat world0))
    = fst (train_epoch four_batches cpu world0) /\
  snd (train_epoch four_batches cpu (set_grads (T := scenario) 7%nat world0))
    = snd (train_epoch four_batches cpu world0).
Proof.
  assert (H : forall g g', @zero_grad scenario g = @zero_grad scenario g')
    by (intros g g'; reflexivity).
  destruct (@stale_gradients_are_never_used scenario H four_batches cpu world0 7%nat)
    as (Hr & _ & Hw).
  split; [exact H | split; [exact Hr |]].
  apply Hw; [discriminate | eexists; vm_compute; reflexivity].
Defined.

(** Validation fails in the first of two epochs: the training metrics
    of that epoch are recorded, and nothing else. *)
Lemma failed_run_keeps_completed_epochs_witness :
  train four_batches cpu 2 (Some broken_batches) world0
    = (Raise bad_input, snd (train four_batches cpu 2 (Some broken_batches) world0)) /\
  training_loss (snd (train four_batches cpu 2 (Some broken_batches) world0))
    = [2.5%float] /\
  exists i, 0 <= i < 2 /\
    interrupted (wandb_log world0) (Some broken_batches) i
      (snd (train four_batches cpu 2 (Some broken_batches) world0)).
Proof.
  assert (H : train four_batches cpu 2 (Some broken_batches) world0
              = (Raise bad_input,
                 snd (train four_batches cpu 2 (Some broken_batches) world0)))
    by (vm_compute; reflexivity).
  split; [exact H | split; [vm_compute; reflexivity |]].
  exact (@failed_run_keeps_completed_epochs scenario four_batches cpu 2
           (Some broken_batches) world0 _ _ H).
Defined.

Lemma run_output_follows_history_witness :
  train four_batches cpu 2 (Some four_batches) world0
    = (Ok ([0.5%float; 0.5%float], [2.5%float; 2.5%float],
           [0.5%float; 0.5%float], [2.5%float; 2.5%float]),
       snd (train four_batches cpu 2 (Some four_batches) world0)) /\
  len (wandb_log (snd (train four_batches cpu 2 (Some four_batches) world0))) = 4 /\
  console (snd (train four_batches cpu 2 (Some four_batches) world0)) =
    [EpochLine 1 2; TrainingLine 2.5%float 0.5%float; TestingLine 2.5%float 0.5%float;
     RuleLine;
     EpochLine 2 2; TrainingLine 2.5%float 0.5%float; TestingLine 2.5%float 0.5%float;
     RuleLine; FinishedLine].
Proof.
  assert (H : train four_batches cpu 2 (Some four_batches) world0
              = (Ok ([0.5%float; 0.5%float], [2.5%float; 2.5%float],
                     [0.5%float; 0.5%float], [2.5%float; 2.5%float]),
                 snd (train four_batches cpu 2 (Some four_batches) world0)))
    by (vm_compute; reflexivity).
  destruct (@run_output_follows_history scenario four_batches cpu 2 (Some four_batches)
              world0 _ _ H) as [Hlog Hcon].
  split; [exact H |].
  split; [rewrite Hlog; reflexivity | rewrite Hcon; reflexivity].
Defined.

Lemma model_filename_orders_runs_witness :
  valid_datetime half_past_nine /\ valid_datetime a_second_later /\
  model_filename (strftime_Ymd_HMS half_past_nine)
    = "models/aisf/void_20230517_093059.pth"%string /\
  String.compare (model_filename (strftime_Ymd_HMS half_past_nine))
                 (model_filename (strftime_Ymd_HMS a_second_later)) = Lt.
Proof.
  assert (Va : valid_datetime half_past_nine) by (unfold valid_datetime; simpl; lia).
  assert (Vb : valid_datetime a_second_later) by (unfold valid_datetime; simpl; lia).
  split; [exact Va | split; [exact Vb | split; [reflexivity |]]].
  rewrite (proj1 (proj2 (model_filename_orders_runs half_past_nine a_second_later
                           Va Vb))).
  reflexivity.
Defined.

Lemma validation_does_not_change_training_witness :
  (forall p bf wav, snd (@forward scenario p bf false false wav) = bf) /\
  train four_batches cpu 2 (Some four_batches) world0
    = (Ok ([0.5%float; 0.5%float], [2.5%float; 2.5%float],
           [0.5%float; 0.5%float], [2.5%float; 2.5%float]),
       snd (train four_batches cpu 2 (Some four_batches) world0)) /\
  exists h0 w0,
    train four_batches cpu 2 None world0 = (Ok h0, w0) /\
    fst (fst (fst h0)) = [0.5%float; 0.5%float] /\
    snd (fst (fst h0)) = [2.5%float; 2.5%float] /\
    same_weights w0 (snd (train four_batches cpu 2 (Some four_batches) world0)).
Proof.
  assert (Hpure : forall p bf wav, snd (@forward scenario p bf false false wav) = bf)
    by (intros p bf [x |]; reflexivity).
  assert (H : train four_batches cpu 2 (Some four_batches) world0
              = (Ok ([0.5%float; 0.5%float], [2.5%float; 2.5%float],
                     [0.5%float; 0.5%float], [2.5%float; 2.5%float]),
                 snd (train four_batches cpu 2 (Some four_batches) world0)))
    by (vm_compute; reflexivity).
  split; [exact Hpure | split; [exact H |]].
  exact (@validation_does_not_change_training scenario Hpure four_batches four_batches
           cpu 2 world0 _ _ H).
Defined.

(** The four batches have a prediction for each target: the total
    accuracy 2.0 is at most 4.0, and the mean 0.5 is in [0, 1]. *)
Lemma mean_accuracy_in_unit_witness :
  Forall (@well_shaped scenario cpu) four_batches /\
  len four_batches < 2 ^ 53 /\
  (train_epoch four_batches cpu epoch1_start = (Ok (10%float, 2%float), after_batches 4) \/
   validate_epoch four_batches cpu epoch1_start
     = (Ok (10%float, 2%float), after_batches 4)) /\
  PrimFloat.leb 0%float 2%float = true /\
  PrimFloat.leb 2%float (Z2float (len four_batches)) = true /\
  (four_batches <> [] ->
   exists x, float_div_int 2%float (len four_batches) = Ok x /\ in_unit x).
Proof.
  assert (Hs : Forall (@well_shaped scenario cpu) four_batches).
  { apply Forall_forall. intros b Hb.
    destruct Hb as [<- | [<- | [<- | [<- | []]]]];
      (split; [reflexivity |]);
      intros wav p bf tr ge out prediction Hw Hf Hp;
      cbn in Hw; injection Hw as <-;
      cbn in Hf; injection Hf as <-;
      cbn in Hp; injection Hp as <-; reflexivity. }
  assert (Hl : len four_batches < 2 ^ 53) by reflexivity.
  assert (H : train_epoch four_batches cpu epoch1_start
                = (Ok (10%float, 2%float), after_batches 4) \/
              validate_epoch four_batches cpu epoch1_start
                = (Ok (10%float, 2%float), after_batches 4))
    by (left; vm_compute; reflexivity).
  split; [exact Hs | split; [exact Hl | split; [exact H |]]].
  exact (@mean_accuracy_in_unit scenario four_batches cpu epoch1_start _ _ _ Hs Hl H).
Defined.

Lemma recorded_accuracies_in_unit_witness :
  Forall (@well_shaped scenario cpu) four_batches /\
  len four_batches < 2 ^ 53 /\
  train four_batches cpu 2 (Some four_batches) world0
    = (Ok ([0.5%float; 0.5%float], [2.5%float; 2.5%float],
           [0.5%float; 0.5%float], [2.5%float; 2.5%float]),
       snd (train four_batches cpu 2 (Some four_batches) world0)) /\
  Forall in_unit [0.5%float; 0.5%float] /\ Forall in_unit [0.5%float; 0.5%float].
Proof.
  assert (Hs : Forall (@well_shaped scenario cpu) four_batches).
  { apply Forall_forall. intros b Hb.
    destruct Hb as [<- | [<- | [<- | [<- | []]]]];
      (split; [reflexivity |]);
      intros wav p bf tr ge out prediction Hw Hf Hp;
      cbn in Hw; injection Hw as <-;
      cbn in Hf; injection Hf as <-;
      cbn in Hp; injection Hp as <-; reflexivity. }
  assert (Hl : len four_batches < 2 ^ 53) by reflexivity.
  assert (Ht : forall d : @DataLoader scenario,
             Some four_batches = Some d ->
             Forall (@well_shaped scenario cpu) d /\ len d < 2 ^ 53).
  { intros d Hd. injection Hd as <-. split; [exact Hs | exact Hl]. }
  assert (H : train four_batches cpu 2 (Some four_batches) world0
              = (Ok ([0.5%float; 0.5%float], [2.5%float; 2.5%float],
                     [0.5%float; 0.5%float], [2.5%float; 2.5%float]),
                 snd (train four_batches cpu 2 (Some four_batches) world0)))
    by (vm_compute; reflexivity).
  split; [exact Hs | split; [exact Hl | split; [exact H |]]].
  exact (@recorded_accuracies_in_unit scenario four_batches cpu 2 (Some four_batches)
           world0 _ _ Hs Hl Ht H).
Defined.
